(** * librdkafka 1.3.0, [rdkafka_ssl.c]: the OpenSSL transport

    A shallow embedding of the TLS transport of librdkafka
    ([src/plugins/out_kafka/librdkafka-1.3.0/src/rdkafka_ssl.c]) and the
    properties of its error reporting, I/O adapter, handshake, verification
    hook, endpoint identification and certificate loading.

    OpenSSL and the rest of librdkafka are external to the file: their
    operations are the fields of the interface classes below and every
    theorem holds for all their implementations. State that the C code
    reaches through pointers and thread-local variables (the OpenSSL error
    queue, [errno], the poll set, the log) is passed explicitly. *)

From Stdlib Require Import ZArith List String Ascii Bool Lia Sorted.
From Stdlib Require Import DecimalString HexadecimalString.
Import ListNotations.
Local Open Scope Z_scope.

(* ================================================================= *)
(** * Part I: the embedding *)
(* ================================================================= *)

(** ** C integers, strings and bounded buffers *)

Definition INT_MAX : Z := 2147483647.

(** Conversion to the 32-bit [int]: two's complement wrap-around, as the
    casts [(int)rlen], [(int)strlen(..)] and [int serr2 = ERR_peek_error()]
    do it. *)
Definition to_int (z : Z) : Z := (z + 2^31) mod 2^32 - 2^31.

(** [%d] *)
Definition string_of_Z (z : Z) : string :=
  DecimalString.NilZero.string_of_int (Z.to_int z).

(** [%lx] *)
Definition hex_of_Z (z : Z) : string :=
  HexadecimalString.NilZero.string_of_int (Z.to_hex_int z).

(** [strchr(s, c) != NULL], [strrchr(s, c)] as the offset of the last
    occurrence, and [strspn(s, accept)]. *)
Fixpoint strchr_found (s : string) (c : ascii) : bool :=
  match s with
  | EmptyString => false
  | String a s' => Ascii.eqb a c || strchr_found s' c
  end.

Fixpoint strrchr (s : string) (c : ascii) : option nat :=
  match s with
  | EmptyString => None
  | String a s' =>
      match strrchr s' c with
      | Some i => Some (S i)
      | None => if Ascii.eqb a c then Some 0%nat else None
      end
  end.

Fixpoint strspn (s accept : string) : nat :=
  match s with
  | EmptyString => 0%nat
  | String a s' =>
      if strchr_found accept a then S (strspn s' accept) else 0%nat
  end.

(** [memcpy(dst, src, n)], on the bytes of [dst]. *)
Definition memcpy (dst src : list ascii) (n : nat) : list ascii :=
  firstn n src ++ skipn n dst.

(** [rd_snprintf(dst, size, "...")] with the formatted text [s]: at most
    [size - 1] characters are stored, followed by the terminator; with
    [size = 0] nothing is stored and [dst] keeps its content. A buffer is
    modelled by the C string it holds. *)
Definition rd_snprintf (dst : string) (size : nat) (s : string) : string :=
  match size with
  | O => dst
  | S n => substring 0 n s
  end.

(** How a call ends: it returns, it stops in [rd_assert], or the model
    runs out of loop iterations (which no call does, see
    [ssl_send_loop_spec] and [ssl_recv_loop_spec]). *)
Inductive outcome (A : Type) : Type :=
| Returned (a : A)
| AssertFailed
| OutOfFuel.
Arguments Returned {A} _.
Arguments AssertFailed {A}.
Arguments OutOfFuel {A}.

(** ** Logging *)

Definition LOG_ERR : Z := 3.
Definition LOG_WARNING : Z := 4.

(** [rd_rkb_log] writes a broker-scoped line, [rd_kafka_log] a line of the
    client handle. *)
Inductive log_scope : Type :=
| BrokerLog
| HandleLog.

Record log_rec : Type := mk_log
  { log_where : log_scope;
    log_level : Z;
    log_fac : string;
    log_str : string }.

Record rd_kafka_broker : Type := mk_broker
  { rkb_nodename : string;
    rkb_nodeid : Z }.

(** ** The OpenSSL error queue *)

Definition ERR_TXT_STRING : Z := 2.

(** One queued error: the packed code (an [unsigned long], never 0: 0 is
    what [ERR_get_error] answers on an empty queue) with the file, line,
    extra data and flags that [ERR_get_error_line_data] hands out. The head
    of the list is the earliest error. *)
Record err_entry : Type := mk_err
  { err_code : positive;
    err_file : string;
    err_line : Z;
    err_data : string;
    err_flags : Z }.

(** Message tables of the libraries. *)
Class Messages : Type :=
  { ERR_error_string : positive -> string;
    rd_strerror : Z -> string;
    X509_verify_cert_error_string : Z -> string }.

Section ErrorReporting.
Context {M : Messages}.

(** [ERR_error_string_n(l, buf, len)] *)
Definition ERR_error_string_n (l : positive) (len : nat) : string :=
  rd_snprintf EmptyString len (ERR_error_string l).

(** [(flags & ERR_TXT_STRING) ? data : ""] *)
Definition ssl_error_detail (e : err_entry) : string :=
  if Z.land (err_flags e) ERR_TXT_STRING =? 0 then EmptyString
  else err_data e.

(** The text of ["%s:%d: %s: %s"] for one entry. *)
Definition ssl_error_text (e : err_entry) : string :=
  (err_file e ++ ":" ++ string_of_Z (err_line e) ++ ": "
   ++ ERR_error_string_n (err_code e) 256 ++ ": "
   ++ ssl_error_detail e)%string.

(** [if (rkb) rd_rkb_log(rkb, ..) else rd_kafka_log(rk, ..)] *)
Definition ssl_error_scope (rkb : option rd_kafka_broker) : log_scope :=
  match rkb with
  | Some _ => BrokerLog
  | None => HandleLog
  end.

Definition ssl_error_log (rkb : option rd_kafka_broker) (errstr : string)
  : log_rec :=
  mk_log (ssl_error_scope rkb) LOG_ERR "SSL" errstr.

(** The [while] loop of [rd_kafka_ssl_error]: the state is the queue, [cnt],
    the content of [errstr] and the lines logged so far; the result also
    carries the queue left behind. *)
Fixpoint rd_kafka_ssl_error_loop (rkb : option rd_kafka_broker) (size : nat)
  (q : list err_entry) (cnt : Z) (errstr : string) (logs : list log_rec)
  : Z * string * list log_rec * list err_entry :=
  match q with
  | [] => (cnt, errstr, logs, q)
  | e :: q' =>
      let logs' :=
        if 0 <? cnt then logs ++ [ssl_error_log rkb errstr] else logs in
      let errstr' := rd_snprintf errstr size (ssl_error_text e) in
      rd_kafka_ssl_error_loop rkb size q' (cnt + 1) errstr' logs'
  end.

Record ssl_error_result : Type := mk_ssl_error_result
  { se_errstr : string;
    se_logs : list log_rec;
    se_queue : list err_entry }.

Definition rd_kafka_ssl_error (rkb : option rd_kafka_broker)
  (errstr : string) (errstr_size : nat) (q : list err_entry)
  : ssl_error_result :=
  match rd_kafka_ssl_error_loop rkb errstr_size q 0 errstr [] with
  | (cnt, errstr', logs, q') =>
      mk_ssl_error_result
        (if cnt =? 0 then rd_snprintf errstr' errstr_size "No error"
         else errstr')
        logs q'
  end.

End ErrorReporting.

(** ** The session, the thread and the broker as the transport sees them *)

(** [SSL_get_error] codes and [X509_V_OK], from OpenSSL's [ssl.h] and
    [x509_vfy.h]. *)
Definition SSL_ERROR_NONE : Z := 0.
Definition SSL_ERROR_SSL : Z := 1.
Definition SSL_ERROR_WANT_READ : Z := 2.
Definition SSL_ERROR_WANT_WRITE : Z := 3.
Definition SSL_ERROR_WANT_X509_LOOKUP : Z := 4.
Definition SSL_ERROR_SYSCALL : Z := 5.
Definition SSL_ERROR_ZERO_RETURN : Z := 6.
Definition SSL_ERROR_WANT_CONNECT : Z := 7.
Definition X509_V_OK : Z := 0.

(** What a call into OpenSSL can read and change: the session object
    [rktrans->rktrans_ssl], the error queue of the thread and [errno]
    ([rd_socket_errno]). *)
Record tls (S : Type) : Type := mk_tls
  { tls_ssl : S;
    tls_errq : list err_entry;
    tls_errno : Z }.
Arguments mk_tls {S} _ _ _.
Arguments tls_ssl {S} _.
Arguments tls_errq {S} _.
Arguments tls_errno {S} _.

(** The OpenSSL calls of the transport. [SSL_write] receives the readable
    bytes at [p] and the requested count, [SSL_read] the requested count;
    each answers its [int] result and the state it leaves. [i2d_X509]
    answers the size and the allocated encoding (if any); a certificate
    name stands for its one-line text. *)
Class OpenSSL : Type :=
  { SSL : Type;
    X509 : Type;
    SSL_write : tls SSL -> list Byte.byte -> Z -> Z * tls SSL;
    SSL_read : tls SSL -> Z -> Z * tls SSL;
    SSL_do_handshake : tls SSL -> Z * tls SSL;
    SSL_get_error : tls SSL -> Z -> Z;
    SSL_get_peer_certificate : SSL -> option X509;
    SSL_get_verify_result : SSL -> Z;
    i2d_X509 : X509 -> Z * option (list Byte.byte);
    X509_get_subject_name : X509 -> string;
    X509_get_issuer_name : X509 -> string;
    SSL_set_tlsext_host_name : tls SSL -> string -> Z * tls SSL;
    SSL_set1_host : tls SSL -> string -> Z * tls SSL;
    X509_VERIFY_PARAM_set1_host : tls SSL -> string -> Z * tls SSL }.

(** The poll events, with their values in [<poll.h>]. *)
Definition POLLIN : Z := 1.
Definition POLLOUT : Z := 4.

Inductive rd_kafka_resp_err : Type :=
| RD_KAFKA_RESP_ERR__TRANSPORT
| RD_KAFKA_RESP_ERR__SSL.

(** What the transport tells its broker: [rd_kafka_broker_fail] with the
    formatted reason, and [rd_kafka_transport_connect_done]. *)
Inductive broker_note : Type :=
| BrokerFail (level : Z) (err : rd_kafka_resp_err) (reason : string)
| ConnectDone.

Section Transport.
Context {M : Messages} {L : OpenSSL}.

Record world : Type := mk_world
  { w_tls : tls SSL;
    w_rkb : rd_kafka_broker;
    w_events : Z;
    w_log : list log_rec;
    w_notes : list broker_note }.

Definition set_tls (w : world) (t : tls SSL) : world :=
  mk_world t (w_rkb w) (w_events w) (w_log w) (w_notes w).

(** Modelled from the spec: the poll-readiness registration "request read
    readiness" / "request write readiness" ([rd_kafka_transport_poll_set],
    not in this file) adds the event to the events polled for. *)
Definition rd_kafka_transport_poll_set (w : world) (event : Z) : world :=
  mk_world (w_tls w) (w_rkb w) (Z.lor (w_events w) event) (w_log w)
    (w_notes w).

Definition add_logs (w : world) (l : list log_rec) : world :=
  mk_world (w_tls w) (w_rkb w) (w_events w) (w_log w ++ l) (w_notes w).

Definition add_note (w : world) (n : broker_note) : world :=
  mk_world (w_tls w) (w_rkb w) (w_events w) (w_log w) (w_notes w ++ [n]).

(** [rd_kafka_transport_ssl_clear_error]: [ERR_clear_error()] and
    [rd_set_errno(0)]. *)
Definition rd_kafka_transport_ssl_clear_error (w : world) : world :=
  set_tls w (mk_tls (tls_ssl (w_tls w)) [] 0).

(** [ERR_peek_error()]: the code of the earliest error, 0 on an empty
    queue; the queue is left as it is. *)
Definition ERR_peek_error (q : list err_entry) : Z :=
  match q with
  | [] => 0
  | e :: _ => Z.pos (err_code e)
  end.


(** [rd_kafka_ssl_error(NULL, rktrans->rktrans_rkb, errstr, errstr_size)]
    on the queue of the thread. *)
Definition ssl_error_in_world (w : world) (errstr : string) (size : nat)
  : world * string :=
  let r := rd_kafka_ssl_error (Some (w_rkb w)) errstr size
             (tls_errq (w_tls w)) in
  (add_logs
     (set_tls w (mk_tls (tls_ssl (w_tls w)) (se_queue r)
                   (tls_errno (w_tls w))))
     (se_logs r),
   se_errstr r).

(** [rd_kafka_transport_ssl_io_update]: the result, the world and the
    content of [errstr]. *)
Definition rd_kafka_transport_ssl_io_update (w : world) (ret : Z)
  (errstr : string) (errstr_size : nat) : Z * world * string :=
  let serr := SSL_get_error (w_tls w) ret in
  if serr =? SSL_ERROR_WANT_READ then
    (0, rd_kafka_transport_poll_set w POLLIN, errstr)
  else if (serr =? SSL_ERROR_WANT_WRITE) || (serr =? SSL_ERROR_WANT_CONNECT)
  then
    (0, rd_kafka_transport_poll_set w POLLOUT, errstr)
  else if serr =? SSL_ERROR_SYSCALL then
    let serr2 := to_int (ERR_peek_error (tls_errq (w_tls w))) in
    if (serr2 =? 0) && (tls_errno (w_tls w) =? 0) then
      (-1, w, rd_snprintf errstr errstr_size "Disconnected")
    else if negb (serr2 =? 0) then
      let (w', errstr') := ssl_error_in_world w errstr errstr_size in
      (-1, w', errstr')
    else
      (-1, w,
       rd_snprintf errstr errstr_size
         ("SSL transport error: " ++ rd_strerror (tls_errno (w_tls w))))
  else if serr =? SSL_ERROR_ZERO_RETURN then
    (-1, w, rd_snprintf errstr errstr_size "Disconnected")
  else
    let (w', errstr') := ssl_error_in_world w errstr errstr_size in
    (-1, w', errstr').




End Transport.

(** ** Handshake *)

Section Handshake.
Context {M : Messages} {L : OpenSSL}.

(** [rd_kafka_transport_ssl_verify]; [enable_verify] is
    [rk_conf.ssl.enable_verify]. Debug lines ([rd_rkb_dbg]) are not
    modelled. *)
Definition rd_kafka_transport_ssl_verify (enable_verify : bool) (w : world)
  : Z * world :=
  if negb enable_verify then (0, w)
  else
    match SSL_get_peer_certificate (tls_ssl (w_tls w)) with
    | None =>
        (-1, add_note w
               (BrokerFail LOG_ERR RD_KAFKA_RESP_ERR__SSL
                  "Broker did not provide a certificate"))
    | Some _ =>
        let rl := SSL_get_verify_result (tls_ssl (w_tls w)) in
        if negb (rl =? X509_V_OK) then
          (-1, add_note w
                 (BrokerFail LOG_ERR RD_KAFKA_RESP_ERR__SSL
                    ("Failed to verify broker certificate: "
                     ++ X509_verify_cert_error_string rl)))
        else (0, w)
    end.

(** [strstr(s, pat) != NULL] *)
Definition strstr_found (s pat : string) : bool :=
  match index 0 pat s with
  | Some _ => true
  | None => false
  end.

(** [rd_kafka_transport_ssl_handshake]: 1 on completion, 0 while in
    progress, -1 on error. Its [errstr] is a local array of 512 bytes. *)
Definition rd_kafka_transport_ssl_handshake (enable_verify : bool)
  (w : world) : Z * world :=
  let (r, t) := SSL_do_handshake (w_tls w) in
  let w1 := set_tls w t in
  if r =? 1 then
    let (v, w2) := rd_kafka_transport_ssl_verify enable_verify w1 in
    if v =? -1 then (-1, w2) else (1, add_note w2 ConnectDone)
  else
    match rd_kafka_transport_ssl_io_update w1 r EmptyString 512 with
    | (u, w2, errstr) =>
        if u =? -1 then
          (-1, add_note w2
                 (BrokerFail LOG_ERR RD_KAFKA_RESP_ERR__SSL
                    ("SSL handshake failed: " ++ errstr
                     ++ (if strstr_found errstr "unexpected message"
                         then ": client authentication might be required (see broker log)"
                         else EmptyString))))
        else (0, w2)
    end.

End Handshake.

(** ** The verification hook *)

(** The chain context that OpenSSL hands to the hook. *)
Record X509_STORE_CTX (X : Type) : Type := mk_x509_ctx
  { x509_current_cert : option X;
    x509_error_depth : Z;
    x509_error : Z }.
Arguments mk_x509_ctx {X} _ _ _.
Arguments x509_current_cert {X} _.
Arguments x509_error_depth {X} _.
Arguments x509_error {X} _.

Definition X509_STORE_CTX_set_error {X : Type} (ctx : X509_STORE_CTX X)
  (err : Z) : X509_STORE_CTX X :=
  mk_x509_ctx (x509_current_cert ctx) (x509_error_depth ctx) err.

(** What the application callback [rk_conf.ssl.cert_verify_cb] leaves: its
    result, the error code behind [&x509_error] and the text in
    [errstr]. *)
Record cert_verify_answer : Type := mk_cert_verify_answer
  { cv_ok : Z;
    cv_x509_error : Z;
    cv_errstr : string }.

(** The callback, applied to the node name and id of the broker, the error
    code on entry, the depth, the encoded certificate and its size, and the
    content and size of [errstr]. *)
Definition cert_verify_cb_t : Type :=
  string -> Z -> Z -> Z -> list Byte.byte -> nat -> string -> nat ->
  cert_verify_answer.

Section VerifyHook.
Context {L : OpenSSL}.

(** [X509_NAME_oneline(name, buf, size)] *)
Definition X509_NAME_oneline (name : string) (size : nat) : string :=
  rd_snprintf EmptyString size name.

Definition cert_verify_log (msg : string) : log_rec :=
  mk_log BrokerLog LOG_ERR "SSLCERTVRFY" msg.

Record hook_result : Type := mk_hook_result
  { hook_ret : Z;
    hook_ctx : X509_STORE_CTX X509;
    hook_logs : list log_rec;
    hook_called : bool }.

(** [rd_kafka_transport_ssl_cert_verify_cb]. [curr] is the broker of the
    thread-local [rd_kafka_curr_transport] ([None] for a null pointer);
    [hook_called] records whether the application callback was invoked. *)
Definition rd_kafka_transport_ssl_cert_verify_cb (cb : cert_verify_cb_t)
  (curr : option rd_kafka_broker) (preverify_ok : Z)
  (x509_ctx : X509_STORE_CTX X509) : outcome hook_result :=
  match curr with
  | None => AssertFailed
  | Some rkb =>
      match x509_current_cert x509_ctx with
      | None =>
          Returned
            (mk_hook_result 0 x509_ctx
               [cert_verify_log "Failed to get current certificate to verify"]
               false)
      | Some cert =>
          let depth := x509_error_depth x509_ctx in
          let x509_orig_error := x509_error x509_ctx in
          match i2d_X509 cert with
          | (buf_size, None) =>
              Returned
                (mk_hook_result 0 x509_ctx
                   [cert_verify_log
                      "Unable to convert certificate to X509 format"]
                   false)
          | (buf_size, Some buf) =>
              if buf_size <? 0 then
                Returned
                  (mk_hook_result 0 x509_ctx
                     [cert_verify_log
                        "Unable to convert certificate to X509 format"]
                     false)
              else
                let a := cb (rkb_nodename rkb) (rkb_nodeid rkb)
                           x509_orig_error depth buf (Z.to_nat buf_size)
                           EmptyString 512%nat in
                if cv_ok a =? 0 then
                  let subject :=
                    X509_NAME_oneline (X509_get_subject_name cert) 128 in
                  let issuer :=
                    X509_NAME_oneline (X509_get_issuer_name cert) 128 in
                  Returned
                    (mk_hook_result 0
                       (X509_STORE_CTX_set_error x509_ctx (cv_x509_error a))
                       [cert_verify_log
                          ("Certificate (subject=" ++ subject ++ ", issuer="
                           ++ issuer ++ ") verification callback failed: "
                           ++ cv_errstr a)]
                       true)
                else if negb (x509_orig_error =? 0) && (cv_x509_error a =? 0)
                then
                  Returned
                    (mk_hook_result 1 (X509_STORE_CTX_set_error x509_ctx 0)
                       [] true)
                else Returned (mk_hook_result 1 x509_ctx [] true)
          end
      end
  end.

End VerifyHook.

(** ** The private key password callback *)

(** [rd_kafka_transport_ssl_passwd_cb]: the result and the bytes of [buf]
    (whose capacity OpenSSL passes as [size]), with the line logged.
    [key_password] is [rk_conf.ssl.key_password]. *)
Definition rd_kafka_transport_ssl_passwd_cb (key_password : option string)
  (buf : list ascii) (size : Z) (rwflag : Z)
  : Z * list ascii * list log_rec :=
  match key_password with
  | None =>
      (-1, buf,
       [mk_log HandleLog LOG_WARNING "SSLPASSWD"
          "Private key requires password but no password configured (ssl.key.password)"])
  | Some pw =>
      let pwlen := to_int (Z.of_nat (String.length pw)) in
      (pwlen,
       memcpy buf (list_ascii_of_string pw) (Z.to_nat (Z.min pwlen size)),
       [])
  end.

(** ** Endpoint identification *)

(** What the preprocessor fixes for a build. *)
Class Build : Type :=
  { OPENSSL_VERSION_NUMBER : Z;
    OPENSSL_NO_TLSEXT : bool;
    LIBRESSL : bool;
    MSC_VER : bool;
    RD_KAFKA_NODENAME_SIZE : nat }.

Inductive rd_kafka_ssl_endpoint_id : Type :=
| RD_KAFKA_SSL_ENDPOINT_ID_NONE
| RD_KAFKA_SSL_ENDPOINT_ID_HTTPS.

(** ["Remove ":9092" port suffix from nodename"]: [*t = 0] at the last
    colon, if there is one. *)
Definition strip_port (name : string) : string :=
  match strrchr name ":" with
  | Some i => substring 0 i name
  | None => name
  end.

(** The two tests that the source labels [ipv6] and [ipv4]. *)
Definition is_ipv6_numeric (name : string) : bool :=
  strchr_found name ":"
  && (strspn name "0123456789abcdefABCDEF:.[]%" =? String.length name)%nat.

Definition is_ipv4_numeric (name : string) : bool :=
  (strspn name "0123456789." =? String.length name)%nat.

(** What the two tests say of a name, in words: it is made only of the
    characters of [accept], and it has a colon. *)
Definition only_chars (accept name : string) : Prop :=
  forall c : ascii,
    In c (list_ascii_of_string name) -> In c (list_ascii_of_string accept).

Definition has_colon (name : string) : Prop :=
  In ":"%char (list_ascii_of_string name).

(** The specification speaks of numeric IPv4 and IPv6 literals where the
    source has the two character tests above. To compare the two, the
    literals as they are written: an IPv4 literal is a dotted quad, four
    decimal fields of one to three digits and of value at most 255; an
    IPv6 literal is the text form of an address (RFC 4291, section 2.2):
    eight groups of one to four hexadecimal digits separated by colons,
    where one [::] may stand for one or more groups and the last two
    groups may be written as a dotted quad, and it may stand in square
    brackets. A zone identifier is not part of a numeric literal. *)
Definition is_dec_digit (c : ascii) : bool := strchr_found "0123456789" c.

Definition is_hex_digit (c : ascii) : bool :=
  strchr_found "0123456789abcdefABCDEF" c.

Definition all_chars (p : ascii -> bool) (s : string) : bool :=
  forallb p (list_ascii_of_string s).

(** The fields of [s] between the separators [sep]: one more than there
    are separators. *)
Fixpoint split_on (sep : ascii) (s : string) : list string :=
  match s with
  | EmptyString => [EmptyString]
  | String c s' =>
      if Ascii.eqb c sep then EmptyString :: split_on sep s'
      else
        match split_on sep s' with
        | f :: fs => String c f :: fs
        | [] => [String c EmptyString]
        end
  end.

Definition decimal_value (f : string) : nat :=
  fold_left (fun acc c => (10 * acc + (nat_of_ascii c - 48))%nat)
    (list_ascii_of_string f) 0%nat.

Definition is_octet (f : string) : bool :=
  (1 <=? String.length f)%nat && (String.length f <=? 3)%nat
  && all_chars is_dec_digit f && (decimal_value f <=? 255)%nat.

Definition ipv4_literal (name : string) : bool :=
  match split_on "." name with
  | [a; b; c; d] => is_octet a && is_octet b && is_octet c && is_octet d
  | _ => false
  end.

Definition is_hex_group (f : string) : bool :=
  (1 <=? String.length f)%nat && (String.length f <=? 4)%nat
  && all_chars is_hex_digit f.

(** What stands between two colons: nothing (at a [::]), a group, a
    dotted quad, or something else. *)
Inductive group_kind : Type :=
| Gap
| Group
| Quad
| Other.

Definition kind_of (f : string) : group_kind :=
  match f with
  | EmptyString => Gap
  | _ =>
      if is_hex_group f then Group
      else if ipv4_literal f then Quad
      else Other
  end.

Definition is_gap (k : group_kind) : bool :=
  match k with Gap => true | _ => false end.

Definition is_group (k : group_kind) : bool :=
  match k with Group => true | _ => false end.

Definition is_quad (k : group_kind) : bool :=
  match k with Quad => true | _ => false end.

Definition is_other (k : group_kind) : bool :=
  match k with Other => true | _ => false end.

Definition count_kind (p : group_kind -> bool) (ks : list group_kind) : nat :=
  List.length (filter p ks).

(** The fields of an address: a [::] at the start or at the end shows as
    two empty fields, of which one is the gap; there is at most one gap,
    and a single colon at the start or at the end is none; a dotted quad
    can only be the last field and counts for two groups; without a gap
    there are eight groups, with a gap at most seven. *)
Definition ipv6_fields (ks : list group_kind) : bool :=
  let lead := match ks with Gap :: Gap :: _ => true | _ => false end in
  let ks1 := if lead then tl ks else ks in
  let trail := match rev ks1 with Gap :: Gap :: _ => true | _ => false end in
  let core := if trail then removelast ks1 else ks1 in
  let width := (count_kind is_group core + 2 * count_kind is_quad core)%nat in
  forallb (fun k => negb (is_other k)) ks
  && forallb (fun k => negb (is_quad k)) (removelast ks)
  && match count_kind is_gap core with
     | 0%nat => (width =? 8)%nat
     | 1%nat =>
         (width <=? 7)%nat
         && implb (is_gap (hd Group core)) lead
         && implb (is_gap (last core Group)) trail
     | _ => false
     end.

Definition ipv6_address (s : string) : bool :=
  ipv6_fields (map kind_of (split_on ":" s)).

(** [s] without its last character, if that is [c]. *)
Fixpoint strip_last (c : ascii) (s : string) : option string :=
  match s with
  | EmptyString => None
  | String a EmptyString => if Ascii.eqb a c then Some EmptyString else None
  | String a s' =>
      match strip_last c s' with
      | Some m => Some (String a m)
      | None => None
      end
  end.

Definition ipv6_literal (name : string) : bool :=
  ipv6_address name
  || match name with
     | String "[" rest =>
         match strip_last "]" rest with
         | Some s => ipv6_address s
         | None => false
         end
     | _ => false
     end.

Definition numeric_literal (name : string) : bool :=
  ipv4_literal name || ipv6_literal name.

Section EndpointId.
Context {M : Messages} {L : OpenSSL} {B : Build}.

(** The result of [rd_kafka_transport_ssl_set_endpoint_id], with the local
    [name] and the names that were handed to
    [SSL_set_tlsext_host_name] ([ep_sni]) and to [SSL_set1_host] or
    [X509_VERIFY_PARAM_set1_host] ([ep_host]). *)
Record endpoint_result : Type := mk_endpoint_result
  { ep_ret : Z;
    ep_world : world;
    ep_errstr : string;
    ep_name : string;
    ep_sni : option string;
    ep_host : option string }.

Definition endpoint_fail (w : world) (errstr : string) (errstr_size : nat)
  (name : string) (sni host : option string) : endpoint_result :=
  let (w', errstr') := ssl_error_in_world w errstr errstr_size in
  mk_endpoint_result (-1) w' errstr' name sni host.

(** The part after the SNI block. *)
Definition set_endpoint_host
  (endpoint_identification : rd_kafka_ssl_endpoint_id) (w : world)
  (errstr : string) (errstr_size : nat) (name : string)
  (sni : option string) : endpoint_result :=
  match endpoint_identification with
  | RD_KAFKA_SSL_ENDPOINT_ID_NONE =>
      mk_endpoint_result 0 w errstr name sni None
  | _ =>
      if 0x10100000 <=? OPENSSL_VERSION_NUMBER then
        let (r, t) := SSL_set1_host (w_tls w) name in
        if r =? 0 then
          endpoint_fail (set_tls w t) errstr errstr_size name sni (Some name)
        else mk_endpoint_result 0 (set_tls w t) errstr name sni (Some name)
      else if 0x1000200f <=? OPENSSL_VERSION_NUMBER then
        let (r, t) := X509_VERIFY_PARAM_set1_host (w_tls w) name in
        if r =? 0 then
          endpoint_fail (set_tls w t) errstr errstr_size name sni (Some name)
        else mk_endpoint_result 0 (set_tls w t) errstr name sni (Some name)
      else
        mk_endpoint_result (-1) w
          (rd_snprintf errstr errstr_size
             ("Endpoint identification not supported on this OpenSSL version (0x"
              ++ hex_of_Z OPENSSL_VERSION_NUMBER ++ ")"))
          name sni None
  end.

Definition rd_kafka_transport_ssl_set_endpoint_id
  (endpoint_identification : rd_kafka_ssl_endpoint_id) (w : world)
  (errstr : string) (errstr_size : nat) : endpoint_result :=
  let name :=
    strip_port
      (rd_snprintf EmptyString RD_KAFKA_NODENAME_SIZE
         (rkb_nodename (w_rkb w))) in
  if (0x0090806f <=? OPENSSL_VERSION_NUMBER) && negb OPENSSL_NO_TLSEXT
     && negb (is_ipv6_numeric name || is_ipv4_numeric name)
  then
    let (r, t) := SSL_set_tlsext_host_name (w_tls w) name in
    if r =? 0 then
      endpoint_fail (set_tls w t) errstr errstr_size name (Some name) None
    else
      set_endpoint_host endpoint_identification (set_tls w t) errstr
        errstr_size name (Some name)
  else
    set_endpoint_host endpoint_identification w errstr errstr_size name None.

End EndpointId.

(** ** Certificates and keys of the context *)

Definition SSL_VERIFY_NONE : Z := 0.
Definition SSL_VERIFY_PEER : Z := 1.
Definition SSL_FILETYPE_PEM : Z := 1.

(** A password callback as OpenSSL calls it: buffer, size and [rwflag] to
    the result, the buffer and the lines logged. *)
Definition pem_password_cb : Type :=
  list ascii -> Z -> Z -> Z * list ascii * list log_rec.

(** The OpenSSL calls of the context set-up. [E] is the context under
    construction together with the state of the library in the thread; the
    error queue that the calls have left is read with [env_errq]. Every
    call answers its result and the state it leaves. *)
Class CertLib {L : OpenSSL} : Type :=
  { E : Type;
    X509_STORE : Type;
    EVP_PKEY : Type;
    PKCS12 : Type;
    FILE : Type;
    env_errq : E -> list err_entry;
    SSL_CTX_new : E -> bool * E;
    SSL_CTX_set_options : E -> E;
    SSL_CTX_set_default_passwd_cb : E -> pem_password_cb -> E;
    SSL_CTX_set_cipher_list : E -> string -> Z * E;
    SSL_CTX_set_verify : E -> Z -> bool -> E;
    SSL_CTX_set1_curves_list : E -> string -> Z * E;
    SSL_CTX_set1_sigalgs_list : E -> string -> Z * E;
    SSL_CTX_set_mode : E -> E;
    SSL_CTX_set_cert_store : E -> X509_STORE -> E;
    rd_kafka_path_is_dir : string -> bool;
    SSL_CTX_load_verify_locations :
      E -> option string -> option string -> Z * E;
    rd_kafka_ssl_win_load_root_certs : E -> Z * E;
    SSL_CTX_set_default_verify_paths : E -> Z * E;
    X509_STORE_set_flags : E -> E;
    SSL_CTX_use_certificate : E -> X509 -> Z * E;
    SSL_CTX_use_certificate_chain_file : E -> string -> Z * E;
    PEM_read_bio_X509 : E -> string -> pem_password_cb -> option X509 * E;
    SSL_CTX_use_PrivateKey : E -> EVP_PKEY -> Z * E;
    SSL_CTX_use_PrivateKey_file : E -> string -> Z -> Z * E;
    PEM_read_bio_PrivateKey :
      E -> string -> pem_password_cb -> option EVP_PKEY * E;
    fopen : E -> string -> (FILE + Z) * E;
    d2i_PKCS12_fp : E -> FILE -> option PKCS12 * E;
    PKCS12_parse :
      E -> PKCS12 -> option string -> option (EVP_PKEY * X509) * E;
    SSL_CTX_check_private_key : E -> Z * E }.

Section Certs.
Context {M : Messages} {L : OpenSSL} {CL : CertLib} {B : Build}.

(** [rk->rk_conf.ssl]: an option that is not set is [None]. *)
Record ssl_conf : Type := mk_ssl_conf
  { ssl_ca : option X509_STORE;
    ssl_ca_location : option string;
    ssl_crl_location : option string;
    ssl_cert : option X509;
    ssl_cert_location : option string;
    ssl_cert_pem : option string;
    ssl_key : option EVP_PKEY;
    ssl_key_location : option string;
    ssl_key_pem : option string;
    ssl_keystore_location : option string;
    ssl_keystore_password : option string;
    ssl_key_password : option string;
    ssl_cipher_suites : option string;
    ssl_curves_list : option string;
    ssl_sigalgs_list : option string;
    ssl_enable_verify : bool;
    ssl_cert_verify_cb : option cert_verify_cb_t }.

(** The steps of [rd_kafka_ssl_set_certs] that can fail, and the history
    of a call: each step taken with whether it succeeded. *)
Inductive cert_step : Type :=
| LoadCALocation
| LoadCRL
| UseCert
| UseCertFile
| ParseCertPem
| UseCertPem
| UseKey
| UseKeyFile
| ParseKeyPem
| UseKeyPem
| OpenKeystore
| ReadKeystore
| ParseKeystore
| UseKeystoreCert
| UseKeystoreKey
| CheckPrivateKey.

Definition installs_key (s : cert_step) : bool :=
  match s with
  | UseKey | UseKeyFile | UseKeyPem | UseKeystoreKey => true
  | _ => false
  end.

Definition is_check (s : cert_step) : bool :=
  match s with
  | CheckPrivateKey => true
  | _ => false
  end.

Definition key_installed (tr : list (cert_step * bool)) : bool :=
  existsb (fun x => installs_key (fst x) && snd x) tr.

Definition check_ran (tr : list (cert_step * bool)) : bool :=
  existsb (fun x => is_check (fst x)) tr.

Definition load_failed (tr : list (cert_step * bool)) : bool :=
  existsb (fun x => negb (is_check (fst x)) && negb (snd x)) tr.

Definition check_failed (tr : list (cert_step * bool)) : bool :=
  existsb (fun x => is_check (fst x) && negb (snd x)) tr.

(** The state between two blocks of [rd_kafka_ssl_set_certs], and what an
    early [return -1] leaves: the text for [errstr] and the history. *)
Record certs_state : Type := mk_certs_state
  { cs_env : E;
    cs_check_pkey : bool;
    cs_trace : list (cert_step * bool) }.

Record certs_failure : Type := mk_certs_failure
  { cf_env : E;
    cf_text : string;
    cf_trace : list (cert_step * bool) }.

Definition certs_run : Type := (certs_state + certs_failure)%type.

Definition certs_bind (r : certs_run) (f : certs_state -> certs_run)
  : certs_run :=
  match r with
  | inl s => f s
  | inr e => inr e
  end.

Notation "r >>= f" := (certs_bind r f) (at level 50, left associativity).

(** One library call whose result must be 1: on success the new state
    (with [check_pkey] set when [key] is), else the failure with [text]. *)
Definition certs_try (s : certs_state) (step : cert_step) (key : bool)
  (text : string) (r : Z * E) : certs_run :=
  if fst r =? 1 then
    inl (mk_certs_state (snd r) (cs_check_pkey s || key)
           (cs_trace s ++ [(step, true)]))
  else inr (mk_certs_failure (snd r) text (cs_trace s ++ [(step, false)])).

Definition certs_fail (s : certs_state) (e : E) (step : cert_step)
  (text : string) : certs_run :=
  inr (mk_certs_failure e text (cs_trace s ++ [(step, false)])).

Definition certs_note (s : certs_state) (e : E) (step : cert_step)
  : certs_state :=
  mk_certs_state e (cs_check_pkey s) (cs_trace s ++ [(step, true)]).

Definition certs_env (s : certs_state) (e : E) : certs_state :=
  mk_certs_state e (cs_check_pkey s) (cs_trace s).

(** [ssl_ca], [ssl.ca.location], the Windows root store or the default
    paths. (That the store of [ssl_ca] passes to OpenSSL, and that the text
    of [ssl.key.pem] is wiped after use, changes the configuration only and
    is not modelled.) *)
Definition load_ca (conf : ssl_conf) (s : certs_state) : certs_run :=
  match ssl_ca conf with
  | Some store => inl (certs_env s (SSL_CTX_set_cert_store (cs_env s) store))
  | None =>
      match ssl_ca_location conf with
      | Some loc =>
          let is_dir := rd_kafka_path_is_dir loc in
          certs_try s LoadCALocation false "ssl.ca.location failed: "
            (SSL_CTX_load_verify_locations (cs_env s)
               (if is_dir then None else Some loc)
               (if is_dir then Some loc else None))
      | None =>
          let (r, e) :=
            if MSC_VER then rd_kafka_ssl_win_load_root_certs (cs_env s)
            else (-1, cs_env s) in
          if r =? -1 then
            inl (certs_env s (snd (SSL_CTX_set_default_verify_paths e)))
          else inl (certs_env s e)
      end
  end.

Definition load_crl (conf : ssl_conf) (s : certs_state) : certs_run :=
  match ssl_crl_location conf with
  | Some loc =>
      certs_try s LoadCRL false "ssl.crl.location failed: "
        (SSL_CTX_load_verify_locations (cs_env s) (Some loc) None)
      >>= fun s' => inl (certs_env s' (X509_STORE_set_flags (cs_env s')))
  | None => inl s
  end.

Definition load_cert (conf : ssl_conf) (s : certs_state) : certs_run :=
  match ssl_cert conf with
  | Some x509 =>
      certs_try s UseCert false "ssl_cert failed: "
        (SSL_CTX_use_certificate (cs_env s) x509)
  | None => inl s
  end.

Definition load_cert_location (conf : ssl_conf) (s : certs_state)
  : certs_run :=
  match ssl_cert_location conf with
  | Some loc =>
      certs_try s UseCertFile false "ssl.certificate.location failed: "
        (SSL_CTX_use_certificate_chain_file (cs_env s) loc)
  | None => inl s
  end.

(** The password callback that the parsers are given, for this handle. *)
Definition passwd_cb_of (conf : ssl_conf) : pem_password_cb :=
  rd_kafka_transport_ssl_passwd_cb (ssl_key_password conf).

(** [rd_kafka_ssl_X509_from_string] and [rd_kafka_ssl_PKEY_from_string] *)
Definition rd_kafka_ssl_X509_from_string (conf : ssl_conf) (e : E)
  (str : string) : option X509 * E :=
  PEM_read_bio_X509 e str (passwd_cb_of conf).

Definition rd_kafka_ssl_PKEY_from_string (conf : ssl_conf) (e : E)
  (str : string) : option EVP_PKEY * E :=
  PEM_read_bio_PrivateKey e str (passwd_cb_of conf).

Definition load_cert_pem (conf : ssl_conf) (s : certs_state) : certs_run :=
  match ssl_cert_pem conf with
  | Some pem =>
      match rd_kafka_ssl_X509_from_string conf (cs_env s) pem with
      | (None, e) =>
          certs_fail s e ParseCertPem
            "ssl.certificate.pem failed: not in PEM format?: "
      | (Some x509, e) =>
          certs_try (certs_note s e ParseCertPem) UseCertPem false
            "ssl.certificate.pem failed: " (SSL_CTX_use_certificate e x509)
      end
  | None => inl s
  end.

Definition load_key (conf : ssl_conf) (s : certs_state) : certs_run :=
  match ssl_key conf with
  | Some pkey =>
      certs_try s UseKey true "ssl_key (in-memory) failed: "
        (SSL_CTX_use_PrivateKey (cs_env s) pkey)
  | None => inl s
  end.

Definition load_key_location (conf : ssl_conf) (s : certs_state)
  : certs_run :=
  match ssl_key_location conf with
  | Some loc =>
      certs_try s UseKeyFile true "ssl.key.location failed: "
        (SSL_CTX_use_PrivateKey_file (cs_env s) loc SSL_FILETYPE_PEM)
  | None => inl s
  end.

Definition load_key_pem (conf : ssl_conf) (s : certs_state) : certs_run :=
  match ssl_key_pem conf with
  | Some pem =>
      match rd_kafka_ssl_PKEY_from_string conf (cs_env s) pem with
      | (None, e) =>
          certs_fail s e ParseKeyPem
            "ssl.key.pem failed: not in PEM format?: "
      | (Some pkey, e) =>
          certs_try (certs_note s e ParseKeyPem) UseKeyPem true
            "ssl.key.pem failed: " (SSL_CTX_use_PrivateKey e pkey)
      end
  | None => inl s
  end.

Definition load_keystore (conf : ssl_conf) (s : certs_state) : certs_run :=
  match ssl_keystore_location conf with
  | Some loc =>
      match fopen (cs_env s) loc with
      | (inr errno, e) =>
          certs_fail s e OpenKeystore
            ("Failed to open ssl.keystore.location: " ++ loc ++ ": "
             ++ rd_strerror errno)
      | (inl fp, e) =>
          match d2i_PKCS12_fp e fp with
          | (None, e1) =>
              certs_fail (certs_note s e OpenKeystore) e1 ReadKeystore
                "Error reading PKCS#12 file: "
          | (Some p12, e1) =>
              let s1 := certs_note (certs_note s e OpenKeystore) e1
                          ReadKeystore in
              match PKCS12_parse e1 p12 (ssl_keystore_password conf) with
              | (None, e2) =>
                  certs_fail s1 e2 ParseKeystore
                    ("Failed to parse PKCS#12 file: " ++ loc ++ ": ")
              | (Some (pkey, cert), e2) =>
                  certs_try (certs_note s1 e2 ParseKeystore) UseKeystoreCert
                    false "Failed to use ssl.keystore.location certificate: "
                    (SSL_CTX_use_certificate e2 cert)
                  >>= fun s2 =>
                    certs_try s2 UseKeystoreKey true
                      "Failed to use ssl.keystore.location private key: "
                      (SSL_CTX_use_PrivateKey (cs_env s2) pkey)
              end
          end
      end
  | None => inl s
  end.

(** [if (check_pkey && SSL_CTX_check_private_key(ctx) != 1)] *)
Definition check_private_key (s : certs_state) : certs_run :=
  if cs_check_pkey s then
    let (r, e) := SSL_CTX_check_private_key (cs_env s) in
    if r =? 1 then
      inl (mk_certs_state e (cs_check_pkey s)
             (cs_trace s ++ [(CheckPrivateKey, true)]))
    else
      inr (mk_certs_failure e "Private key check failed: "
             (cs_trace s ++ [(CheckPrivateKey, false)]))
  else inl s.

(** The blocks before the check, in the order of the source. *)
Definition load_all (conf : ssl_conf) (s : certs_state) : certs_run :=
  load_ca conf s >>= load_crl conf >>= load_cert conf
  >>= load_cert_location conf >>= load_cert_pem conf >>= load_key conf
  >>= load_key_location conf >>= load_key_pem conf >>= load_keystore conf.

(** What holds between two blocks: nothing failed, the check has not run,
    and [check_pkey] says whether a key was installed. *)
Definition certs_inv (s : certs_state) : Prop :=
  load_failed (cs_trace s) = false
  /\ check_ran (cs_trace s) = false
  /\ check_failed (cs_trace s) = false
  /\ cs_check_pkey s = key_installed (cs_trace s).

Definition certs_run_inv (r : certs_run) : Prop :=
  match r with
  | inl s => certs_inv s
  | inr f =>
      load_failed (cf_trace f) = true
      /\ check_ran (cf_trace f) = false
      /\ check_failed (cf_trace f) = false
  end.

(** The state in which [rd_kafka_ssl_set_certs] starts. *)
Definition certs_start (ctx : E) : certs_state := mk_certs_state ctx false [].

Record certs_result : Type := mk_certs_result
  { sc_ret : Z;
    sc_env : E;
    sc_errstr : string;
    sc_trace : list (cert_step * bool) }.

Definition certs_finish (errstr : string) (errstr_size : nat)
  (r : certs_run) : certs_result :=
  match r with
  | inl s => mk_certs_result 0 (cs_env s) errstr (cs_trace s)
  | inr f =>
      mk_certs_result (-1) (cf_env f)
        (rd_snprintf errstr errstr_size (cf_text f)) (cf_trace f)
  end.

(** [rd_kafka_ssl_set_certs] *)
Definition rd_kafka_ssl_set_certs (conf : ssl_conf) (ctx : E)
  (errstr : string) (errstr_size : nat) : certs_result :=
  certs_finish errstr errstr_size
    (load_all conf (certs_start ctx) >>= check_private_key).

(** *** [rd_kafka_ssl_ctx_init] *)

(** An allow-list of the policy: [if (!SSL_CTX_set..(ctx, list)) goto
    fail] with [text] in [errstr]. *)
Definition ctx_policy (opt : option string) (call : E -> string -> Z * E)
  (text : string) (e : E) : E + E * string :=
  match opt with
  | Some v =>
      let (r, e') := call e v in
      if r =? 0 then inr (e', text) else inl e'
  | None => inl e
  end.

(** From [SSL_CTX_new] to the signature algorithms. *)
Definition ctx_init_prepare (conf : ssl_conf) (e0 : E) : E + E * string :=
  match SSL_CTX_new e0 with
  | (false, e) => inr (e, "SSLv23_client_method() failed: "%string)
  | (true, e) =>
      let e1 :=
        SSL_CTX_set_default_passwd_cb (SSL_CTX_set_options e)
          (passwd_cb_of conf) in
      match ctx_policy (ssl_cipher_suites conf) SSL_CTX_set_cipher_list
              "ssl.cipher.suites failed: " e1 with
      | inr f => inr f
      | inl e2 =>
          let e3 :=
            SSL_CTX_set_verify e2
              (if ssl_enable_verify conf then SSL_VERIFY_PEER
               else SSL_VERIFY_NONE)
              (match ssl_cert_verify_cb conf with
               | Some _ => true
               | None => false
               end) in
          if (0x1000200f <=? OPENSSL_VERSION_NUMBER) && negb LIBRESSL then
            match ctx_policy (ssl_curves_list conf) SSL_CTX_set1_curves_list
                    "ssl.curves.list failed: " e3 with
            | inr f => inr f
            | inl e4 =>
                ctx_policy (ssl_sigalgs_list conf) SSL_CTX_set1_sigalgs_list
                  "ssl.sigalgs.list failed: " e4
            end
          else inl e3
      end
  end.

Record ctx_init_result : Type := mk_ctx_init_result
  { ci_ret : Z;
    ci_ctx : option E;
    ci_errstr : string;
    ci_logs : list log_rec;
    ci_trace : list (cert_step * bool) }.

(** [(int)errstr_size > r ? (int)errstr_size - r : 0] with
    [r = (int)strlen(errstr)] *)
Definition ctx_init_room (errstr : string) (errstr_size : nat) : nat :=
  let r := to_int (Z.of_nat (String.length errstr)) in
  let size := to_int (Z.of_nat errstr_size) in
  if r <? size then Z.to_nat (size - r) else 0%nat.

(** The [fail:] label: the queue is drained behind the text that [errstr]
    holds, into the room that is left. *)
Definition ctx_init_fail (e : E) (errstr : string) (errstr_size : nat)
  (tr : list (cert_step * bool)) : ctx_init_result :=
  let d := rd_kafka_ssl_error None EmptyString
             (ctx_init_room errstr errstr_size) (env_errq e) in
  mk_ctx_init_result (-1) None (errstr ++ se_errstr d) (se_logs d) tr.

Definition rd_kafka_ssl_ctx_init (conf : ssl_conf) (e0 : E)
  (errstr : string) (errstr_size : nat) : ctx_init_result :=
  let errstr0 := if (0 <? errstr_size)%nat then EmptyString else errstr in
  match ctx_init_prepare conf e0 with
  | inr (e, text) =>
      ctx_init_fail e (rd_snprintf errstr0 errstr_size text) errstr_size []
  | inl e =>
      let res := rd_kafka_ssl_set_certs conf e errstr0 errstr_size in
      if sc_ret res =? -1 then
        ctx_init_fail (sc_env res) (sc_errstr res) errstr_size (sc_trace res)
      else
        mk_ctx_init_result 0 (Some (SSL_CTX_set_mode (sc_env res)))
          (sc_errstr res) [] (sc_trace res)
  end.

End Certs.

(** ** Slices and buffers *)

(** Modelled from the spec: the byte-slice cursor ([rd_slice_t] of
    [rdbuf.c], not in this file), "a byte-slice cursor abstraction exposing
    peek next contiguous readable chunk and advance by N consumed bytes". A
    slice is the list of its segments from the read position on. *)
Definition rd_slice : Type := list (list Byte.byte).

(** Modelled from the spec: "peek next contiguous readable chunk"
    ([rd_slice_peeker]): the unread bytes of the first segment that has
    any, nothing at the end of the slice. *)
Fixpoint rd_slice_peeker (slice : rd_slice) : list Byte.byte :=
  match slice with
  | [] => []
  | [] :: rest => rd_slice_peeker rest
  | seg :: _ => seg
  end.

(** Modelled from the spec: the bytes left to read ([rd_slice_remains]). *)
Definition rd_slice_remains (slice : rd_slice) : nat :=
  List.length (List.concat slice).

(** Modelled from the spec: "advance by N consumed bytes", the read
    position moved [n] bytes on through the segments. *)
Fixpoint rd_slice_skip (n : nat) (slice : rd_slice) : rd_slice :=
  match slice with
  | [] => []
  | seg :: rest =>
      if (n <? List.length seg)%nat then skipn n seg :: rest
      else rd_slice_skip (n - List.length seg) rest
  end.

(** Modelled from the spec: [rd_slice_read(slice, NULL, n)] advances by
    [n] and answers [n], or answers 0 and moves nothing when fewer than [n]
    bytes remain (the case that the assertion of
    [rd_kafka_transport_ssl_send] names: "wrote more bytes than available
    in slice"). *)
Definition rd_slice_read (slice : rd_slice) (n : nat) : nat * rd_slice :=
  if (n <=? rd_slice_remains slice)%nat then (n, rd_slice_skip n slice)
  else (0%nat, slice).

(** Modelled from the spec: the growable buffer ([rd_buf_t] of [rdbuf.c],
    not in this file), "a growable-buffer abstraction exposing next
    contiguous writable chunk and advance by N written bytes". Only the
    write position is modelled ([SSL_read] stores the bytes itself): the
    length written so far and the free room of each segment from the write
    position on. *)
Record rd_buf : Type := mk_rd_buf
  { rbuf_len : nat;
    rbuf_room : list nat }.

(** Modelled from the spec: "next contiguous writable chunk"
    ([rd_buf_get_writable]): the room of the first segment that has any, 0
    when the buffer is full. *)
Fixpoint first_room (room : list nat) : nat :=
  match room with
  | [] => 0%nat
  | O :: rest => first_room rest
  | c :: _ => c
  end.

Definition rd_buf_get_writable (rbuf : rd_buf) : nat :=
  first_room (rbuf_room rbuf).

(** Modelled from the spec: "advance by N written bytes"
    ([rd_buf_write(rbuf, NULL, n)]): the write position moved [n] bytes on,
    through as many segments as needed and growing the buffer past its last
    one. *)
Fixpoint take_room (n : nat) (room : list nat) : list nat :=
  match room with
  | [] => []
  | c :: rest =>
      if (n <? c)%nat then (c - n)%nat :: rest
      else take_room (n - c) rest
  end.

Definition rd_buf_write (n : nat) (rbuf : rd_buf) : rd_buf :=
  mk_rd_buf (rbuf_len rbuf + n) (take_room n (rbuf_room rbuf)).

(** Modelled from the spec: the writable capacity of the buffer
    ([rd_buf_write_remains]). *)
Definition rd_buf_write_remains (rbuf : rd_buf) : nat :=
  list_sum (rbuf_room rbuf).

(** ** Send and receive *)

(** The history of one call, for stating what the loop did: for each call
    of the transfer primitive the size of the chunk offered and the [int]
    it answered ([io_steps]), and the answer of
    [rd_kafka_transport_ssl_io_update] when the call consulted it
    ([io_class]). *)
Definition io_step : Type := (nat * Z)%type.

Definition transferred (steps : list io_step) : Z :=
  fold_right (fun st acc => Z.max 0 (snd st) + acc) 0 steps.

Section SendRecv.
Context {M : Messages} {L : OpenSSL}.

Record io_result (C : Type) : Type := mk_io
  { io_ret : Z;
    io_world : world;
    io_cursor : C;
    io_errstr : string;
    io_steps : list io_step;
    io_class : option Z }.
Arguments mk_io {C} _ _ _ _ _ _.
Arguments io_ret {C} _.
Arguments io_world {C} _.
Arguments io_cursor {C} _.
Arguments io_errstr {C} _.
Arguments io_steps {C} _.
Arguments io_class {C} _.

(** The [while] loop of [rd_kafka_transport_ssl_send]. *)
Fixpoint ssl_send_loop (fuel : nat) (w : world) (slice : rd_slice)
  (sum : Z) (steps : list io_step) (errstr : string) (errstr_size : nat)
  : outcome (io_result rd_slice) :=
  match fuel with
  | O => OutOfFuel
  | S fuel' =>
      let p := rd_slice_peeker slice in
      let rlen := List.length p in
      if (rlen =? 0)%nat then Returned (mk_io sum w slice errstr steps None)
      else
        let (r, t) := SSL_write (w_tls w) p (to_int (Z.of_nat rlen)) in
        let w1 := set_tls w t in
        let steps1 := steps ++ [(rlen, r)] in
        if r <=? 0 then
          match rd_kafka_transport_ssl_io_update w1 r errstr errstr_size with
          | (u, w2, errstr') =>
              if u =? -1 then
                Returned (mk_io (-1) w2 slice errstr' steps1 (Some u))
              else Returned (mk_io sum w2 slice errstr' steps1 (Some u))
          end
        else
          let (r2, slice') := rd_slice_read slice (Z.to_nat r) in
          if negb (Z.to_nat r =? r2)%nat then AssertFailed
          else
            let sum' := sum + r in
            if (Z.to_nat r <? rlen)%nat then
              Returned (mk_io sum' w1 slice' errstr steps1 None)
            else ssl_send_loop fuel' w1 slice' sum' steps1 errstr errstr_size
  end.

Definition rd_kafka_transport_ssl_send (w : world) (slice : rd_slice)
  (errstr : string) (errstr_size : nat) : outcome (io_result rd_slice) :=
  ssl_send_loop (S (rd_slice_remains slice))
    (rd_kafka_transport_ssl_clear_error w) slice 0 [] errstr errstr_size.

(** The [while] loop of [rd_kafka_transport_ssl_recv]. *)
Fixpoint ssl_recv_loop (fuel : nat) (w : world) (rbuf : rd_buf)
  (sum : Z) (steps : list io_step) (errstr : string) (errstr_size : nat)
  : outcome (io_result rd_buf) :=
  match fuel with
  | O => OutOfFuel
  | S fuel' =>
      let len := rd_buf_get_writable rbuf in
      if (len =? 0)%nat then Returned (mk_io sum w rbuf errstr steps None)
      else
        let w0 := rd_kafka_transport_ssl_clear_error w in
        let (r, t) := SSL_read (w_tls w0) (to_int (Z.of_nat len)) in
        let w1 := set_tls w0 t in
        let steps1 := steps ++ [(len, r)] in
        if r <=? 0 then
          match rd_kafka_transport_ssl_io_update w1 r errstr errstr_size with
          | (u, w2, errstr') =>
              if u =? -1 then
                Returned (mk_io (-1) w2 rbuf errstr' steps1 (Some u))
              else Returned (mk_io sum w2 rbuf errstr' steps1 (Some u))
          end
        else
          let rbuf' := rd_buf_write (Z.to_nat r) rbuf in
          let sum' := sum + r in
          if (Z.to_nat r <? len)%nat then
            Returned (mk_io sum' w1 rbuf' errstr steps1 None)
          else ssl_recv_loop fuel' w1 rbuf' sum' steps1 errstr errstr_size
  end.

Definition rd_kafka_transport_ssl_recv (w : world) (rbuf : rd_buf)
  (errstr : string) (errstr_size : nat) : outcome (io_result rd_buf) :=
  ssl_recv_loop (S (rd_buf_write_remains rbuf)) w rbuf 0 [] errstr
    errstr_size.

(** [SSL_write] and [SSL_read] never report more than they were asked
    for. *)
Definition write_within_request : Prop :=
  forall (t : tls SSL) (p : list Byte.byte) (num : Z),
    fst (SSL_write t p num) <= Z.max 0 num.

Definition read_within_request : Prop :=
  forall (t : tls SSL) (num : Z), fst (SSL_read t num) <= Z.max 0 num.

End SendRecv.

Arguments mk_io {_ C} _ _ _ _ _ _.
Arguments io_ret {_ C} _.
Arguments io_world {_ C} _.
Arguments io_cursor {_ C} _.
Arguments io_errstr {_ C} _.
Arguments io_steps {_ C} _.
Arguments io_class {_ C} _.

(** The loop as the specification words it, over a cursor with its
    [chunk] (size of the next contiguous chunk, 0 at the end) and
    [advance]: chunk after chunk, each step moving the cursor by what the
    primitive reported, and a failed or short step being the last one. *)
Section Chunked.
Variable C : Type.
Variable chunk : C -> nat.
Variable advance : nat -> C -> C.

Inductive chunked_transfer : C -> list io_step -> C -> Prop :=
| chunked_end (c : C) :
    chunk c = 0%nat -> chunked_transfer c [] c
| chunked_failed (c : C) (r : Z) :
    chunk c <> 0%nat -> r <= 0 -> chunked_transfer c [(chunk c, r)] c
| chunked_short (c : C) (r : Z) :
    0 < r < Z.of_nat (chunk c) ->
    chunked_transfer c [(chunk c, r)] (advance (Z.to_nat r) c)
| chunked_full (c : C) (r : Z) (steps : list io_step) (c' : C) :
    chunk c <> 0%nat -> Z.of_nat (chunk c) <= r ->
    chunked_transfer (advance (Z.to_nat r) c) steps c' ->
    chunked_transfer c ((chunk c, r) :: steps) c'.

End Chunked.

(** What a returned call owes its caller: the steps were a chunked
    transfer from the cursor it was given to the cursor it leaves, the
    result is -1 exactly when the classifier answered -1, and otherwise it
    is the number of bytes transferred, which is not negative (also when
    the classifier was consulted and asked for a retry). *)
Definition io_contract {L : OpenSSL} {C : Type} (chunk : C -> nat)
  (advance : nat -> C -> C) (c0 : C) (res : io_result C) : Prop :=
  chunked_transfer C chunk advance c0 (io_steps res) (io_cursor res)
  /\ (io_class res = Some (-1) -> io_ret res = -1)
  /\ (io_class res <> Some (-1) -> io_ret res = transferred (io_steps res))
  /\ (io_ret res = -1 -> io_class res = Some (-1))
  /\ (io_ret res = -1 \/ 0 <= io_ret res).

(** What the loop owes from a state with [sum] bytes counted and [steps]
    taken: the contract above for the steps it adds. *)
Definition loop_post {L : OpenSSL} {C : Type} (chunk : C -> nat)
  (advance : nat -> C -> C) (c : C) (sum : Z) (steps : list io_step)
  (res : io_result C) : Prop :=
  exists new : list io_step,
    io_steps res = steps ++ new
    /\ chunked_transfer C chunk advance c new (io_cursor res)
    /\ (io_class res = Some (-1) -> io_ret res = -1)
    /\ (io_class res <> Some (-1) -> io_ret res = sum + transferred new).

(** The loop as the specification words it, with the transfer primitive
    and the classifier in it. [call w c] is the call of the primitive on
    the next chunk of the cursor [c] in the state [w]: its answer and the
    state it leaves. A run goes from a state and a cursor, through the
    steps taken, to the state, the cursor and the [errstr] it ends with
    and to the answer of the classifier, if it was asked. At the end of
    the cursor nothing is called. A call that answers 0 or less is the
    last one: the classifier is asked about that answer in the state that
    the call left, and its answer, state and [errstr] are those of the
    run. A call that answers less than the chunk moves the cursor by the
    answer and is the last one. Any other call moves the cursor by the
    answer, and the run goes on from the state that the call left. *)
Section Run.
Context {M : Messages} {L : OpenSSL}.
Variable C : Type.
Variable chunk : C -> nat.
Variable advance : nat -> C -> C.
Variable call : world -> C -> Z * world.
Variable errstr : string.
Variable errstr_size : nat.

Inductive transfer_run :
  world -> C -> list io_step -> world -> C -> string -> option Z -> Prop :=
| run_end (w : world) (c : C) :
    chunk c = 0%nat -> transfer_run w c [] w c errstr None
| run_failed (w : world) (c : C) (r : Z) (w1 : world) (u : Z) (w2 : world)
    (errstr' : string) :
    chunk c <> 0%nat ->
    call w c = (r, w1) ->
    r <= 0 ->
    rd_kafka_transport_ssl_io_update w1 r errstr errstr_size
    = (u, w2, errstr') ->
    transfer_run w c [(chunk c, r)] w2 c errstr' (Some u)
| run_short (w : world) (c : C) (r : Z) (w1 : world) :
    call w c = (r, w1) ->
    0 < r < Z.of_nat (chunk c) ->
    transfer_run w c [(chunk c, r)] w1 (advance (Z.to_nat r) c) errstr None
| run_full (w : world) (c : C) (r : Z) (w1 : world) (steps : list io_step)
    (w' : world) (c' : C) (e' : string) (k : option Z) :
    chunk c <> 0%nat ->
    call w c = (r, w1) ->
    Z.of_nat (chunk c) <= r ->
    transfer_run w1 (advance (Z.to_nat r) c) steps w' c' e' k ->
    transfer_run w c ((chunk c, r) :: steps) w' c' e' k.

End Run.

(** ** A small concrete library, for the examples of Part II *)

Definition demo_messages : Messages :=
  {| ERR_error_string := fun l => ("error:" ++ hex_of_Z (Z.pos l))%string;
     rd_strerror := fun e => ("errno " ++ string_of_Z e)%string;
     X509_verify_cert_error_string :=
       fun rl => ("verify result " ++ string_of_Z rl)%string |}.

(** A session that is a verification result, a peer without certificate,
    a writer that takes at most 3 bytes and a reader that gives at most 2
    per call, and every failure reported as a syscall failure. *)
Definition demo_openssl : OpenSSL :=
  {| SSL := Z;
     X509 := unit;
     SSL_write := fun t _ num => (Z.min num 3, t);
     SSL_read := fun t num => (Z.min num 2, t);
     SSL_do_handshake := fun t => (1, t);
     SSL_get_error := fun _ _ => SSL_ERROR_SYSCALL;
     SSL_get_peer_certificate := fun _ => None;
     SSL_get_verify_result := fun s => s;
     i2d_X509 := fun _ => (3, Some [Byte.x30; Byte.x01; Byte.x00]);
     X509_get_subject_name := fun _ => "/CN=broker.example.com"%string;
     X509_get_issuer_name := fun _ => "/CN=Example CA"%string;
     SSL_set_tlsext_host_name := fun t _ => (1, t);
     SSL_set1_host := fun t _ => (1, t);
     X509_VERIFY_PARAM_set1_host := fun t _ => (1, t) |}.

Definition demo_cert : @X509 demo_openssl := tt.

Definition demo_build : Build :=
  {| OPENSSL_VERSION_NUMBER := 0x1010104f;
     OPENSSL_NO_TLSEXT := false;
     LIBRESSL := false;
     MSC_VER := false;
     RD_KAFKA_NODENAME_SIZE := 256 |}.

(** A context set-up in which every call succeeds, except that no keystore
    file can be opened ([ENOENT]). *)
Definition demo_certlib : @CertLib demo_openssl :=
  {| E := unit;
     X509_STORE := unit;
     EVP_PKEY := unit;
     PKCS12 := unit;
     FILE := unit;
     env_errq := fun _ => [];
     SSL_CTX_new := fun e => (true, e);
     SSL_CTX_set_options := fun e => e;
     SSL_CTX_set_default_passwd_cb := fun e _ => e;
     SSL_CTX_set_cipher_list := fun e _ => (1, e);
     SSL_CTX_set_verify := fun e _ _ => e;
     SSL_CTX_set1_curves_list := fun e _ => (1, e);
     SSL_CTX_set1_sigalgs_list := fun e _ => (1, e);
     SSL_CTX_set_mode := fun e => e;
     SSL_CTX_set_cert_store := fun e _ => e;
     rd_kafka_path_is_dir := fun _ => false;
     SSL_CTX_load_verify_locations := fun e _ _ => (1, e);
     rd_kafka_ssl_win_load_root_certs := fun e => (0, e);
     SSL_CTX_set_default_verify_paths := fun e => (1, e);
     X509_STORE_set_flags := fun e => e;
     SSL_CTX_use_certificate := fun e _ => (1, e);
     SSL_CTX_use_certificate_chain_file := fun e _ => (1, e);
     PEM_read_bio_X509 := fun e _ _ => (Some demo_cert, e);
     SSL_CTX_use_PrivateKey := fun e _ => (1, e);
     SSL_CTX_use_PrivateKey_file := fun e _ _ => (1, e);
     PEM_read_bio_PrivateKey := fun e _ _ => (Some tt, e);
     fopen := fun e _ => (inr 2, e);
     d2i_PKCS12_fp := fun e _ => (Some tt, e);
     PKCS12_parse :=
       fun e _ _ => (Some (tt, demo_cert), e);
     SSL_CTX_check_private_key := fun e => (1, e) |}.

Definition demo_err : err_entry :=
  mk_err 336134278%positive "s3_clnt.c" 1264 EmptyString 0.

Definition demo_world : @world demo_openssl :=
  @mk_world demo_openssl (mk_tls 0 [demo_err] 0)
    (mk_broker "broker.example.com:9093" 1) 0 [] [].

(** Two more brokers: one whose name has five dotted fields, and one with
    a link-local address, its zone identifier and a port. *)
Definition demo_dotted_world : @world demo_openssl :=
  @mk_world demo_openssl (mk_tls 0 [] 0)
    (mk_broker "1.2.3.4.5:9092" 2) 0 [] [].

Definition demo_scoped_world : @world demo_openssl :=
  @mk_world demo_openssl (mk_tls 0 [] 0)
    (mk_broker "[fe80::1%eth0]:9092" 3) 0 [] [].

(** A key file together with a keystore that cannot be opened. *)
Definition demo_conf : @ssl_conf demo_openssl demo_certlib :=
  @mk_ssl_conf demo_openssl demo_certlib None None None None None None None
    (Some "client.key"%string) None (Some "missing.p12"%string) None None
    None None None true None.

(** An application callback that rejects with its own error code. *)
Definition demo_reject : cert_verify_cb_t :=
  fun _ _ _ _ _ _ _ _ => mk_cert_verify_answer 0 18 "self signed".

(** ** The last error of the thread *)

(** Further message tables of OpenSSL: what ["%s"] prints for the answers
    of [ERR_lib_error_string], [ERR_func_error_string] and
    [ERR_reason_error_string]. *)
Class ErrorStrings : Type :=
  { ERR_lib_error_string : positive -> string;
    ERR_func_error_string : positive -> string;
    ERR_reason_error_string : positive -> string }.

(** [ERR_peek_last_error_line_data]: the latest error of the queue, which
    is left as it is. *)
Definition ERR_peek_last_error_line_data (q : list err_entry)
  : option err_entry :=
  match q with
  | [] => None
  | e :: _ => Some (last q e)
  end.

Section LastError.
Context {ES : ErrorStrings}.

(** [((flags & ERR_TXT_STRING) && data && *data) ? data :
    ERR_reason_error_string(l)] *)
Definition last_error_detail (e : err_entry) : string :=
  if Z.land (err_flags e) ERR_TXT_STRING =? 0 then
    ERR_reason_error_string (err_code e)
  else
    match err_data e with
    | EmptyString => ERR_reason_error_string (err_code e)
    | String _ _ => err_data e
    end.

(** The text of ["%lu:%s:%s:%s:%d: %s"]. *)
Definition last_error_text (e : err_entry) : string :=
  (string_of_Z (Z.pos (err_code e)) ++ ":"
   ++ ERR_lib_error_string (err_code e) ++ ":"
   ++ ERR_func_error_string (err_code e) ++ ":"
   ++ err_file e ++ ":" ++ string_of_Z (err_line e) ++ ": "
   ++ last_error_detail e)%string.

(** [rd_kafka_ssl_last_error_str]: the content of the string it returns
    (the literal empty string, or its thread-local [errstr[256]]). *)
Definition rd_kafka_ssl_last_error_str (q : list err_entry) : string :=
  match ERR_peek_last_error_line_data q with
  | None => EmptyString
  | Some e => rd_snprintf EmptyString 256 (last_error_text e)
  end.

End LastError.

(** ** The I/O event of a session *)

Section IoEvent.
Context {M : Messages} {L : OpenSSL}.

(** [rd_kafka_transport_ssl_io_event]. Its [errstr] is a local array of
    512 bytes that is not initialised: [stack] is what it holds on
    entry. *)
Definition rd_kafka_transport_ssl_io_event (w : world) (events : Z)
  (stack : string) : Z * world :=
  if negb (Z.land events POLLOUT =? 0) then
    let w0 := rd_kafka_transport_ssl_clear_error w in
    let (r, t) := SSL_write (w_tls w0) [] 0 in
    match rd_kafka_transport_ssl_io_update (set_tls w0 t) r stack 512 with
    | (u, w2, errstr) =>
        if u =? -1 then
          (-1, add_note w2
                 (BrokerFail LOG_ERR RD_KAFKA_RESP_ERR__TRANSPORT errstr))
        else (0, w2)
    end
  else (0, w).

End IoEvent.

(** ** Setting up a session on a connected socket *)

(** The OpenSSL calls that create a session and start its handshake.
    [SSL_new] starts from the state of the thread alone and leaves the
    session it made, if any. *)
Class SessionLib {L : OpenSSL} : Type :=
  { SSL_CTX : Type;
    SSL_new : SSL_CTX -> tls unit -> tls (option SSL);
    SSL_set_fd : tls SSL -> Z -> Z * tls SSL;
    SSL_connect : tls SSL -> Z * tls SSL }.

Section Connect.
Context {M : Messages} {L : OpenSSL} {B : Build} {SL : SessionLib}.

(** [rd_kafka_transport_t], which may have no session yet
    ([rktrans_ssl] is [NULL]), with its socket [rktrans_s] and, as in
    [world], the error queue and [errno] of the thread, the events polled
    for, the log and what the broker was told. *)
Record rd_kafka_transport : Type := mk_transport
  { rktrans_ssl : option SSL;
    rktrans_s : Z;
    rktrans_errq : list err_entry;
    rktrans_errno : Z;
    rktrans_rkb : rd_kafka_broker;
    rktrans_events : Z;
    rktrans_log : list log_rec;
    rktrans_notes : list broker_note }.

(** The transport with the session and thread state [t]. *)
Definition transport_world (rktrans : rd_kafka_transport) (t : tls SSL)
  : world :=
  mk_world t (rktrans_rkb rktrans) (rktrans_events rktrans)
    (rktrans_log rktrans) (rktrans_notes rktrans).

Definition world_transport (w : world) (s : Z) : rd_kafka_transport :=
  mk_transport (Some (tls_ssl (w_tls w))) s (tls_errq (w_tls w))
    (tls_errno (w_tls w)) (w_rkb w) (w_events w) (w_log w) (w_notes w).

(** The result of [rd_kafka_transport_ssl_connect], with what
    [rd_kafka_transport_ssl_set_endpoint_id] answered if it was called
    ([cn_endpoint]) and, if [SSL_connect] was called, the state it was
    called in and its answer ([cn_connect]). *)
Record connect_result : Type := mk_connect_result
  { cn_ret : Z;
    cn_trans : rd_kafka_transport;
    cn_errstr : string;
    cn_endpoint : option endpoint_result;
    cn_connect : option (tls SSL * Z) }.

(** The [fail:] label of [rd_kafka_transport_ssl_connect], with the
    session [ssl] and the thread state that the failed call left. *)
Definition connect_fail (rkb : rd_kafka_broker)
  (rktrans : rd_kafka_transport) (ssl : option SSL) (q : list err_entry)
  (errno : Z) (errstr : string) (errstr_size : nat) : connect_result :=
  let r := rd_kafka_ssl_error (Some rkb) errstr errstr_size q in
  mk_connect_result (-1)
    (mk_transport ssl (rktrans_s rktrans) (se_queue r) errno
       (rktrans_rkb rktrans) (rktrans_events rktrans)
       (rktrans_log rktrans ++ se_logs r) (rktrans_notes rktrans))
    (se_errstr r) None None.

(** [rd_kafka_transport_ssl_connect]; [ctx] is [rk_conf.ssl.ctx] and
    [endpoint_identification] the configured mode. *)
Definition rd_kafka_transport_ssl_connect
  (endpoint_identification : rd_kafka_ssl_endpoint_id) (ctx : SSL_CTX)
  (rkb : rd_kafka_broker) (rktrans : rd_kafka_transport) (errstr : string)
  (errstr_size : nat) : connect_result :=
  let t1 :=
    SSL_new ctx
      (mk_tls tt (rktrans_errq rktrans) (rktrans_errno rktrans)) in
  match tls_ssl t1 with
  | None =>
      connect_fail rkb rktrans None (tls_errq t1) (tls_errno t1) errstr
        errstr_size
  | Some ssl =>
      let (r, t2) :=
        SSL_set_fd (mk_tls ssl (tls_errq t1) (tls_errno t1))
          (to_int (rktrans_s rktrans)) in
      if r =? 0 then
        connect_fail rkb rktrans (Some (tls_ssl t2)) (tls_errq t2)
          (tls_errno t2) errstr errstr_size
      else
        let ep :=
          rd_kafka_transport_ssl_set_endpoint_id endpoint_identification
            (transport_world rktrans t2) errstr errstr_size in
        if ep_ret ep =? -1 then
          mk_connect_result (-1)
            (world_transport (ep_world ep) (rktrans_s rktrans))
            (ep_errstr ep) (Some ep) None
        else
          let w3 := rd_kafka_transport_ssl_clear_error (ep_world ep) in
          let (c, t4) := SSL_connect (w_tls w3) in
          let w4 := set_tls w3 t4 in
          if c =? 1 then
            mk_connect_result 0
              (world_transport (add_note w4 ConnectDone)
                 (rktrans_s rktrans))
              (ep_errstr ep) (Some ep) (Some (w_tls w3, c))
          else
            match
              rd_kafka_transport_ssl_io_update w4 c (ep_errstr ep)
                errstr_size
            with
            | (u, w5, errstr') =>
                mk_connect_result (if u =? -1 then -1 else 0)
                  (world_transport w5 (rktrans_s rktrans)) errstr'
                  (Some ep) (Some (w_tls w3, c))
            end
  end.

End Connect.

(** ** The Windows root store *)

(** The calls of [rd_kafka_ssl_win_load_root_certs] into OpenSSL, on the
    trust store of the context together with the state of the thread. *)
Class WinCrypt {L : OpenSSL} : Type :=
  { TRUST : Type;
    d2i_X509 : TRUST -> list Byte.byte -> option X509 * TRUST;
    X509_STORE_add_cert : TRUST -> X509 -> Z * TRUST }.

Module Windows.
Section RootCerts.
Context {L : OpenSSL} {WC : WinCrypt}.

(** The [while] loop over [CertEnumCertificatesInStore]: [certs] are the
    encoded certificates that are still to come, the state is the trust
    store with [cnt] and [fail_cnt]. *)
Fixpoint enum_certs (certs : list (list Byte.byte)) (store : TRUST)
  (cnt fail_cnt : Z) : Z * Z * TRUST :=
  match certs with
  | [] => (cnt, fail_cnt, store)
  | der :: rest =>
      let cnt' := to_int (cnt + 1) in
      match d2i_X509 store der with
      | (None, store1) =>
          enum_certs rest store1 cnt' (to_int (fail_cnt + 1))
      | (Some x509, store1) =>
          let (r, store2) := X509_STORE_add_cert store1 x509 in
          enum_certs rest store2 cnt'
            (if r =? 0 then to_int (fail_cnt + 1) else fail_cnt)
      end
  end.

(** [rd_kafka_ssl_win_load_root_certs]; [w_store] is what [CertOpenStore]
    answers: the certificates of the Root store, or nothing. *)
Definition rd_kafka_ssl_win_load_root_certs
  (w_store : option (list (list Byte.byte))) (store : TRUST) : Z * TRUST :=
  match w_store with
  | None => (-1, store)
  | Some certs =>
      match enum_certs certs store 0 0 with
      | (cnt, fail_cnt, store') =>
          (if to_int (cnt - fail_cnt) =? 0 then -1 else 0, store')
      end
  end.

End RootCerts.
End Windows.

(** ** Histories of the transfer loops and of the certificate loader *)

Section Frames.
Context {M : Messages} {L : OpenSSL}.

(** What a transfer loop leaves of the world it was given, by the answer
    of the classifier ([io_class]): the broker is told nothing; without
    the classifier, or with its answer 0, [errstr] and the log are as they
    were, and with the answer 0 read or write readiness is registered;
    with the answer -1 the call answers -1, the events polled for are as
    they were, the log is only extended and the diagnostic fits the
    buffer. *)
Definition io_frame {C : Type} (w : world) (errstr : string)
  (errstr_size : nat) (res : io_result C) : Prop :=
  w_notes (io_world res) = w_notes w
  /\ w_rkb (io_world res) = w_rkb w
  /\ (io_class res = None /\ io_errstr res = errstr
      /\ w_events (io_world res) = w_events w
      /\ w_log (io_world res) = w_log w
      \/ io_class res = Some 0 /\ io_errstr res = errstr
         /\ w_log (io_world res) = w_log w
         /\ (w_events (io_world res) = Z.lor (w_events w) POLLIN
             \/ w_events (io_world res) = Z.lor (w_events w) POLLOUT)
      \/ io_class res = Some (-1) /\ io_ret res = -1
         /\ w_events (io_world res) = w_events w
         /\ (exists lines : list log_rec,
               w_log (io_world res) = w_log w ++ lines)
         /\ ((0 < errstr_size)%nat ->
             (String.length (io_errstr res) < errstr_size)%nat)).

End Frames.

(** The place of a step in the source of [rd_kafka_ssl_set_certs]. *)
Definition step_rank (s : cert_step) : nat :=
  match s with
  | LoadCALocation => 0
  | LoadCRL => 1
  | UseCert => 2
  | UseCertFile => 3
  | ParseCertPem => 4
  | UseCertPem => 5
  | UseKey => 6
  | UseKeyFile => 7
  | ParseKeyPem => 8
  | UseKeyPem => 9
  | OpenKeystore => 10
  | ReadKeystore => 11
  | ParseKeystore => 12
  | UseKeystoreCert => 13
  | UseKeystoreKey => 14
  | CheckPrivateKey => 15
  end.

(** A history in which every step succeeded, and one that stopped at its
    first failure. *)
Definition all_ok (tr : list (cert_step * bool)) : Prop :=
  Forall (fun x => snd x = true) tr.

Definition stopped (tr : list (cert_step * bool)) : Prop :=
  exists (done : list (cert_step * bool)) (step : cert_step),
    tr = done ++ [(step, false)] /\ all_ok done.

(** The steps of a history come in the order of the source, each at most
    once; and they lie between two places of the source. *)
Definition in_source_order (tr : list (cert_step * bool)) : Prop :=
  StronglySorted lt (map (fun x => step_rank (fst x)) tr).

Definition within (lo hi : nat) (tr : list (cert_step * bool)) : Prop :=
  Forall (fun x => (lo <= step_rank (fst x) < hi)%nat) tr.

Section Histories.
Context {L : OpenSSL} {CL : CertLib}.

Definition run_trace (r : certs_run) : list (cert_step * bool) :=
  match r with
  | inl s => cs_trace s
  | inr f => cf_trace f
  end.

(** A part of the loader that starts in [s] and ends as [r] has added the
    steps [new], of the places from [lo] up to [hi], in order; they all
    succeeded if it went on, and the last one failed if it returned. *)
Definition extends (lo hi : nat) (s : certs_state) (r : certs_run) : Prop :=
  exists new : list (cert_step * bool),
    run_trace r = cs_trace s ++ new
    /\ in_source_order new
    /\ within lo hi new
    /\ match r with
       | inl _ => all_ok new
       | inr _ => stopped new
       end.

End Histories.

Section ConfUpdate.
Context {L : OpenSSL} {CL : CertLib}.

(** The configuration [conf] with other values of [ssl.curves.list] and
    [ssl.sigalgs.list]. *)
Definition with_curves_sigalgs (conf : ssl_conf)
  (curves sigalgs : option string) : ssl_conf :=
  mk_ssl_conf (ssl_ca conf) (ssl_ca_location conf) (ssl_crl_location conf)
    (ssl_cert conf) (ssl_cert_location conf) (ssl_cert_pem conf)
    (ssl_key conf) (ssl_key_location conf) (ssl_key_pem conf)
    (ssl_keystore_location conf) (ssl_keystore_password conf)
    (ssl_key_password conf) (ssl_cipher_suites conf) curves sigalgs
    (ssl_enable_verify conf) (ssl_cert_verify_cb conf).

End ConfUpdate.

Section Drained.
Context {M : Messages}.

(** The text that [rd_kafka_ssl_error] leaves for a queue: that of its
    last entry, or ["No error"]. *)
Definition drained_text (q : list err_entry) : string :=
  match q with
  | [] => "No error"%string
  | e :: _ => ssl_error_text (last q e)
  end.

End Drained.

Section EndpointKept.
Context {M : Messages} {L : OpenSSL} {B : Build}.

(** What the parts of [rd_kafka_transport_ssl_set_endpoint_id] leave of
    the world [w]: the broker is told nothing and the events polled for
    are as they were; with the answer 0 [errstr] and the log are as they
    were, with -1 the diagnostic fits the buffer. *)
Definition endpoint_kept (w : world) (errstr : string) (errstr_size : nat)
  (name : string) (sni : option string) (res : endpoint_result) : Prop :=
  ep_name res = name /\ ep_sni res = sni
  /\ w_notes (ep_world res) = w_notes w
  /\ w_events (ep_world res) = w_events w
  /\ w_rkb (ep_world res) = w_rkb w
  /\ (ep_ret res = 0 /\ ep_errstr res = errstr
      /\ w_log (ep_world res) = w_log w
      \/ ep_ret res = -1
         /\ ((0 < errstr_size)%nat ->
             (String.length (ep_errstr res) < errstr_size)%nat)).

End EndpointKept.

(** ** Further concrete libraries, for the examples of Part III *)

(** The alert that a broker sends to a client without certificate. *)
Definition demo_alert : err_entry :=
  mk_err 336151570%positive "s3_pkt.c" 1493
    "sslv3 alert unexpected message" ERR_TXT_STRING.

(** A session whose handshake is refused with that alert, whose writes
    transfer nothing, and for which [SSL_get_error] reports
    [SSL_ERROR_SSL] for a negative result and [SSL_ERROR_NONE]
    otherwise. *)
Definition demo_refusing : OpenSSL :=
  {| SSL := Z;
     X509 := unit;
     SSL_write := fun t _ _ => (0, t);
     SSL_read := fun t _ => (0, t);
     SSL_do_handshake :=
       fun t => (-1, mk_tls (tls_ssl t) (tls_errq t ++ [demo_alert])
                       (tls_errno t));
     SSL_get_error :=
       fun _ ret => if ret <? 0 then SSL_ERROR_SSL else SSL_ERROR_NONE;
     SSL_get_peer_certificate := fun _ => None;
     SSL_get_verify_result := fun s => s;
     i2d_X509 := fun _ => (3, Some [Byte.x30; Byte.x01; Byte.x00]);
     X509_get_subject_name := fun _ => "/CN=broker.example.com"%string;
     X509_get_issuer_name := fun _ => "/CN=Example CA"%string;
     SSL_set_tlsext_host_name := fun t _ => (1, t);
     SSL_set1_host := fun t _ => (1, t);
     X509_VERIFY_PARAM_set1_host := fun t _ => (1, t) |}.

Definition demo_refusing_world : @world demo_refusing :=
  @mk_world demo_refusing (mk_tls 0 [] 0)
    (mk_broker "broker.example.com:9093" 1) 0 [] [].

(** A build against OpenSSL 1.0.1e. *)
Definition demo_old_build : Build :=
  {| OPENSSL_VERSION_NUMBER := 0x1000105f;
     OPENSSL_NO_TLSEXT := false;
     LIBRESSL := false;
     MSC_VER := false;
     RD_KAFKA_NODENAME_SIZE := 256 |}.

(** Sessions that are made, bound and connected at once. *)
Definition demo_session : @SessionLib demo_openssl :=
  {| SSL_CTX := unit;
     SSL_new :=
       fun _ t =>
         mk_tls (Some (0 : @SSL demo_openssl)) (tls_errq t) (tls_errno t);
     SSL_set_fd := fun t _ => (1, t);
     SSL_connect := fun t => (1, t) |}.

Definition demo_transport
  : @rd_kafka_transport demo_openssl :=
  @mk_transport demo_openssl None 7 [demo_err] 0
    (mk_broker "broker.example.com:9093" 1) 0 [] [].

(** A decoder that refuses an empty encoding, and a trust store that
    takes every certificate and counts them. *)
Definition demo_wincrypt : @WinCrypt demo_openssl :=
  {| TRUST := nat;
     d2i_X509 :=
       fun n der =>
         match der with
         | [] => (None, n)
         | _ :: _ => (Some demo_cert, n)
         end;
     X509_STORE_add_cert := fun n _ => (1, S n) |}.

Definition demo_error_strings : ErrorStrings :=
  {| ERR_lib_error_string := fun _ => "SSL routines"%string;
     ERR_func_error_string := fun _ => "ssl3_read_bytes"%string;
     ERR_reason_error_string := fun _ => "sslv3 alert"%string |}.

(** A configuration with a CA file and a certificate file, and no key. *)
Definition demo_conf_nokey : @ssl_conf demo_openssl demo_certlib :=
  @mk_ssl_conf demo_openssl demo_certlib None (Some "ca.pem"%string) None
    None (Some "client.pem"%string) None None None None None None None None
    None None true None.

(* ================================================================= *)
(** * Part II: properties *)
(* ================================================================= *)

Lemma rd_snprintf_again (dst : string) (size : nat) (a b : string) :
  rd_snprintf (rd_snprintf dst size a) size b = rd_snprintf dst size b.
Proof. destruct size; reflexivity. Qed.

Lemma last_cons_any {A : Type} (a : A) (l : list A) (d d' : A) :
  last (a :: l) d = last (a :: l) d'.
Proof.
  revert a. induction l as [|b l IH]; intros a; [reflexivity|].
  change (last (b :: l) d = last (b :: l) d'). apply IH.
Qed.

(** The flag test [(flags & ERR_TXT_STRING)] reads bit 1. *)
Lemma land_2_testbit (f : Z) : (Z.land f 2 =? 0) = negb (Z.testbit f 1).
Proof.
  assert (H : Z.land f 2 = if Z.testbit f 1 then 2 else 0).
  { apply Z.bits_inj'. intros n Hn. rewrite Z.land_spec.
    destruct (Z.eq_dec n 1) as [->|Hne].
    - destruct (Z.testbit f 1); cbn; reflexivity.
    - replace (Z.testbit 2 n) with false.
      + rewrite andb_false_r. destruct (Z.testbit f 1).
        * replace (Z.testbit 2 n) with false; [reflexivity|].
          change 2 with (2 ^ 1). symmetry. apply Z.pow2_bits_false. lia.
        * symmetry. apply Z.bits_0.
      + change 2 with (2 ^ 1). symmetry. apply Z.pow2_bits_false. lia. }
  rewrite H. destruct (Z.testbit f 1); reflexivity.
Qed.

Section ErrorReportingFacts.
Context {M : Messages}.

Lemma rd_kafka_ssl_error_loop_spec (rkb : option rd_kafka_broker)
  (size : nat) (q : list err_entry) :
  forall (cnt : Z) (cur : string) (logs : list log_rec),
    0 <= cnt ->
    rd_kafka_ssl_error_loop rkb size q cnt cur logs =
    (cnt + Z.of_nat (List.length q),
     match q with
     | [] => cur
     | e :: _ => rd_snprintf cur size (ssl_error_text (last q e))
     end,
     logs ++
       match q with
       | [] => []
       | _ :: _ =>
           (if 0 <? cnt then [ssl_error_log rkb cur] else [])
           ++ map (fun e => ssl_error_log rkb
                              (rd_snprintf cur size (ssl_error_text e)))
                (removelast q)
       end,
     []).
Proof.
  induction q as [|e q IH]; intros cnt cur logs Hcnt.
  - cbn. rewrite Z.add_0_r, app_nil_r. reflexivity.
  - cbn [rd_kafka_ssl_error_loop].
    rewrite IH by lia.
    replace (0 <? cnt + 1) with true by (symmetry; apply Z.ltb_lt; lia).
    replace (cnt + 1 + Z.of_nat (List.length q))
      with (cnt + Z.of_nat (List.length (e :: q)))
      by (cbn [List.length]; lia).
    destruct q as [|e' q].
    + cbn. destruct (0 <? cnt); rewrite ?app_nil_r; reflexivity.
    + rewrite rd_snprintf_again.
      change (last (e :: e' :: q) e) with (last (e' :: q) e).
      rewrite (last_cons_any e' q e e').
      change (removelast (e :: e' :: q)) with (e :: removelast (e' :: q)).
      cbn [map].
      rewrite (map_ext
                 (fun e0 => ssl_error_log rkb
                    (rd_snprintf (rd_snprintf cur size (ssl_error_text e))
                       size (ssl_error_text e0)))
                 (fun e0 => ssl_error_log rkb
                    (rd_snprintf cur size (ssl_error_text e0))))
        by (intros; rewrite rd_snprintf_again; reflexivity).
      destruct (0 <? cnt); rewrite <- ?app_assoc; reflexivity.
Qed.


(** C7. [rd_kafka_ssl_error] empties the queue from its oldest entry on.
    Every entry [e] is rendered into [errstr], cut to its capacity
    [errstr_size], as the file, a colon, the line in decimal, [": "], the
    first 255 characters of the library's message for the code, [": "]
    and the detail: the data of [e] when its flags carry
    [ERR_TXT_STRING] (bit 1), nothing otherwise. Every entry but the last
    is logged as it was rendered, in queue order, at level [LOG_ERR] with
    facility ["SSL"]: to the broker log when [rkb] is given, to the log of
    the handle otherwise. The rendering of the last entry is what
    [errstr] holds on return. On an empty queue nothing is logged and
    [errstr] receives ["No error"]. *)
Theorem rd_kafka_ssl_error_drains (rkb : option rd_kafka_broker)
  (errstr : string) (errstr_size : nat) (q : list err_entry) :
  let r := rd_kafka_ssl_error rkb errstr errstr_size q in
  let text := fun e : err_entry =>
    (err_file e ++ ":" ++ string_of_Z (err_line e) ++ ": "
     ++ substring 0 255 (ERR_error_string (err_code e)) ++ ": "
     ++ (if Z.testbit (err_flags e) 1 then err_data e else EmptyString))%string in
  let stored := fun s : string =>
    match errstr_size with
    | O => errstr
    | S n => substring 0 n s
    end in
  let scope :=
    match rkb with
    | Some _ => BrokerLog
    | None => HandleLog
    end in
  se_queue r = []
  /\ se_logs r =
       map (fun e => {| log_where := scope; log_level := 3;
                        log_fac := "SSL"; log_str := stored (text e) |})
         (removelast q)
  /\ se_errstr r =
       stored match q with
              | [] => "No error"%string
              | e :: _ => text (last q e)
              end
  /\ se_logs r =
       map (fun e => mk_log (ssl_error_scope rkb) LOG_ERR "SSL"
                       (rd_snprintf errstr errstr_size (ssl_error_text e)))
         (removelast q)
  /\ se_errstr r =
       rd_snprintf errstr errstr_size
         match q with
         | [] => "No error"%string
         | e :: _ => ssl_error_text (last q e)
         end.
Proof.
  assert (Htext : forall e,
             ssl_error_text e
             = (err_file e ++ ":" ++ string_of_Z (err_line e) ++ ": "
                ++ substring 0 255 (ERR_error_string (err_code e)) ++ ": "
                ++ (if Z.testbit (err_flags e) 1 then err_data e
                    else EmptyString))%string).
  { intros e. unfold ssl_error_text, ssl_error_detail, ERR_error_string_n,
      rd_snprintf, ERR_TXT_STRING.
    rewrite land_2_testbit. destruct (Z.testbit (err_flags e) 1); reflexivity. }
  unfold rd_kafka_ssl_error.
  rewrite rd_kafka_ssl_error_loop_spec by lia.
  cbn zeta. cbn [se_queue se_logs se_errstr].
  assert (Hlogs : forall l : list err_entry,
             map (fun e => mk_log (ssl_error_scope rkb) LOG_ERR "SSL"
                             (rd_snprintf errstr errstr_size (ssl_error_text e))) l
             = map (fun e => {| log_where := match rkb with
                                             | Some _ => BrokerLog
                                             | None => HandleLog
                                             end;
                                log_level := 3; log_fac := "SSL";
                                log_str := match errstr_size with
                                           | O => errstr
                                           | S n =>
                                               substring 0 n
                                                 (err_file e ++ ":"
                                                  ++ string_of_Z (err_line e) ++ ": "
                                                  ++ substring 0 255
                                                       (ERR_error_string (err_code e))
                                                  ++ ": "
                                                  ++ (if Z.testbit (err_flags e) 1
                                                      then err_data e
                                                      else EmptyString))
                                           end |}) l).
  { intros l. apply map_ext. intros e. rewrite Htext. reflexivity. }
  destruct q as [|e q].
  - cbn. auto.
  - replace (0 + Z.of_nat (List.length (e :: q)) =? 0) with false
      by (symmetry; apply Z.eqb_neq; cbn [List.length]; lia).
    rewrite <- Hlogs, <- Htext.
    repeat split.
Qed.

End ErrorReportingFacts.

(** ** The I/O adapter: classification of a failed step *)


Lemma rd_snprintf_fits (dst : string) (size : nat) (s : string) :
  (String.length s < size)%nat -> rd_snprintf dst size s = s.
Proof.
  destruct size as [|n]; [lia|]. cbn [rd_snprintf]. intros Hlt.
  assert (Hn : (String.length s <= n)%nat) by lia. clear Hlt.
  revert n Hn. induction s as [|c s IH]; intros [|n] Hn; cbn in *;
    try reflexivity; try lia.
  f_equal. apply IH. lia.
Qed.

Section ClassifierFacts.
Context {M : Messages} {L : OpenSSL}.



End ClassifierFacts.

(** ** Slices, buffers and the transfer loops *)

Lemma to_int_le (z : Z) : 0 <= z -> to_int z <= z.
Proof.
  intros Hz. unfold to_int.
  change (2^31) with 2147483648. change (2^32) with 4294967296.
  pose proof (Z.mod_le (z + 2147483648) 4294967296 ltac:(lia) ltac:(lia)).
  lia.
Qed.

Lemma rd_slice_peeker_remains (slice : rd_slice) :
  (List.length (rd_slice_peeker slice) <= rd_slice_remains slice)%nat.
Proof.
  unfold rd_slice_remains.
  induction slice as [|seg rest IH]; cbn [rd_slice_peeker List.concat].
  - cbn. lia.
  - rewrite length_app. destruct seg as [|b seg]; [exact IH|]. lia.
Qed.

Lemma rd_slice_skip_concat (slice : rd_slice) :
  forall n : nat,
    List.concat (rd_slice_skip n slice) = skipn n (List.concat slice).
Proof.
  induction slice as [|seg rest IH]; intros n; cbn [rd_slice_skip List.concat].
  - rewrite skipn_nil. reflexivity.
  - rewrite skipn_app.
    destruct (Nat.ltb_spec n (List.length seg)) as [Hlt|Hge].
    + cbn [List.concat].
      replace (n - List.length seg)%nat with 0%nat by lia. reflexivity.
    + rewrite IH, (skipn_all2 seg) by lia. reflexivity.
Qed.

Lemma rd_slice_skip_remains (slice : rd_slice) (n : nat) :
  rd_slice_remains (rd_slice_skip n slice) = (rd_slice_remains slice - n)%nat.
Proof.
  unfold rd_slice_remains. rewrite rd_slice_skip_concat. apply length_skipn.
Qed.

Lemma first_room_remains (room : list nat) :
  (first_room room <= list_sum room)%nat.
Proof.
  induction room as [|c rest IH]; [cbn; lia|].
  change (list_sum (c :: rest)) with (c + list_sum rest)%nat.
  destruct c as [|c]; cbn [first_room]; lia.
Qed.

Lemma take_room_remains (room : list nat) :
  forall n : nat, list_sum (take_room n room) = (list_sum room - n)%nat.
Proof.
  induction room as [|c rest IH]; intros n; [reflexivity|].
  cbn [take_room].
  change (list_sum (c :: rest)) with (c + list_sum rest)%nat.
  destruct (Nat.ltb_spec n c) as [Hlt|Hge].
  - change (list_sum ((c - n)%nat :: rest))
      with ((c - n) + list_sum rest)%nat. lia.
  - rewrite IH. lia.
Qed.

Lemma transferred_nonneg (steps : list io_step) : 0 <= transferred steps.
Proof.
  induction steps as [|st steps IH]; cbn [transferred fold_right]; [lia|].
  fold (transferred steps). lia.
Qed.

Lemma transferred_cons (st : io_step) (steps : list io_step) :
  transferred (st :: steps) = Z.max 0 (snd st) + transferred steps.
Proof. reflexivity. Qed.

(** The cursor of a slice ends where the transferred bytes end. *)
Lemma chunked_slice_advance (slice slice' : rd_slice) (steps : list io_step) :
  chunked_transfer rd_slice (fun s => List.length (rd_slice_peeker s))
    rd_slice_skip slice steps slice' ->
  List.concat slice' =
    skipn (Z.to_nat (transferred steps)) (List.concat slice).
Proof.
  induction 1 as [c Hc|c r Hc Hr|c r Hr|c r steps c' Hc Hr Hrest IH].
  - reflexivity.
  - rewrite transferred_cons. cbn [snd transferred fold_right].
    replace (Z.to_nat (Z.max 0 r + 0)) with 0%nat by lia. reflexivity.
  - rewrite transferred_cons. cbn [snd transferred fold_right].
    rewrite rd_slice_skip_concat. f_equal. lia.
  - rewrite IH, rd_slice_skip_concat, skipn_skipn, transferred_cons.
    cbn [snd]. pose proof (transferred_nonneg steps). f_equal. lia.
Qed.

(** The write position of a buffer moves by the transferred bytes. *)
Lemma chunked_buf_advance (rbuf rbuf' : rd_buf) (steps : list io_step) :
  chunked_transfer rd_buf rd_buf_get_writable rd_buf_write rbuf steps rbuf' ->
  Z.of_nat (rbuf_len rbuf') = Z.of_nat (rbuf_len rbuf) + transferred steps.
Proof.
  induction 1 as [c Hc|c r Hc Hr|c r Hr|c r steps c' Hc Hr Hrest IH].
  - cbn. lia.
  - rewrite transferred_cons. cbn [snd transferred fold_right]. lia.
  - rewrite transferred_cons. cbn [snd transferred fold_right rd_buf_write rbuf_len].
    lia.
  - rewrite IH, transferred_cons. cbn [snd rd_buf_write rbuf_len].
    pose proof (transferred_nonneg steps). lia.
Qed.

Section SendRecvFacts.
Context {M : Messages} {L : OpenSSL}.

Lemma ssl_send_loop_spec (errstr : string) (errstr_size : nat) :
  forall (fuel : nat) (w : world) (slice : rd_slice) (sum : Z)
         (steps : list io_step),
    (rd_slice_remains slice < fuel)%nat ->
    match ssl_send_loop fuel w slice sum steps errstr errstr_size with
    | Returned res =>
        loop_post (fun s => List.length (rd_slice_peeker s)) rd_slice_skip
          slice sum steps res
    | AssertFailed => ~ write_within_request
    | OutOfFuel => False
    end.
Proof.
  induction fuel as [|fuel IH]; intros w slice sum steps Hfuel; [lia|].
  cbn [ssl_send_loop].
  pose proof (rd_slice_peeker_remains slice) as Hpeek.
  destruct (Nat.eqb_spec (List.length (rd_slice_peeker slice)) 0)
    as [Hz|Hnz].
  - exists []. rewrite app_nil_r. cbn.
    repeat split; try congruence; try lia.
    apply chunked_end. exact Hz.
  - destruct (SSL_write (w_tls w) (rd_slice_peeker slice)
                (to_int (Z.of_nat (List.length (rd_slice_peeker slice)))))
      as [r t] eqn:Ew.
    destruct (Z.leb_spec r 0) as [Hr|Hr].
    + destruct (rd_kafka_transport_ssl_io_update (set_tls w t) r errstr
                  errstr_size) as [[u w2] errstr'].
      destruct (Z.eqb_spec u (-1)) as [Hu|Hu].
      * exists [(List.length (rd_slice_peeker slice), r)]. cbn.
        repeat split; try congruence.
        apply (chunked_failed rd_slice
                 (fun s => List.length (rd_slice_peeker s))); assumption.
      * exists [(List.length (rd_slice_peeker slice), r)]. cbn.
        repeat split; try congruence; try lia.
        apply (chunked_failed rd_slice
                 (fun s => List.length (rd_slice_peeker s))); assumption.
    + unfold rd_slice_read.
      destruct (Nat.leb_spec (Z.to_nat r) (rd_slice_remains slice))
        as [Hin|Hout].
      * rewrite Nat.eqb_refl. cbn [negb].
        destruct (Nat.ltb_spec (Z.to_nat r)
                    (List.length (rd_slice_peeker slice))) as [Hshort|Hfull].
        -- exists [(List.length (rd_slice_peeker slice), r)]. cbn.
           repeat split; try congruence; try lia.
           apply (chunked_short rd_slice
                    (fun s => List.length (rd_slice_peeker s))). lia.
        -- specialize (IH (set_tls w t) (rd_slice_skip (Z.to_nat r) slice)
                         (sum + r)
                         (steps ++ [(List.length (rd_slice_peeker slice), r)])).
           rewrite rd_slice_skip_remains in IH.
           specialize (IH ltac:(lia)).
           destruct (ssl_send_loop fuel (set_tls w t)
                       (rd_slice_skip (Z.to_nat r) slice) (sum + r)
                       (steps ++ [(List.length (rd_slice_peeker slice), r)])
                       errstr errstr_size) as [res| |]; try exact IH.
           destruct IH as (new & Hsteps & Hch & Hfatal & Hprog).
           exists ((List.length (rd_slice_peeker slice), r) :: new).
           split; [rewrite Hsteps, <- app_assoc; reflexivity|].
           split; [|split; [exact Hfatal|]].
           ++ apply (chunked_full rd_slice
                       (fun s => List.length (rd_slice_peeker s)));
                [assumption|lia|exact Hch].
           ++ intros Hc. rewrite (Hprog Hc), transferred_cons. cbn [snd]. lia.
      * replace (Z.to_nat r =? 0)%nat with false
          by (symmetry; apply Nat.eqb_neq; lia).
        cbn [negb]. intros Hcontract.
        specialize (Hcontract (w_tls w) (rd_slice_peeker slice)
                      (to_int (Z.of_nat (List.length (rd_slice_peeker slice))))).
        rewrite Ew in Hcontract. cbn [fst] in Hcontract.
        pose proof (to_int_le
                      (Z.of_nat (List.length (rd_slice_peeker slice)))
                      ltac:(lia)).
        lia.
Qed.

Lemma ssl_recv_loop_spec (errstr : string) (errstr_size : nat) :
  forall (fuel : nat) (w : world) (rbuf : rd_buf) (sum : Z)
         (steps : list io_step),
    (rd_buf_write_remains rbuf < fuel)%nat ->
    match ssl_recv_loop fuel w rbuf sum steps errstr errstr_size with
    | Returned res =>
        loop_post rd_buf_get_writable rd_buf_write rbuf sum steps res
    | AssertFailed => False
    | OutOfFuel => False
    end.
Proof.
  induction fuel as [|fuel IH]; intros w rbuf sum steps Hfuel; [lia|].
  cbn [ssl_recv_loop].
  pose proof (first_room_remains (rbuf_room rbuf)) as Hroom.
  fold (rd_buf_get_writable rbuf) in Hroom.
  fold (rd_buf_write_remains rbuf) in Hroom.
  destruct (Nat.eqb_spec (rd_buf_get_writable rbuf) 0) as [Hz|Hnz].
  - exists []. rewrite app_nil_r. cbn.
    repeat split; try congruence; try lia.
    apply chunked_end. exact Hz.
  - destruct (SSL_read (w_tls (rd_kafka_transport_ssl_clear_error w))
                (to_int (Z.of_nat (rd_buf_get_writable rbuf))))
      as [r t] eqn:Er.
    destruct (Z.leb_spec r 0) as [Hr|Hr].
    + destruct (rd_kafka_transport_ssl_io_update
                  (set_tls (rd_kafka_transport_ssl_clear_error w) t) r errstr
                  errstr_size) as [[u w2] errstr'].
      destruct (Z.eqb_spec u (-1)) as [Hu|Hu];
        exists [(rd_buf_get_writable rbuf, r)]; cbn;
        (repeat split; try congruence; try lia);
        apply chunked_failed; assumption.
    + destruct (Nat.ltb_spec (Z.to_nat r) (rd_buf_get_writable rbuf))
        as [Hshort|Hfull].
      * exists [(rd_buf_get_writable rbuf, r)]. cbn.
        repeat split; try congruence; try lia.
        apply chunked_short. lia.
      * specialize (IH (set_tls (rd_kafka_transport_ssl_clear_error w) t)
                      (rd_buf_write (Z.to_nat r) rbuf) (sum + r)
                      (steps ++ [(rd_buf_get_writable rbuf, r)])).
        unfold rd_buf_write_remains in IH at 1.
        cbn [rd_buf_write rbuf_room] in IH.
        rewrite take_room_remains in IH.
        fold (rd_buf_write_remains rbuf) in IH.
        specialize (IH ltac:(lia)).
        destruct (ssl_recv_loop fuel
                    (set_tls (rd_kafka_transport_ssl_clear_error w) t)
                    (rd_buf_write (Z.to_nat r) rbuf) (sum + r)
                    (steps ++ [(rd_buf_get_writable rbuf, r)])
                    errstr errstr_size) as [res| |]; try exact IH.
        destruct IH as (new & Hsteps & Hch & Hfatal & Hprog).
        exists ((rd_buf_get_writable rbuf, r) :: new).
        split; [rewrite Hsteps, <- app_assoc; reflexivity|].
        split; [|split; [exact Hfatal|]].
        -- apply chunked_full; [assumption|lia|exact Hch].
        -- intros Hc. rewrite (Hprog Hc), transferred_cons. cbn [snd]. lia.
Qed.

End SendRecvFacts.

Section TransferTheorems.
Context {M : Messages} {L : OpenSSL}.

Lemma loop_post_contract {C : Type} (chunk : C -> nat)
  (advance : nat -> C -> C) (c : C) (res : io_result C) :
  loop_post chunk advance c 0 [] res -> io_contract chunk advance c res.
Proof.
  intros (new & Hsteps & Hch & Hfatal & Hprog).
  cbn [app] in Hsteps. subst new.
  pose proof (transferred_nonneg (io_steps res)) as Hnn.
  split; [exact Hch|]. split; [exact Hfatal|]. split; [exact Hprog|].
  destruct (io_class res) as [u|] eqn:Ec.
  - destruct (Z.eq_dec u (-1)) as [->|Hu].
    + split; [reflexivity|]. left. apply Hfatal. reflexivity.
    + assert (Hne : Some u <> Some (-1)) by congruence.
      pose proof (Hprog Hne) as Hp. split; [intros; exfalso|right]; lia.
  - assert (Hne : @None Z <> Some (-1)) by congruence.
    pose proof (Hprog Hne) as Hp. split; [intros; exfalso|right]; lia.
Qed.

(** The two loops are runs of the specification's loop: each step is the
    call of [SSL_write], or of [SSL_read] after the errors were cleared,
    on the chunk of that step. *)
Lemma ssl_send_loop_run (errstr : string) (errstr_size : nat) :
  forall (fuel : nat) (w : world) (slice : rd_slice) (sum : Z)
         (steps : list io_step),
    match ssl_send_loop fuel w slice sum steps errstr errstr_size with
    | Returned res =>
        exists new : list io_step,
          io_steps res = steps ++ new
          /\ transfer_run rd_slice
               (fun s => List.length (rd_slice_peeker s)) rd_slice_skip
               (fun w' s =>
                  let (r, t) :=
                    SSL_write (w_tls w') (rd_slice_peeker s)
                      (to_int (Z.of_nat (List.length (rd_slice_peeker s)))) in
                  (r, set_tls w' t))
               errstr errstr_size w slice new (io_world res) (io_cursor res)
               (io_errstr res) (io_class res)
    | AssertFailed => True
    | OutOfFuel => True
    end.
Proof.
  induction fuel as [|fuel IH]; intros w slice sum steps; [exact I|].
  cbn [ssl_send_loop].
  destruct (Nat.eqb_spec (List.length (rd_slice_peeker slice)) 0)
    as [Hz|Hnz].
  - exists []. rewrite app_nil_r. split; [reflexivity|].
    cbn [io_world io_cursor io_errstr io_class].
    apply run_end. exact Hz.
  - destruct (SSL_write (w_tls w) (rd_slice_peeker slice)
                (to_int (Z.of_nat (List.length (rd_slice_peeker slice)))))
      as [r t] eqn:Ew.
    destruct (Z.leb_spec r 0) as [Hr|Hr].
    + destruct (rd_kafka_transport_ssl_io_update (set_tls w t) r errstr
                  errstr_size) as [[u w2] errstr'] eqn:Eu.
      destruct (u =? -1);
        exists [(List.length (rd_slice_peeker slice), r)];
        (split; [reflexivity|]);
        cbn [io_world io_cursor io_errstr io_class];
        apply (run_failed rd_slice
                 (fun s => List.length (rd_slice_peeker s)) rd_slice_skip _
                 errstr errstr_size w slice r (set_tls w t) u w2 errstr');
        try assumption; rewrite Ew; reflexivity.
    + unfold rd_slice_read.
      destruct (Nat.leb_spec (Z.to_nat r) (rd_slice_remains slice))
        as [Hin|Hout].
      * rewrite Nat.eqb_refl. cbn [negb].
        destruct (Nat.ltb_spec (Z.to_nat r)
                    (List.length (rd_slice_peeker slice))) as [Hshort|Hfull].
        -- exists [(List.length (rd_slice_peeker slice), r)].
           split; [reflexivity|].
           cbn [io_world io_cursor io_errstr io_class].
           apply (run_short rd_slice
                    (fun s => List.length (rd_slice_peeker s)) rd_slice_skip
                    _ errstr errstr_size w slice r (set_tls w t));
             [rewrite Ew; reflexivity|lia].
        -- specialize (IH (set_tls w t) (rd_slice_skip (Z.to_nat r) slice)
                         (sum + r)
                         (steps ++ [(List.length (rd_slice_peeker slice), r)])).
           destruct (ssl_send_loop fuel (set_tls w t)
                       (rd_slice_skip (Z.to_nat r) slice) (sum + r)
                       (steps ++ [(List.length (rd_slice_peeker slice), r)])
                       errstr errstr_size) as [res| |]; try exact I.
           destruct IH as (new & Hsteps & Hrun).
           exists ((List.length (rd_slice_peeker slice), r) :: new).
           split; [rewrite Hsteps, <- app_assoc; reflexivity|].
           apply (run_full rd_slice
                    (fun s => List.length (rd_slice_peeker s)) rd_slice_skip
                    _ errstr errstr_size w slice r (set_tls w t));
             [exact Hnz|rewrite Ew; reflexivity|lia|exact Hrun].
      * replace (Z.to_nat r =? 0)%nat with false
          by (symmetry; apply Nat.eqb_neq; lia).
        exact I.
Qed.

Lemma ssl_recv_loop_run (errstr : string) (errstr_size : nat) :
  forall (fuel : nat) (w : world) (rbuf : rd_buf) (sum : Z)
         (steps : list io_step),
    match ssl_recv_loop fuel w rbuf sum steps errstr errstr_size with
    | Returned res =>
        exists new : list io_step,
          io_steps res = steps ++ new
          /\ transfer_run rd_buf rd_buf_get_writable rd_buf_write
               (fun w' b =>
                  let (r, t) :=
                    SSL_read (w_tls (rd_kafka_transport_ssl_clear_error w'))
                      (to_int (Z.of_nat (rd_buf_get_writable b))) in
                  (r, set_tls (rd_kafka_transport_ssl_clear_error w') t))
               errstr errstr_size w rbuf new (io_world res) (io_cursor res)
               (io_errstr res) (io_class res)
    | AssertFailed => True
    | OutOfFuel => True
    end.
Proof.
  induction fuel as [|fuel IH]; intros w rbuf sum steps; [exact I|].
  cbn [ssl_recv_loop].
  destruct (Nat.eqb_spec (rd_buf_get_writable rbuf) 0) as [Hz|Hnz].
  - exists []. rewrite app_nil_r. split; [reflexivity|].
    cbn [io_world io_cursor io_errstr io_class].
    apply run_end. exact Hz.
  - destruct (SSL_read (w_tls (rd_kafka_transport_ssl_clear_error w))
                (to_int (Z.of_nat (rd_buf_get_writable rbuf))))
      as [r t] eqn:Er.
    destruct (Z.leb_spec r 0) as [Hr|Hr].
    + destruct (rd_kafka_transport_ssl_io_update
                  (set_tls (rd_kafka_transport_ssl_clear_error w) t) r errstr
                  errstr_size) as [[u w2] errstr'] eqn:Eu.
      destruct (u =? -1);
        exists [(rd_buf_get_writable rbuf, r)];
        (split; [reflexivity|]);
        cbn [io_world io_cursor io_errstr io_class];
        apply (run_failed rd_buf rd_buf_get_writable rd_buf_write _ errstr
                 errstr_size w rbuf r
                 (set_tls (rd_kafka_transport_ssl_clear_error w) t) u w2
                 errstr');
        try assumption; rewrite Er; reflexivity.
    + destruct (Nat.ltb_spec (Z.to_nat r) (rd_buf_get_writable rbuf))
        as [Hshort|Hfull].
      * exists [(rd_buf_get_writable rbuf, r)]. split; [reflexivity|].
        cbn [io_world io_cursor io_errstr io_class].
        apply (run_short rd_buf rd_buf_get_writable rd_buf_write _ errstr
                 errstr_size w rbuf r
                 (set_tls (rd_kafka_transport_ssl_clear_error w) t));
          [rewrite Er; reflexivity|lia].
      * specialize (IH (set_tls (rd_kafka_transport_ssl_clear_error w) t)
                      (rd_buf_write (Z.to_nat r) rbuf) (sum + r)
                      (steps ++ [(rd_buf_get_writable rbuf, r)])).
        destruct (ssl_recv_loop fuel
                    (set_tls (rd_kafka_transport_ssl_clear_error w) t)
                    (rd_buf_write (Z.to_nat r) rbuf) (sum + r)
                    (steps ++ [(rd_buf_get_writable rbuf, r)])
                    errstr errstr_size) as [res| |]; try exact I.
        destruct IH as (new & Hsteps & Hrun).
        exists ((rd_buf_get_writable rbuf, r) :: new).
        split; [rewrite Hsteps, <- app_assoc; reflexivity|].
        apply (run_full rd_buf rd_buf_get_writable rd_buf_write _ errstr
                 errstr_size w rbuf r
                 (set_tls (rd_kafka_transport_ssl_clear_error w) t));
          [exact Hnz|rewrite Er; reflexivity|lia|exact Hrun].
Qed.

(** A run is determined by the state and the cursor it starts from. *)
Lemma transfer_run_functional {C : Type} (chunk : C -> nat)
  (advance : nat -> C -> C) (call : world -> C -> Z * world)
  (errstr : string) (errstr_size : nat) (w : world) (c : C)
  (steps : list io_step) (w' : world) (c' : C) (e' : string)
  (k : option Z) :
  transfer_run C chunk advance call errstr errstr_size w c steps w' c' e' k ->
  forall (steps2 : list io_step) (w2 : world) (c2 : C) (e2 : string)
         (k2 : option Z),
    transfer_run C chunk advance call errstr errstr_size w c steps2 w2 c2 e2
      k2 ->
    steps2 = steps /\ w2 = w' /\ c2 = c' /\ e2 = e' /\ k2 = k.
Proof.
  induction 1 as [w c Hz|w c r w1 u w2 e1 Hnz Hcall Hr Hu|w c r w1 Hcall Hr
                  |w c r w1 steps w' c' e' k Hnz Hcall Hr Hrun IH];
    intros steps2 wb cb eb kb Hb; inversion Hb; subst;
    try (exfalso; congruence);
    try match goal with
        | H1 : call ?w ?c = _, H2 : call ?w ?c = _ |- _ =>
            rewrite H1 in H2; injection H2 as <- <-
        end;
    try (exfalso; lia).
  - repeat split.
  - match goal with
    | H1 : rd_kafka_transport_ssl_io_update ?a ?b ?c ?d = _,
      H2 : rd_kafka_transport_ssl_io_update ?a ?b ?c ?d = _ |- _ =>
        rewrite H1 in H2; injection H2 as <- <- <-
    end.
    repeat split.
  - repeat split.
  - match goal with
    | H : transfer_run _ _ _ _ _ _ _ _ _ _ _ _ _ |- _ =>
        destruct (IH _ _ _ _ _ H) as (-> & -> & -> & -> & ->)
    end.
    repeat split.
Qed.

(** C3. [rd_kafka_transport_ssl_send] and [rd_kafka_transport_ssl_recv]
    always come back (send stops in its assertion only when [SSL_write]
    reports more bytes than it was asked to write). What they return is
    the run of the specification's loop from the cursor they were given:
    send, after the errors were cleared once, calls [SSL_write] on the
    next contiguous chunk of the slice with its length; receive clears
    the errors before every call and calls [SSL_read] with the size of
    the next writable chunk. The steps recorded are those calls with what
    they answered. An answer of 0 or less ends the loop and is handed to
    [rd_kafka_transport_ssl_io_update] in the state that the call left;
    the state, the [errstr] and the class of the result are what it
    answered. Any other answer moves the cursor by exactly that many
    bytes, and an answer below the chunk size ends the loop. No other run
    starts from the same state and cursor. The result is -1 exactly when
    the classifier answered -1, and otherwise the number of bytes
    transferred, which is not negative, also when the classifier asked
    for a retry after some progress. The slice then starts where the
    transferred bytes end and the write position of the buffer has moved
    by the transferred bytes. *)
Theorem ssl_send_recv_chunked :
  (forall (w : world) (slice : rd_slice) (errstr : string)
          (errstr_size : nat),
      let write := fun (w' : world) (s : rd_slice) =>
        let (r, t) :=
          SSL_write (w_tls w') (rd_slice_peeker s)
            (to_int (Z.of_nat (List.length (rd_slice_peeker s)))) in
        (r, set_tls w' t) in
      match rd_kafka_transport_ssl_send w slice errstr errstr_size with
      | Returned res =>
          io_contract (fun s => List.length (rd_slice_peeker s))
            rd_slice_skip slice res
          /\ List.concat (io_cursor res) =
               skipn (Z.to_nat (transferred (io_steps res)))
                 (List.concat slice)
          /\ transfer_run rd_slice
               (fun s => List.length (rd_slice_peeker s)) rd_slice_skip
               write errstr errstr_size
               (rd_kafka_transport_ssl_clear_error w) slice (io_steps res)
               (io_world res) (io_cursor res) (io_errstr res) (io_class res)
          /\ (forall (steps : list io_step) (w' : world) (c' : rd_slice)
                     (e' : string) (k : option Z),
                 transfer_run rd_slice
                   (fun s => List.length (rd_slice_peeker s)) rd_slice_skip
                   write errstr errstr_size
                   (rd_kafka_transport_ssl_clear_error w) slice steps w' c'
                   e' k ->
                 steps = io_steps res /\ w' = io_world res
                 /\ c' = io_cursor res /\ e' = io_errstr res
                 /\ k = io_class res)
          /\ io_ret res =
               match io_class res with
               | Some u =>
                   if u =? -1 then -1 else transferred (io_steps res)
               | None => transferred (io_steps res)
               end
          /\ 0 <= transferred (io_steps res)
      | AssertFailed => ~ write_within_request
      | OutOfFuel => False
      end)
  /\ (forall (w : world) (rbuf : rd_buf) (errstr : string)
             (errstr_size : nat),
         let read := fun (w' : world) (b : rd_buf) =>
           let (r, t) :=
             SSL_read (w_tls (rd_kafka_transport_ssl_clear_error w'))
               (to_int (Z.of_nat (rd_buf_get_writable b))) in
           (r, set_tls (rd_kafka_transport_ssl_clear_error w') t) in
         match rd_kafka_transport_ssl_recv w rbuf errstr errstr_size with
         | Returned res =>
             io_contract rd_buf_get_writable rd_buf_write rbuf res
             /\ Z.of_nat (rbuf_len (io_cursor res)) =
                  Z.of_nat (rbuf_len rbuf) + transferred (io_steps res)
             /\ transfer_run rd_buf rd_buf_get_writable rd_buf_write read
                  errstr errstr_size w rbuf (io_steps res) (io_world res)
                  (io_cursor res) (io_errstr res) (io_class res)
             /\ (forall (steps : list io_step) (w' : world) (c' : rd_buf)
                        (e' : string) (k : option Z),
                    transfer_run rd_buf rd_buf_get_writable rd_buf_write
                      read errstr errstr_size w rbuf steps w' c' e' k ->
                    steps = io_steps res /\ w' = io_world res
                    /\ c' = io_cursor res /\ e' = io_errstr res
                    /\ k = io_class res)
             /\ io_ret res =
                  match io_class res with
                  | Some u =>
                      if u =? -1 then -1 else transferred (io_steps res)
                  | None => transferred (io_steps res)
                  end
             /\ 0 <= transferred (io_steps res)
         | AssertFailed => False
         | OutOfFuel => False
         end).
Proof.
  assert (Hret : forall (C : Type) (chunk : C -> nat)
                        (advance : nat -> C -> C) (c : C)
                        (res : io_result C),
             io_contract chunk advance c res ->
             io_ret res =
               match io_class res with
               | Some u =>
                   if u =? -1 then -1 else transferred (io_steps res)
               | None => transferred (io_steps res)
               end).
  { intros C chunk advance c res (_ & Hfatal & Hprog & _ & _).
    destruct (io_class res) as [u|].
    - destruct (Z.eqb_spec u (-1)) as [->|Hu].
      + apply Hfatal. reflexivity.
      + apply Hprog. congruence.
    - apply Hprog. discriminate. }
  split.
  - intros w slice errstr errstr_size write.
    unfold rd_kafka_transport_ssl_send.
    pose proof (ssl_send_loop_spec errstr errstr_size
                  (S (rd_slice_remains slice))
                  (rd_kafka_transport_ssl_clear_error w) slice 0 []
                  ltac:(lia)) as Hspec.
    pose proof (ssl_send_loop_run errstr errstr_size
                  (S (rd_slice_remains slice))
                  (rd_kafka_transport_ssl_clear_error w) slice 0 [])
      as Hrun.
    destruct (ssl_send_loop (S (rd_slice_remains slice))
                (rd_kafka_transport_ssl_clear_error w) slice 0 [] errstr
                errstr_size) as [res| |]; try exact Hspec.
    apply loop_post_contract in Hspec.
    destruct Hrun as (new & Hnew & Hrun). cbn [app] in Hnew. subst new.
    split; [exact Hspec|].
    split; [apply chunked_slice_advance; apply Hspec|].
    split; [exact Hrun|].
    split; [intros steps w' c' e' k Hother;
            exact (transfer_run_functional _ _ _ _ _ _ _ _ _ _ _ _ Hrun
                     _ _ _ _ _ Hother)|].
    split; [exact (Hret _ _ _ _ _ Hspec)|].
    apply transferred_nonneg.
  - intros w rbuf errstr errstr_size read.
    unfold rd_kafka_transport_ssl_recv.
    pose proof (ssl_recv_loop_spec errstr errstr_size
                  (S (rd_buf_write_remains rbuf)) w rbuf 0 []
                  ltac:(lia)) as Hspec.
    pose proof (ssl_recv_loop_run errstr errstr_size
                  (S (rd_buf_write_remains rbuf)) w rbuf 0 []) as Hrun.
    destruct (ssl_recv_loop (S (rd_buf_write_remains rbuf)) w rbuf 0 []
                errstr errstr_size) as [res| |]; try exact Hspec.
    apply loop_post_contract in Hspec.
    destruct Hrun as (new & Hnew & Hrun). cbn [app] in Hnew. subst new.
    split; [exact Hspec|].
    split; [apply chunked_buf_advance; apply Hspec|].
    split; [exact Hrun|].
    split; [intros steps w' c' e' k Hother;
            exact (transfer_run_functional _ _ _ _ _ _ _ _ _ _ _ _ Hrun
                     _ _ _ _ _ Hother)|].
    split; [exact (Hret _ _ _ _ _ Hspec)|].
    apply transferred_nonneg.
Qed.

Lemma ssl_recv_loop_bounded (errstr : string) (errstr_size : nat) :
  read_within_request ->
  forall (fuel : nat) (w : world) (rbuf : rd_buf) (sum : Z)
         (steps : list io_step),
    match ssl_recv_loop fuel w rbuf sum steps errstr errstr_size with
    | Returned res =>
        exists new : list io_step,
          io_steps res = steps ++ new
          /\ Forall (fun st => snd st <= Z.of_nat (fst st)) new
          /\ Z.of_nat (rd_buf_write_remains (io_cursor res))
             + transferred new
             = Z.of_nat (rd_buf_write_remains rbuf)
    | AssertFailed => True
    | OutOfFuel => True
    end.
Proof.
  intros Hcontract.
  induction fuel as [|fuel IH]; intros w rbuf sum steps; [exact I|].
  cbn [ssl_recv_loop].
  pose proof (first_room_remains (rbuf_room rbuf)) as Hroom.
  fold (rd_buf_get_writable rbuf) in Hroom.
  fold (rd_buf_write_remains rbuf) in Hroom.
  destruct (Nat.eqb_spec (rd_buf_get_writable rbuf) 0) as [Hz|Hnz].
  - exists []. rewrite app_nil_r. cbn. repeat split; [constructor|lia].
  - pose proof (Hcontract (w_tls (rd_kafka_transport_ssl_clear_error w))
                  (to_int (Z.of_nat (rd_buf_get_writable rbuf)))) as Hle.
    pose proof (to_int_le (Z.of_nat (rd_buf_get_writable rbuf))
                  ltac:(lia)) as Hint.
    destruct (SSL_read (w_tls (rd_kafka_transport_ssl_clear_error w))
                (to_int (Z.of_nat (rd_buf_get_writable rbuf))))
      as [r t] eqn:Er.
    cbn [fst] in Hle.
    destruct (Z.leb_spec r 0) as [Hr|Hr].
    + destruct (rd_kafka_transport_ssl_io_update
                  (set_tls (rd_kafka_transport_ssl_clear_error w) t) r errstr
                  errstr_size) as [[u w2] errstr'].
      destruct (u =? -1); exists [(rd_buf_get_writable rbuf, r)]; cbn;
        (repeat split; [repeat constructor; cbn; lia|lia]).
    + assert (Hstep :
                Z.of_nat (rd_buf_write_remains
                            (rd_buf_write (Z.to_nat r) rbuf)) + r
                = Z.of_nat (rd_buf_write_remains rbuf)).
      { unfold rd_buf_write_remains at 1. cbn [rd_buf_write rbuf_room].
        rewrite take_room_remains. fold (rd_buf_write_remains rbuf). lia. }
      destruct (Nat.ltb_spec (Z.to_nat r) (rd_buf_get_writable rbuf))
        as [Hshort|Hfull].
      * exists [(rd_buf_get_writable rbuf, r)]. cbn [io_steps io_cursor].
        repeat split; [repeat constructor; cbn; lia|].
        rewrite transferred_cons. cbn [snd transferred fold_right]. lia.
      * specialize (IH (set_tls (rd_kafka_transport_ssl_clear_error w) t)
                      (rd_buf_write (Z.to_nat r) rbuf) (sum + r)
                      (steps ++ [(rd_buf_get_writable rbuf, r)])).
        destruct (ssl_recv_loop fuel
                    (set_tls (rd_kafka_transport_ssl_clear_error w) t)
                    (rd_buf_write (Z.to_nat r) rbuf) (sum + r)
                    (steps ++ [(rd_buf_get_writable rbuf, r)])
                    errstr errstr_size) as [res| |]; try exact I.
        destruct IH as (new & Hsteps & Hall & Hrem).
        exists ((rd_buf_get_writable rbuf, r) :: new).
        split; [rewrite Hsteps, <- app_assoc; reflexivity|].
        split; [constructor; [cbn; lia|exact Hall]|].
        rewrite transferred_cons. cbn [snd]. lia.
Qed.

(** C8. When [SSL_read] never reports more than the count it was asked
    for, [rd_kafka_transport_ssl_recv] returns, every read step reported at
    most the size of the writable chunk it was offered, and the result is
    at most the writable room that the call used up, hence at most the
    writable room of the buffer when the call was made. *)
Theorem ssl_recv_within_capacity (w : world) (rbuf : rd_buf)
  (errstr : string) (errstr_size : nat) :
  read_within_request ->
  exists res : io_result rd_buf,
    rd_kafka_transport_ssl_recv w rbuf errstr errstr_size = Returned res
    /\ Forall (fun st => snd st <= Z.of_nat (fst st)) (io_steps res)
    /\ io_ret res <= Z.of_nat (rd_buf_write_remains rbuf)
                     - Z.of_nat (rd_buf_write_remains (io_cursor res))
    /\ io_ret res <= Z.of_nat (rd_buf_write_remains rbuf).
Proof.
  intros Hcontract. unfold rd_kafka_transport_ssl_recv.
  pose proof (ssl_recv_loop_spec errstr errstr_size
                (S (rd_buf_write_remains rbuf)) w rbuf 0 []
                ltac:(lia)) as Hspec.
  pose proof (ssl_recv_loop_bounded errstr errstr_size Hcontract
                (S (rd_buf_write_remains rbuf)) w rbuf 0 []) as Hbound.
  destruct (ssl_recv_loop (S (rd_buf_write_remains rbuf)) w rbuf 0 []
              errstr errstr_size) as [res| |]; try contradiction.
  exists res. split; [reflexivity|].
  destruct Hbound as (new & Hsteps & Hall & Hrem).
  cbn [app] in Hsteps. subst new.
  apply loop_post_contract in Hspec.
  destruct Hspec as (_ & Hfatal & Hprog & _ & _).
  pose proof (transferred_nonneg (io_steps res)) as Hnn.
  split; [exact Hall|].
  destruct (io_class res) as [u|] eqn:Ec.
  - destruct (Z.eq_dec u (-1)) as [->|Hu].
    + rewrite (Hfatal eq_refl). lia.
    + rewrite Hprog by congruence. lia.
  - rewrite Hprog by congruence. lia.
Qed.

End TransferTheorems.

(** ** Handshake and peer verification *)

Section HandshakeFacts.
Context {M : Messages} {L : OpenSSL}.

Lemma rd_kafka_transport_ssl_verify_cases (w : world) :
  let ssl := tls_ssl (w_tls w) in
  let out := rd_kafka_transport_ssl_verify true w in
  match SSL_get_peer_certificate ssl with
  | None =>
      out = (-1, add_note w
                   (BrokerFail LOG_ERR RD_KAFKA_RESP_ERR__SSL
                      "Broker did not provide a certificate"))
  | Some _ =>
      if SSL_get_verify_result ssl =? X509_V_OK then out = (0, w)
      else
        out = (-1, add_note w
                     (BrokerFail LOG_ERR RD_KAFKA_RESP_ERR__SSL
                        ("Failed to verify broker certificate: "
                         ++ X509_verify_cert_error_string
                              (SSL_get_verify_result ssl))))
  end.
Proof.
  cbn zeta. unfold rd_kafka_transport_ssl_verify. cbn [negb].
  destruct (SSL_get_peer_certificate (tls_ssl (w_tls w))); [|reflexivity].
  destruct (SSL_get_verify_result (tls_ssl (w_tls w)) =? X509_V_OK);
    reflexivity.
Qed.

(** C1. A handshake step in which [SSL_do_handshake] answers 1 while
    [enable_verify] is set. It ends with 1 (and the connection marked
    done) only if the session holds a peer certificate and its
    verification result is [X509_V_OK], and it does so whenever both hold.
    Without a peer certificate it ends with -1 and the broker failed with
    ["Broker did not provide a certificate"]; with a certificate whose
    verification result is not [X509_V_OK] it ends with -1 and the broker
    failed with OpenSSL's text for that result
    ([X509_verify_cert_error_string]). In both failures the connection is
    not marked done. *)
Theorem ssl_handshake_verifies_peer (w : world) :
  fst (SSL_do_handshake (w_tls w)) = 1 ->
  let ssl := tls_ssl (snd (SSL_do_handshake (w_tls w))) in
  let out := rd_kafka_transport_ssl_handshake true w in
  (fst out = 1 ->
   (exists cert : X509, SSL_get_peer_certificate ssl = Some cert)
   /\ SSL_get_verify_result ssl = X509_V_OK)
  /\ (SSL_get_peer_certificate ssl = None ->
      fst out = -1
      /\ w_notes (snd out) =
           w_notes w
           ++ [BrokerFail LOG_ERR RD_KAFKA_RESP_ERR__SSL
                 "Broker did not provide a certificate"])
  /\ (forall cert : X509,
         SSL_get_peer_certificate ssl = Some cert ->
         SSL_get_verify_result ssl <> X509_V_OK ->
         fst out = -1
         /\ w_notes (snd out) =
              w_notes w
              ++ [BrokerFail LOG_ERR RD_KAFKA_RESP_ERR__SSL
                    ("Failed to verify broker certificate: "
                     ++ X509_verify_cert_error_string
                          (SSL_get_verify_result ssl))])
  /\ (forall cert : X509,
         SSL_get_peer_certificate ssl = Some cert ->
         SSL_get_verify_result ssl = X509_V_OK ->
         fst out = 1 /\ w_notes (snd out) = w_notes w ++ [ConnectDone]).
Proof.
  intros Hdone ssl out.
  assert (Hout : out = rd_kafka_transport_ssl_handshake true w)
    by reflexivity.
  unfold rd_kafka_transport_ssl_handshake in Hout.
  unfold ssl. clear ssl.
  destruct (SSL_do_handshake (w_tls w)) as [r t] eqn:Ehs.
  cbn [fst snd] in *. subst r. cbn [Z.eqb Pos.eqb] in Hout.
  pose proof (rd_kafka_transport_ssl_verify_cases (set_tls w t)) as Hv.
  cbn zeta in Hv. cbn [set_tls w_tls] in Hv.
  destruct (SSL_get_peer_certificate (tls_ssl t)) as [cert|] eqn:Ecert.
  - destruct (Z.eqb_spec (SSL_get_verify_result (tls_ssl t)) X509_V_OK)
      as [Hok|Hbad];
      rewrite Hv in Hout; cbn in Hout; rewrite Hout; cbn [fst snd].
    + repeat split; try congruence; try (intros; exfalso; congruence).
      exists cert. reflexivity.
    + repeat split; try congruence; try (intros; exfalso; congruence);
        try (intros; exfalso; lia).
  - rewrite Hv in Hout. cbn in Hout. rewrite Hout. cbn [fst snd].
    repeat split; try congruence; try (intros; exfalso; congruence);
      try (intros; exfalso; lia).
Qed.

End HandshakeFacts.

(** ** The verification hook *)

Section VerifyHookFacts.
Context {L : OpenSSL}.

(** C5. When the hook reaches the application callback (a current
    certificate whose encoding succeeds), with [a] what the callback
    leaves: if the callback rejects ([cv_ok a = 0]) the hook stores the
    error code of the callback in the chain context, logs subject, issuer
    and the text of the callback to the broker log, and answers 0; if it
    accepts, the hook answers 1, and when the error code was not 0 on entry
    and the callback set it to 0 the chain context is reset to error 0
    (it is left as it was otherwise). *)
Theorem cert_verify_cb_follows_callback (cb : cert_verify_cb_t)
  (rkb : rd_kafka_broker) (preverify_ok : Z)
  (x509_ctx : X509_STORE_CTX X509) (cert : X509) (buf_size : Z)
  (buf : list Byte.byte) :
  x509_current_cert x509_ctx = Some cert ->
  i2d_X509 cert = (buf_size, Some buf) ->
  0 <= buf_size ->
  let a := cb (rkb_nodename rkb) (rkb_nodeid rkb) (x509_error x509_ctx)
             (x509_error_depth x509_ctx) buf (Z.to_nat buf_size)
             EmptyString 512%nat in
  let out := rd_kafka_transport_ssl_cert_verify_cb cb (Some rkb)
               preverify_ok x509_ctx in
  (cv_ok a = 0 ->
   out = Returned
           (mk_hook_result 0
              (X509_STORE_CTX_set_error x509_ctx (cv_x509_error a))
              [mk_log BrokerLog LOG_ERR "SSLCERTVRFY"
                 ("Certificate (subject="
                  ++ X509_NAME_oneline (X509_get_subject_name cert) 128
                  ++ ", issuer="
                  ++ X509_NAME_oneline (X509_get_issuer_name cert) 128
                  ++ ") verification callback failed: " ++ cv_errstr a)]
              true))
  /\ (cv_ok a <> 0 -> x509_error x509_ctx <> 0 -> cv_x509_error a = 0 ->
      out = Returned
              (mk_hook_result 1 (X509_STORE_CTX_set_error x509_ctx 0) []
                 true))
  /\ (cv_ok a <> 0 -> x509_error x509_ctx = 0 \/ cv_x509_error a <> 0 ->
      out = Returned (mk_hook_result 1 x509_ctx [] true)).
Proof.
  intros Hcert Hi2d Hsize a out.
  assert (Hout : out = rd_kafka_transport_ssl_cert_verify_cb cb (Some rkb)
                         preverify_ok x509_ctx) by reflexivity.
  unfold rd_kafka_transport_ssl_cert_verify_cb in Hout.
  rewrite Hcert, Hi2d in Hout.
  replace (buf_size <? 0) with false in Hout
    by (symmetry; apply Z.ltb_ge; exact Hsize).
  fold a in Hout.
  destruct (Z.eqb_spec (cv_ok a) 0) as [Hrej|Hacc].
  - repeat split; try (intros; exfalso; congruence).
    intros _. exact Hout.
  - destruct (Z.eqb_spec (x509_error x509_ctx) 0) as [Ho|Ho];
      destruct (Z.eqb_spec (cv_x509_error a) 0) as [Hn|Hn];
      cbn [negb andb] in Hout;
      repeat split; try (intros; exfalso; congruence);
      try (intros; exact Hout);
      try (intros ? [?|?]; exfalso; congruence).
Qed.

(** C9. The hook fails closed. Without a current certificate it answers 0,
    and so it does when the certificate cannot be encoded (no buffer, or a
    negative size), the chain context untouched and the callback not
    invoked in both cases. Whatever the thread-local transport, an answer of
    1 comes only after the callback was invoked on the encoded current
    certificate and answered non-zero. *)
Theorem cert_verify_cb_fails_closed (cb : cert_verify_cb_t)
  (preverify_ok : Z) (x509_ctx : X509_STORE_CTX X509) :
  (forall rkb : rd_kafka_broker,
      x509_current_cert x509_ctx = None ->
      rd_kafka_transport_ssl_cert_verify_cb cb (Some rkb) preverify_ok
        x509_ctx
      = Returned
          (mk_hook_result 0 x509_ctx
             [mk_log BrokerLog LOG_ERR "SSLCERTVRFY"
                "Failed to get current certificate to verify"]
             false))
  /\ (forall (rkb : rd_kafka_broker) (cert : X509),
         x509_current_cert x509_ctx = Some cert ->
         snd (i2d_X509 cert) = None \/ fst (i2d_X509 cert) < 0 ->
         rd_kafka_transport_ssl_cert_verify_cb cb (Some rkb) preverify_ok
           x509_ctx
         = Returned
             (mk_hook_result 0 x509_ctx
                [mk_log BrokerLog LOG_ERR "SSLCERTVRFY"
                   "Unable to convert certificate to X509 format"]
                false))
  /\ (forall (curr : option rd_kafka_broker) (res : hook_result),
         rd_kafka_transport_ssl_cert_verify_cb cb curr preverify_ok x509_ctx
         = Returned res ->
         hook_ret res <> 0 ->
         hook_ret res = 1 /\ hook_called res = true
         /\ exists (rkb : rd_kafka_broker) (cert : X509) (buf_size : Z)
                   (buf : list Byte.byte),
              curr = Some rkb
              /\ x509_current_cert x509_ctx = Some cert
              /\ i2d_X509 cert = (buf_size, Some buf)
              /\ 0 <= buf_size
              /\ cv_ok (cb (rkb_nodename rkb) (rkb_nodeid rkb)
                          (x509_error x509_ctx) (x509_error_depth x509_ctx)
                          buf (Z.to_nat buf_size) EmptyString 512%nat) <> 0).
Proof.
  split; [|split].
  - intros rkb Hcert. unfold rd_kafka_transport_ssl_cert_verify_cb.
    rewrite Hcert. reflexivity.
  - intros rkb cert Hcert Henc.
    unfold rd_kafka_transport_ssl_cert_verify_cb. rewrite Hcert.
    destruct (i2d_X509 cert) as [buf_size [buf|]]; cbn [fst snd] in Henc.
    + destruct Henc as [Hnone|Hneg]; [discriminate|].
      replace (buf_size <? 0) with true
        by (symmetry; apply Z.ltb_lt; exact Hneg).
      reflexivity.
    + reflexivity.
  - intros curr res Hrun Hret.
    unfold rd_kafka_transport_ssl_cert_verify_cb in Hrun.
    destruct curr as [rkb|]; [|discriminate].
    destruct (x509_current_cert x509_ctx) as [cert|] eqn:Hcert;
      [|injection Hrun as <-; cbn in Hret; congruence].
    destruct (i2d_X509 cert) as [buf_size [buf|]] eqn:Hi2d;
      [|injection Hrun as <-; cbn in Hret; congruence].
    destruct (Z.ltb_spec buf_size 0) as [Hneg|Hsize];
      [injection Hrun as <-; cbn in Hret; congruence|].
    destruct (Z.eqb_spec
                (cv_ok (cb (rkb_nodename rkb) (rkb_nodeid rkb)
                          (x509_error x509_ctx) (x509_error_depth x509_ctx)
                          buf (Z.to_nat buf_size) EmptyString 512%nat)) 0)
      as [Hrej|Hacc];
      [injection Hrun as <-; cbn in Hret; congruence|].
    assert (Hres : hook_ret res = 1 /\ hook_called res = true).
    { destruct (negb (x509_error x509_ctx =? 0)
                && (cv_x509_error
                      (cb (rkb_nodename rkb) (rkb_nodeid rkb)
                         (x509_error x509_ctx) (x509_error_depth x509_ctx)
                         buf (Z.to_nat buf_size) EmptyString 512%nat) =? 0));
        injection Hrun as <-; cbn; auto. }
    destruct Hres as [H1 H2]. split; [exact H1|]. split; [exact H2|].
    exists rkb, cert, buf_size, buf. repeat split; try assumption.
Qed.

End VerifyHookFacts.

(** ** The private key password callback *)

Lemma to_int_small (z : Z) : 0 <= z <= INT_MAX -> to_int z = z.
Proof.
  unfold to_int, INT_MAX. intros Hz.
  change (2^31) with 2147483648. change (2^32) with 4294967296.
  rewrite Z.mod_small by lia. lia.
Qed.

(** C10. Without a configured passphrase the callback answers -1 and
    leaves the buffer as it was. With a passphrase of length [L] (at most
    [INT_MAX]) and a buffer of capacity [S] (the [size] that OpenSSL
    passes), the first [min L S] bytes of the buffer become the first
    [min L S] bytes of the passphrase, the rest of the buffer is untouched,
    and the answer is [L] whatever [S] is: more than the bytes written when
    [S < L]. *)
Theorem passwd_cb_answers_length (pw : string) (buf : list ascii)
  (rwflag : Z) :
  Z.of_nat (String.length pw) <= INT_MAX ->
  let L := String.length pw in
  let S := List.length buf in
  let out :=
    rd_kafka_transport_ssl_passwd_cb (Some pw) buf (Z.of_nat S) rwflag in
  (forall (buf0 : list ascii) (size : Z),
      fst (rd_kafka_transport_ssl_passwd_cb None buf0 size rwflag)
      = (-1, buf0))
  /\ fst (fst out) = Z.of_nat L
  /\ snd (fst out) =
       firstn (Nat.min L S) (list_ascii_of_string pw)
       ++ skipn (Nat.min L S) buf
  /\ List.length (snd (fst out)) = S
  /\ ((S < L)%nat -> Z.of_nat (Nat.min L S) < fst (fst out)).
Proof.
  intros Hlen L S out.
  assert (Hout : out = (Z.of_nat L,
                        memcpy buf (list_ascii_of_string pw) (Nat.min L S),
                        [])).
  { unfold out, rd_kafka_transport_ssl_passwd_cb.
    rewrite to_int_small by (split; [lia|exact Hlen]).
    fold L. f_equal. f_equal. f_equal. lia. }
  rewrite Hout. cbn [fst snd]. unfold memcpy.
  split; [reflexivity|].
  split; [reflexivity|].
  split; [reflexivity|].
  split; [|lia].
  rewrite length_app, length_firstn, length_skipn.
  assert (HL : List.length (list_ascii_of_string pw) = L).
  { unfold L. clear. induction pw as [|c pw IH]; cbn; congruence. }
  rewrite HL. fold S. lia.
Qed.

(** ** Endpoint identification *)

Lemma substring_0_app (a b : string) :
  substring 0 (String.length a) (a ++ b) = a.
Proof.
  induction a as [|c a IH]; cbn.
  - destruct b; reflexivity.
  - rewrite IH. reflexivity.
Qed.

Lemma strrchr_absent (s : string) (c : ascii) :
  strchr_found s c = false -> strrchr s c = None.
Proof.
  induction s as [|a s IH]; cbn; [reflexivity|].
  intros Hf. apply orb_false_iff in Hf. destruct Hf as [Ha Hs].
  rewrite (IH Hs), Ha. reflexivity.
Qed.

Lemma strrchr_last (host port : string) (c : ascii) :
  strchr_found port c = false ->
  strrchr (host ++ String c port) c = Some (String.length host).
Proof.
  intros Hport. induction host as [|a host IH]; cbn.
  - rewrite (strrchr_absent port c Hport), Ascii.eqb_refl. reflexivity.
  - cbn in IH. rewrite IH. reflexivity.
Qed.

Lemma strip_port_suffix (host port : string) :
  strchr_found port ":" = false ->
  strip_port (host ++ ":" ++ port) = host.
Proof.
  intros Hport. unfold strip_port.
  change (host ++ ":" ++ port)%string with (host ++ String ":" port)%string.
  rewrite (strrchr_last host port ":" Hport). apply substring_0_app.
Qed.

Lemma strip_port_none (name : string) :
  strchr_found name ":" = false -> strip_port name = name.
Proof.
  intros Hn. unfold strip_port. rewrite (strrchr_absent name ":" Hn).
  reflexivity.
Qed.

Lemma strchr_found_In (s : string) (c : ascii) :
  strchr_found s c = true <-> In c (list_ascii_of_string s).
Proof.
  induction s as [|a s IH]; cbn; [split; [discriminate|tauto]|].
  rewrite orb_true_iff, IH, Ascii.eqb_eq. tauto.
Qed.

Lemma strspn_whole (s accept : string) :
  (strspn s accept =? String.length s)%nat = true <-> only_chars accept s.
Proof.
  unfold only_chars. induction s as [|a s IH]; cbn [strspn String.length].
  - split; [intros _ c []|reflexivity].
  - destruct (strchr_found accept a) eqn:Ha.
    + cbn [Nat.eqb]. rewrite IH. apply strchr_found_In in Ha.
      cbn [list_ascii_of_string]. split.
      * intros Hall c [<-|Hc]; [exact Ha|apply Hall; exact Hc].
      * intros Hall c Hc. apply Hall. right. exact Hc.
    + split; [discriminate|]. intros Hall. exfalso.
      assert (Hin : In a (list_ascii_of_string accept))
        by (apply Hall; left; reflexivity).
      apply strchr_found_In in Hin. congruence.
Qed.

Lemma is_ipv4_numeric_spec (name : string) :
  is_ipv4_numeric name = true <-> only_chars "0123456789." name.
Proof. apply strspn_whole. Qed.

Lemma is_ipv6_numeric_spec (name : string) :
  is_ipv6_numeric name = true <->
  has_colon name /\ only_chars "0123456789abcdefABCDEF:.[]%" name.
Proof.
  unfold is_ipv6_numeric, has_colon.
  rewrite andb_true_iff, strchr_found_In, strspn_whole. tauto.
Qed.

Lemma split_on_chars (sep : ascii) (s : string) (c : ascii) :
  In c (list_ascii_of_string s) ->
  c = sep
  \/ exists f : string,
       In f (split_on sep s) /\ In c (list_ascii_of_string f).
Proof.
  induction s as [|a s IH]; cbn [list_ascii_of_string split_on];
    [intros []|].
  intros [<-|Hc].
  - destruct (Ascii.eqb_spec a sep) as [He|He]; [left; exact He|].
    right. destruct (split_on sep s) as [|f fs].
    + exists (String a EmptyString). split; left; reflexivity.
    + exists (String a f). split; left; reflexivity.
  - destruct (IH Hc) as [He|(f & Hf & Hcf)]; [left; exact He|].
    right. destruct (Ascii.eqb a sep).
    + exists f. split; [right; exact Hf|exact Hcf].
    + destruct (split_on sep s) as [|g gs]; [destruct Hf|].
      destruct Hf as [<-|Hf].
      * exists (String a g). split; [left; reflexivity|right; exact Hcf].
      * exists f. split; [right; exact Hf|exact Hcf].
Qed.

Lemma split_on_single (sep : ascii) (s : string) :
  strchr_found s sep = false -> split_on sep s = [s].
Proof.
  induction s as [|a s IH]; cbn [strchr_found split_on]; [reflexivity|].
  intros H. apply orb_false_iff in H. destruct H as [Ha Hs].
  rewrite Ha, (IH Hs). reflexivity.
Qed.

Lemma all_chars_In (p : ascii -> bool) (s : string) (c : ascii) :
  all_chars p s = true -> In c (list_ascii_of_string s) -> p c = true.
Proof.
  unfold all_chars. intros H Hc.
  exact (proj1 (forallb_forall p (list_ascii_of_string s)) H c Hc).
Qed.

Lemma is_octet_digits (f : string) (c : ascii) :
  is_octet f = true -> In c (list_ascii_of_string f) ->
  is_dec_digit c = true.
Proof.
  unfold is_octet. intros H Hc.
  apply andb_true_iff in H. destruct H as [H _].
  apply andb_true_iff in H. destruct H as [_ H].
  exact (all_chars_In _ _ _ H Hc).
Qed.

(** A dotted quad is made of digits and dots only. *)
Lemma ipv4_literal_chars (name : string) :
  ipv4_literal name = true -> only_chars "0123456789." name.
Proof.
  unfold ipv4_literal, only_chars. intros H c Hc.
  destruct (split_on_chars "." name c Hc) as [->|(f & Hf & Hcf)].
  - cbn. tauto.
  - assert (Hd : is_dec_digit c = true).
    { destruct (split_on "." name) as [|a [|b [|g [|d [|x xs]]]]];
        try discriminate.
      apply andb_true_iff in H. destruct H as [H Hd].
      apply andb_true_iff in H. destruct H as [H Hg].
      apply andb_true_iff in H. destruct H as [Ha Hb].
      destruct Hf as [E|[E|[E|[E|[]]]]]; subst f.
      - exact (is_octet_digits _ _ Ha Hcf).
      - exact (is_octet_digits _ _ Hb Hcf).
      - exact (is_octet_digits _ _ Hg Hcf).
      - exact (is_octet_digits _ _ Hd Hcf). }
    unfold is_dec_digit in Hd. apply strchr_found_In in Hd.
    cbn in Hd |- *. tauto.
Qed.

Lemma kind_of_chars (f : string) (c : ascii) :
  is_other (kind_of f) = false -> In c (list_ascii_of_string f) ->
  In c (list_ascii_of_string "0123456789abcdefABCDEF:.[]%").
Proof.
  unfold kind_of. destruct f as [|a f]; [intros _ []|].
  destruct (is_hex_group (String a f)) eqn:Hh.
  - intros _ Hc. unfold is_hex_group in Hh.
    apply andb_true_iff in Hh. destruct Hh as [_ Hh].
    pose proof (all_chars_In _ _ _ Hh Hc) as Hd.
    unfold is_hex_digit in Hd. apply strchr_found_In in Hd.
    cbn in Hd |- *. tauto.
  - destruct (ipv4_literal (String a f)) eqn:Hq; [|discriminate].
    intros _ Hc. pose proof (ipv4_literal_chars _ Hq c Hc) as Hd.
    cbn in Hd |- *. tauto.
Qed.

Lemma ipv6_fields_two (ks : list group_kind) :
  ipv6_fields ks = true -> (2 <= List.length ks)%nat.
Proof.
  destruct ks as [|k [|k' ks]]; [discriminate| |cbn; lia].
  destruct k; discriminate.
Qed.

(** An address in text form has a colon and is made of hexadecimal
    digits, colons and dots only. *)
Lemma ipv6_address_chars (s : string) :
  ipv6_address s = true ->
  has_colon s /\ only_chars "0123456789abcdefABCDEF:.[]%" s.
Proof.
  unfold ipv6_address. intros H. split.
  - apply ipv6_fields_two in H. rewrite length_map in H.
    unfold has_colon. apply strchr_found_In.
    destruct (strchr_found s ":") eqn:Hc; [reflexivity|].
    rewrite (split_on_single _ _ Hc) in H. cbn in H. lia.
  - intros c Hc.
    destruct (split_on_chars ":" s c Hc) as [->|(f & Hf & Hcf)];
      [cbn; tauto|].
    apply (kind_of_chars f); [|exact Hcf].
    unfold ipv6_fields in H.
    apply andb_true_iff in H. destruct H as [H _].
    apply andb_true_iff in H. destruct H as [H _].
    pose proof (proj1 (forallb_forall _ _) H (kind_of f)
                  (in_map kind_of _ _ Hf)) as Hk.
    apply negb_true_iff in Hk. exact Hk.
Qed.

Lemma strip_last_app (c : ascii) (s m : string) :
  strip_last c s = Some m -> s = (m ++ String c EmptyString)%string.
Proof.
  revert m. induction s as [|a s IH]; intros m; [discriminate|].
  cbn [strip_last]. destruct s as [|b s].
  - destruct (Ascii.eqb_spec a c) as [->|]; [|discriminate].
    intros [= <-]. reflexivity.
  - destruct (strip_last c (String b s)) as [m'|]; [|discriminate].
    intros [= <-]. cbn [append]. rewrite <- (IH m' eq_refl). reflexivity.
Qed.

Lemma In_append (a b : string) (c : ascii) :
  In c (list_ascii_of_string (a ++ b)) <->
  In c (list_ascii_of_string a) \/ In c (list_ascii_of_string b).
Proof.
  induction a as [|x a IH]; cbn [append list_ascii_of_string In]; [tauto|].
  rewrite IH. tauto.
Qed.

(** The source keeps every numeric literal back: a dotted quad passes the
    test that it labels ipv4, an address in text form, with or without
    brackets, the one that it labels ipv6. *)
Lemma numeric_literal_tests (name : string) :
  numeric_literal name = true ->
  is_ipv6_numeric name || is_ipv4_numeric name = true.
Proof.
  unfold numeric_literal. intros H. apply orb_true_iff.
  apply orb_true_iff in H. destruct H as [H|H].
  - right. apply is_ipv4_numeric_spec. apply ipv4_literal_chars. exact H.
  - left. apply is_ipv6_numeric_spec. unfold ipv6_literal in H.
    apply orb_true_iff in H. destruct H as [H|H];
      [apply ipv6_address_chars; exact H|].
    destruct name as [|a rest]; [discriminate|].
    destruct (Ascii.eqb_spec a "[") as [->|Ha].
    + destruct (strip_last "]" rest) as [s|] eqn:Hs.
      * apply strip_last_app in Hs. subst rest.
        destruct (ipv6_address_chars s H) as [Hcol Hall].
        unfold has_colon, only_chars in *.
        cbn [list_ascii_of_string In]. split.
        -- right. apply In_append. left. exact Hcol.
        -- intros c [<-|Hc]; [cbn; tauto|].
           apply In_append in Hc. destruct Hc as [Hc|Hc];
             [apply Hall; exact Hc|].
           cbn in Hc |- *. tauto.
      * discriminate.
    + exfalso. revert H Ha. clear.
      destruct a as [[] [] [] [] [] [] [] []]; try discriminate.
      intros _ Ha. apply Ha. reflexivity.
Qed.

Section EndpointIdFacts.
Context {M : Messages} {L : OpenSSL} {B : Build}.

Lemma set_endpoint_host_name (eid : rd_kafka_ssl_endpoint_id) (w : world)
  (errstr : string) (errstr_size : nat) (name : string)
  (sni : option string) :
  let res := set_endpoint_host eid w errstr errstr_size name sni in
  ep_name res = name /\ ep_sni res = sni
  /\ (eid = RD_KAFKA_SSL_ENDPOINT_ID_NONE ->
      ep_ret res = 0 /\ ep_host res = None)
  /\ (eid <> RD_KAFKA_SSL_ENDPOINT_ID_NONE -> ep_ret res = 0 ->
      ep_host res = Some name)
  /\ (ep_host res = None \/ ep_host res = Some name).
Proof.
  cbn zeta. unfold set_endpoint_host, endpoint_fail.
  destruct eid.
  - cbn. repeat split; try congruence. left. reflexivity.
  - destruct (0x10100000 <=? OPENSSL_VERSION_NUMBER).
    + destruct (SSL_set1_host (w_tls w) name) as [r t].
      destruct (r =? 0);
        [destruct (ssl_error_in_world (set_tls w t) errstr errstr_size)|];
        cbn; repeat split; try congruence; right; reflexivity.
    + destruct (0x1000200f <=? OPENSSL_VERSION_NUMBER).
      * destruct (X509_VERIFY_PARAM_set1_host (w_tls w) name) as [r t].
        destruct (r =? 0);
          [destruct (ssl_error_in_world (set_tls w t) errstr errstr_size)|];
          cbn; repeat split; try congruence; right; reflexivity.
      * cbn. repeat split; try congruence. left. reflexivity.
Qed.

(** With endpoint identification asked for on OpenSSL 1.0.2 or later, the
    name is handed to the host check of the library, and the answer of
    that call decides the result. *)
Lemma set_endpoint_host_called (eid : rd_kafka_ssl_endpoint_id) (w : world)
  (errstr : string) (errstr_size : nat) (name : string)
  (sni : option string) :
  eid <> RD_KAFKA_SSL_ENDPOINT_ID_NONE ->
  0x1000200f <= OPENSSL_VERSION_NUMBER ->
  let res := set_endpoint_host eid w errstr errstr_size name sni in
  ep_host res = Some name
  /\ ep_ret res =
       (if fst ((if 0x10100000 <=? OPENSSL_VERSION_NUMBER
                 then SSL_set1_host
                 else X509_VERIFY_PARAM_set1_host) (w_tls w) name) =? 0
        then -1 else 0).
Proof.
  intros Hne Hver. cbn zeta. unfold set_endpoint_host, endpoint_fail.
  destruct eid; [congruence|].
  destruct (0x10100000 <=? OPENSSL_VERSION_NUMBER).
  - destruct (SSL_set1_host (w_tls w) name) as [r t]. cbn [fst].
    destruct (r =? 0);
      [destruct (ssl_error_in_world (set_tls w t) errstr errstr_size)|];
      split; reflexivity.
  - replace (0x1000200f <=? OPENSSL_VERSION_NUMBER) with true
      by (symmetry; apply Z.leb_le; exact Hver).
    destruct (X509_VERIFY_PARAM_set1_host (w_tls w) name) as [r t].
    cbn [fst].
    destruct (r =? 0);
      [destruct (ssl_error_in_world (set_tls w t) errstr errstr_size)|];
      split; reflexivity.
Qed.

(** C6. [rd_kafka_transport_ssl_set_endpoint_id] on a build with TLS
    extensions, for a node name that fits [rkb_nodename]. The name it uses
    is the node name cut at its last colon (the node name itself when it
    has no colon). That name is handed to [SSL_set_tlsext_host_name]
    exactly when it passes neither of the tests that the source labels ipv6
    and ipv4: it is kept back exactly when it has a colon and is made only
    of hex digits, colons, dots, brackets and percent signs, or is made
    only of digits and dots. A numeric literal, a dotted quad or an IPv6
    address in text form, is therefore never sent, while a name that is
    no literal can be kept back too. When [SSL_set_tlsext_host_name]
    answers 0 the call fails before a host to check is set. With endpoint
    identification enabled on OpenSSL 1.0.2 or later, and unless the SNI
    call answered 0, the name is handed to [SSL_set1_host] (from OpenSSL
    1.1.0 on) or to [X509_VERIFY_PARAM_set1_host], in the state that the
    SNI call left, and the call answers 0 exactly when the library
    accepted the name, -1 otherwise; no other name is ever set, and with
    endpoint identification disabled no host is set. For
    ["broker.example.com:9093"] the name is ["broker.example.com"], sent
    for SNI and checked. *)
Theorem set_endpoint_id_hostname (eid : rd_kafka_ssl_endpoint_id)
  (w : world) (errstr : string) (errstr_size : nat) :
  (String.length (rkb_nodename (w_rkb w)) < RD_KAFKA_NODENAME_SIZE)%nat ->
  0x0090806f <= OPENSSL_VERSION_NUMBER ->
  OPENSSL_NO_TLSEXT = false ->
  let nodename := rkb_nodename (w_rkb w) in
  let res := rd_kafka_transport_ssl_set_endpoint_id eid w errstr
               errstr_size in
  let after_sni :=
    match ep_sni res with
    | Some n => snd (SSL_set_tlsext_host_name (w_tls w) n)
    | None => w_tls w
    end in
  let set_host :=
    if 0x10100000 <=? OPENSSL_VERSION_NUMBER then SSL_set1_host
    else X509_VERIFY_PARAM_set1_host in
  (forall host port : string,
      nodename = (host ++ ":" ++ port)%string ->
      strchr_found port ":" = false ->
      ep_name res = host)
  /\ (strchr_found nodename ":" = false -> ep_name res = nodename)
  /\ ep_sni res =
       (if is_ipv6_numeric (ep_name res) || is_ipv4_numeric (ep_name res)
        then None else Some (ep_name res))
  /\ (ep_sni res = None <->
      (has_colon (ep_name res)
       /\ only_chars "0123456789abcdefABCDEF:.[]%" (ep_name res))
      \/ only_chars "0123456789." (ep_name res))
  /\ (eid <> RD_KAFKA_SSL_ENDPOINT_ID_NONE -> ep_ret res = 0 ->
      ep_host res = Some (ep_name res))
  /\ (ep_host res = None \/ ep_host res = Some (ep_name res))
  /\ (eid = RD_KAFKA_SSL_ENDPOINT_ID_NONE -> ep_host res = None)
  /\ (nodename = "broker.example.com:9093"%string ->
      ep_name res = "broker.example.com"%string
      /\ ep_sni res = Some "broker.example.com"%string
      /\ (eid <> RD_KAFKA_SSL_ENDPOINT_ID_NONE -> ep_ret res = 0 ->
          ep_host res = Some "broker.example.com"%string)
      /\ (eid <> RD_KAFKA_SSL_ENDPOINT_ID_NONE ->
          0x1000200f <= OPENSSL_VERSION_NUMBER ->
          fst (SSL_set_tlsext_host_name (w_tls w) "broker.example.com") <> 0 ->
          ep_host res = Some "broker.example.com"%string))
  /\ (numeric_literal (ep_name res) = true -> ep_sni res = None)
  /\ (forall n : string,
         ep_sni res = Some n ->
         fst (SSL_set_tlsext_host_name (w_tls w) n) = 0 ->
         ep_ret res = -1 /\ ep_host res = None)
  /\ (eid <> RD_KAFKA_SSL_ENDPOINT_ID_NONE ->
      0x1000200f <= OPENSSL_VERSION_NUMBER ->
      (forall n : string,
          ep_sni res = Some n ->
          fst (SSL_set_tlsext_host_name (w_tls w) n) <> 0) ->
      ep_host res = Some (ep_name res)
      /\ ep_ret res =
           (if fst (set_host after_sni (ep_name res)) =? 0 then -1 else 0)).
Proof.
  intros Hfit Hver Hext nodename res after_sni set_host.
  set (name := strip_port nodename).
  assert (Hres :
            ep_name res = name
            /\ ep_sni res =
                 (if is_ipv6_numeric name || is_ipv4_numeric name
                  then None else Some name)
            /\ (eid <> RD_KAFKA_SSL_ENDPOINT_ID_NONE -> ep_ret res = 0 ->
                ep_host res = Some name)
            /\ (ep_host res = None \/ ep_host res = Some name)
            /\ (eid = RD_KAFKA_SSL_ENDPOINT_ID_NONE -> ep_host res = None)
            /\ (forall n : string,
                   ep_sni res = Some n ->
                   fst (SSL_set_tlsext_host_name (w_tls w) n) = 0 ->
                   ep_ret res = -1 /\ ep_host res = None)
            /\ (eid <> RD_KAFKA_SSL_ENDPOINT_ID_NONE ->
                0x1000200f <= OPENSSL_VERSION_NUMBER ->
                (forall n : string,
                    ep_sni res = Some n ->
                    fst (SSL_set_tlsext_host_name (w_tls w) n) <> 0) ->
                ep_host res = Some name
                /\ ep_ret res =
                     (if fst (set_host after_sni name) =? 0 then -1 else 0))).
  { unfold after_sni, set_host, res, rd_kafka_transport_ssl_set_endpoint_id.
    rewrite rd_snprintf_fits by exact Hfit.
    fold nodename. fold name. rewrite Hext.
    replace (0x0090806f <=? OPENSSL_VERSION_NUMBER) with true
      by (symmetry; apply Z.leb_le; exact Hver).
    cbn [andb negb].
    destruct (is_ipv6_numeric name || is_ipv4_numeric name); cbn [negb].
    - pose proof (set_endpoint_host_name eid w errstr errstr_size name None)
        as Hh.
      pose proof (set_endpoint_host_called eid w errstr errstr_size name
                    None) as Hc.
      cbn zeta in Hh, Hc. destruct Hh as (Hn & Hs & Hnone & Hsome & Hany).
      rewrite Hs.
      split; [exact Hn|]. split; [reflexivity|]. split; [exact Hsome|].
      split; [exact Hany|]. split; [intros He; apply Hnone; exact He|].
      split; [intros n Hsn; discriminate|].
      intros Hne Hv _. exact (Hc Hne Hv).
    - destruct (SSL_set_tlsext_host_name (w_tls w) name) as [r t] eqn:Hsni.
      destruct (Z.eqb_spec r 0) as [Hr|Hr].
      + unfold endpoint_fail.
        destruct (ssl_error_in_world (set_tls w t) errstr errstr_size).
        cbn [ep_name ep_sni ep_host ep_ret].
        split; [reflexivity|]. split; [reflexivity|].
        split; [intros _ Hz; discriminate|].
        split; [left; reflexivity|]. split; [reflexivity|].
        split; [intros n _ _; split; reflexivity|].
        intros _ _ Hall. exfalso. apply (Hall name eq_refl).
        rewrite Hsni. exact Hr.
      + pose proof (set_endpoint_host_name eid (set_tls w t) errstr
                      errstr_size name (Some name)) as Hh.
        pose proof (set_endpoint_host_called eid (set_tls w t) errstr
                      errstr_size name (Some name)) as Hc.
        cbn zeta in Hh, Hc. destruct Hh as (Hn & Hs & Hnone & Hsome & Hany).
        rewrite Hs.
        split; [exact Hn|]. split; [reflexivity|]. split; [exact Hsome|].
        split; [exact Hany|]. split; [intros He; apply Hnone; exact He|].
        split.
        * intros n [= <-] Hz. rewrite Hsni in Hz. cbn [fst] in Hz.
          congruence.
        * intros Hne Hv _. rewrite Hsni. cbn [snd].
          exact (Hc Hne Hv). }
  destruct Hres as (Hname & Hsni & Hhost & Hany & Hnone & Hrefused & Hcalled).
  rewrite Hname.
  split; [|split; [|split; [|split; [|split; [|split; [|split;
    [|split; [|split; [|split]]]]]]]]]; try assumption.
  - intros host port Hnode Hport. unfold name. rewrite Hnode.
    apply strip_port_suffix. exact Hport.
  - intros Hn. unfold name. apply strip_port_none. exact Hn.
  - rewrite Hsni, <- is_ipv6_numeric_spec, <- is_ipv4_numeric_spec,
      <- orb_true_iff.
    destruct (is_ipv6_numeric name || is_ipv4_numeric name);
      split; congruence.
  - intros Hnode.
    assert (Hb : name = "broker.example.com"%string)
      by (unfold name; rewrite Hnode; reflexivity).
    assert (Hs : ep_sni res = Some "broker.example.com"%string)
      by (rewrite Hsni, Hb; reflexivity).
    rewrite Hb in *.
    split; [reflexivity|]. split; [exact Hs|].
    split; [intros Hne Hret; apply Hhost; assumption|].
    intros Hne Hv Hok. apply (Hcalled Hne Hv).
    intros n Hn. rewrite Hs in Hn. injection Hn as <-. exact Hok.
  - intros Hlit. rewrite Hsni.
    rewrite (numeric_literal_tests name Hlit). reflexivity.
Qed.

End EndpointIdFacts.

(** ** Certificates and keys of the context *)

Section CertsFacts.
Context {M : Messages} {L : OpenSSL} {CL : CertLib} {B : Build}.

Lemma trace_snoc (tr : list (cert_step * bool)) (step : cert_step)
  (ok : bool) :
  key_installed (tr ++ [(step, ok)])
  = key_installed tr || (installs_key step && ok)
  /\ check_ran (tr ++ [(step, ok)]) = check_ran tr || is_check step
  /\ load_failed (tr ++ [(step, ok)])
     = load_failed tr || (negb (is_check step) && negb ok)
  /\ check_failed (tr ++ [(step, ok)])
     = check_failed tr || (is_check step && negb ok).
Proof.
  unfold key_installed, check_ran, load_failed, check_failed.
  rewrite !existsb_app. cbn [existsb fst snd].
  rewrite !orb_false_r. repeat split.
Qed.

Lemma certs_try_inv (s : certs_state) (step : cert_step) (text : string)
  (r : Z * E) :
  certs_inv s -> is_check step = false ->
  certs_run_inv (certs_try s step (installs_key step) text r).
Proof.
  intros (Hl & Hc & Hf & Hk) Hstep. unfold certs_try.
  destruct (fst r =? 1); cbn [certs_run_inv cs_trace cf_trace cs_check_pkey];
    unfold certs_inv; cbn [cs_trace cs_check_pkey];
    destruct (trace_snoc (cs_trace s) step true) as (K1 & C1 & L1 & F1);
    destruct (trace_snoc (cs_trace s) step false) as (K0 & C0 & L0 & F0).
  - rewrite K1, C1, L1, F1, Hl, Hc, Hf, Hk, Hstep.
    rewrite andb_true_r. cbn. repeat split.
  - rewrite C0, L0, F0, Hl, Hc, Hf, Hstep. cbn. repeat split.
Qed.

Lemma certs_fail_inv (s : certs_state) (e : E) (step : cert_step)
  (text : string) :
  certs_inv s -> is_check step = false ->
  certs_run_inv (certs_fail s e step text).
Proof.
  intros (Hl & Hc & Hf & Hk) Hstep.
  cbn [certs_fail certs_run_inv cf_trace].
  destruct (trace_snoc (cs_trace s) step false) as (K0 & C0 & L0 & F0).
  rewrite C0, L0, F0, Hl, Hc, Hf, Hstep. cbn. repeat split.
Qed.

Lemma certs_note_inv (s : certs_state) (e : E) (step : cert_step) :
  certs_inv s -> is_check step = false -> installs_key step = false ->
  certs_inv (certs_note s e step).
Proof.
  intros (Hl & Hc & Hf & Hk) Hstep Hkey.
  unfold certs_inv. cbn [certs_note cs_trace cs_check_pkey].
  destruct (trace_snoc (cs_trace s) step true) as (K1 & C1 & L1 & F1).
  rewrite K1, C1, L1, F1, Hl, Hc, Hf, Hk, Hstep, Hkey. cbn.
  rewrite !orb_false_r. repeat split.
Qed.

Lemma certs_env_inv (s : certs_state) (e : E) :
  certs_inv s -> certs_inv (certs_env s e).
Proof. intros Hs. exact Hs. Qed.

Lemma certs_bind_inv (r : certs_run) (f : certs_state -> certs_run) :
  certs_run_inv r ->
  (forall s : certs_state, certs_inv s -> certs_run_inv (f s)) ->
  certs_run_inv (certs_bind r f).
Proof. intros Hr Hf. destruct r as [s|e]; [apply Hf|]; exact Hr. Qed.

Ltac certs_step :=
  first
    [ assumption
    | apply certs_env_inv
    | apply (certs_try_inv _ UseKey)
    | apply (certs_try_inv _ UseKeyFile)
    | apply (certs_try_inv _ UseKeyPem)
    | apply (certs_try_inv _ UseKeystoreKey)
    | apply (certs_try_inv _ LoadCALocation)
    | apply (certs_try_inv _ LoadCRL)
    | apply (certs_try_inv _ UseCert)
    | apply (certs_try_inv _ UseCertFile)
    | apply (certs_try_inv _ UseCertPem)
    | apply (certs_try_inv _ UseKeystoreCert)
    | apply certs_fail_inv
    | apply certs_note_inv
    | reflexivity ].

Lemma load_ca_inv (conf : ssl_conf) (s : certs_state) :
  certs_inv s -> certs_run_inv (load_ca conf s).
Proof.
  intros Hs. unfold load_ca.
  destruct (ssl_ca conf); [exact Hs|].
  destruct (ssl_ca_location conf); [repeat certs_step|].
  destruct (if MSC_VER then rd_kafka_ssl_win_load_root_certs (cs_env s)
            else (-1, cs_env s)) as [r e].
  destruct (r =? -1); exact Hs.
Qed.

Lemma load_crl_inv (conf : ssl_conf) (s : certs_state) :
  certs_inv s -> certs_run_inv (load_crl conf s).
Proof.
  intros Hs. unfold load_crl.
  destruct (ssl_crl_location conf); [|exact Hs].
  apply certs_bind_inv; [repeat certs_step|].
  intros s' Hs'. exact Hs'.
Qed.

Lemma load_cert_inv (conf : ssl_conf) (s : certs_state) :
  certs_inv s -> certs_run_inv (load_cert conf s).
Proof.
  intros Hs. unfold load_cert.
  destruct (ssl_cert conf); [repeat certs_step|exact Hs].
Qed.

Lemma load_cert_location_inv (conf : ssl_conf) (s : certs_state) :
  certs_inv s -> certs_run_inv (load_cert_location conf s).
Proof.
  intros Hs. unfold load_cert_location.
  destruct (ssl_cert_location conf); [repeat certs_step|exact Hs].
Qed.

Lemma load_cert_pem_inv (conf : ssl_conf) (s : certs_state) :
  certs_inv s -> certs_run_inv (load_cert_pem conf s).
Proof.
  intros Hs. unfold load_cert_pem.
  destruct (ssl_cert_pem conf) as [pem|]; [|exact Hs].
  destruct (rd_kafka_ssl_X509_from_string conf (cs_env s) pem)
    as [[x509|] e]; repeat certs_step.
Qed.

Lemma load_key_inv (conf : ssl_conf) (s : certs_state) :
  certs_inv s -> certs_run_inv (load_key conf s).
Proof.
  intros Hs. unfold load_key.
  destruct (ssl_key conf); [repeat certs_step|exact Hs].
Qed.

Lemma load_key_location_inv (conf : ssl_conf) (s : certs_state) :
  certs_inv s -> certs_run_inv (load_key_location conf s).
Proof.
  intros Hs. unfold load_key_location.
  destruct (ssl_key_location conf); [repeat certs_step|exact Hs].
Qed.

Lemma load_key_pem_inv (conf : ssl_conf) (s : certs_state) :
  certs_inv s -> certs_run_inv (load_key_pem conf s).
Proof.
  intros Hs. unfold load_key_pem.
  destruct (ssl_key_pem conf) as [pem|]; [|exact Hs].
  destruct (rd_kafka_ssl_PKEY_from_string conf (cs_env s) pem)
    as [[pkey|] e]; repeat certs_step.
Qed.

Lemma load_keystore_inv (conf : ssl_conf) (s : certs_state) :
  certs_inv s -> certs_run_inv (load_keystore conf s).
Proof.
  intros Hs. unfold load_keystore.
  destruct (ssl_keystore_location conf) as [loc|]; [|exact Hs].
  destruct (fopen (cs_env s) loc) as [[fp|errno] e]; [|repeat certs_step].
  destruct (d2i_PKCS12_fp e fp) as [[p12|] e1]; [|repeat certs_step].
  destruct (PKCS12_parse e1 p12 (ssl_keystore_password conf))
    as [[[pkey cert]|] e2]; [|repeat certs_step].
  apply certs_bind_inv; [repeat certs_step|].
  intros s2 Hs2. repeat certs_step.
Qed.

Lemma load_all_inv (conf : ssl_conf) (ctx : E) :
  certs_run_inv (load_all conf (certs_start ctx)).
Proof.
  unfold load_all.
  repeat (apply certs_bind_inv;
          [|first [ exact (load_crl_inv conf)
                  | exact (load_cert_inv conf)
                  | exact (load_cert_location_inv conf)
                  | exact (load_cert_pem_inv conf)
                  | exact (load_key_inv conf)
                  | exact (load_key_location_inv conf)
                  | exact (load_key_pem_inv conf)
                  | exact (load_keystore_inv conf) ]]).
  apply load_ca_inv. unfold certs_inv, certs_start. cbn. repeat split.
Qed.

Lemma prefix_app (a b : string) : prefix a (a ++ b) = true.
Proof.
  induction a as [|c a IH]; cbn; [destruct b; reflexivity|].
  destruct (ascii_dec c c) as [_|Hne]; [exact IH|congruence].
Qed.

(** The outcome of [rd_kafka_ssl_set_certs] by its history. *)
Lemma set_certs_outcome (conf : ssl_conf) (ctx : E) (errstr : string)
  (errstr_size : nat) :
  let res := rd_kafka_ssl_set_certs conf ctx errstr errstr_size in
  let tr := sc_trace res in
  check_ran tr = key_installed tr && negb (load_failed tr)
  /\ (check_failed tr = true ->
      sc_ret res = -1
      /\ sc_errstr res =
           rd_snprintf errstr errstr_size "Private key check failed: ")
  /\ (load_failed tr = false -> check_failed tr = false ->
      sc_ret res = 0 /\ sc_errstr res = errstr)
  /\ (load_failed tr = true -> sc_ret res = -1 /\ check_failed tr = false)
  /\ match load_all conf (certs_start ctx) with
     | inl s =>
         load_failed tr = false
         /\ cs_check_pkey s = key_installed tr
         /\ check_failed tr =
              cs_check_pkey s
              && negb (fst (SSL_CTX_check_private_key (cs_env s)) =? 1)
     | inr f =>
         load_failed tr = true
         /\ sc_errstr res = rd_snprintf errstr errstr_size (cf_text f)
     end.
Proof.
  cbn zeta. unfold rd_kafka_ssl_set_certs.
  pose proof (load_all_inv conf ctx) as Hinv.
  destruct (load_all conf (certs_start ctx)) as [s|f];
    cbn [certs_bind certs_run_inv] in *.
  - destruct Hinv as (Hl & Hc & Hf & Hk). unfold check_private_key.
    destruct (cs_check_pkey s) eqn:Hpk.
    + destruct (SSL_CTX_check_private_key (cs_env s)) as [r e].
      cbn [fst].
      destruct (trace_snoc (cs_trace s) CheckPrivateKey true)
        as (K1 & C1 & L1 & F1).
      destruct (trace_snoc (cs_trace s) CheckPrivateKey false)
        as (K0 & C0 & L0 & F0).
      destruct (r =? 1);
        cbn [certs_finish sc_trace sc_ret sc_errstr cs_trace cf_trace
               cf_text cs_env cf_env];
        rewrite ?K1, ?C1, ?L1, ?F1, ?K0, ?C0, ?L0, ?F0, ?Hl, ?Hc, ?Hf,
          <- ?Hk; cbn;
        repeat split; try congruence; try (intros; exfalso; congruence).
    + cbn [certs_finish sc_trace sc_ret sc_errstr].
      rewrite Hl, Hc, Hf, <- Hk. cbn.
      repeat split; try congruence; try (intros; exfalso; congruence).
  - destruct Hinv as (Hl & Hc & Hf).
    cbn [certs_finish sc_trace sc_ret sc_errstr].
    rewrite Hl, Hc, Hf, andb_false_r.
    repeat split; try congruence; try (intros; exfalso; congruence).
Qed.

(** C4, as the code has it. For every configuration and context, with
    [tr] the history of [rd_kafka_ssl_set_certs]: the key check runs
    exactly when a private key was installed (in-memory key, key file, PEM
    key or PKCS#12 key) and no loading step failed. A check that does not
    answer 1 ends the call with -1 and ["Private key check failed: "] in
    [errstr]; when no loading step fails and the check does not fail (it
    answers 1, or did not run) the call ends with 0 and leaves [errstr]
    alone. When the loading succeeds, [check_pkey] says whether a key was
    installed and the check fails exactly when [check_pkey] is set and
    [SSL_CTX_check_private_key] does not answer 1. In
    [rd_kafka_ssl_ctx_init], once the context is prepared, a failed check
    ends the construction with -1, no context, and a diagnostic that is
    the text of [rd_kafka_ssl_set_certs] followed by the drained error
    queue: it starts with ["Private key check failed: "] when that fits;
    and the construction succeeds when [rd_kafka_ssl_set_certs] does. *)
Theorem set_certs_key_check (conf : ssl_conf) (ctx : E) (errstr : string)
  (errstr_size : nat) :
  let res := rd_kafka_ssl_set_certs conf ctx errstr errstr_size in
  let tr := sc_trace res in
  check_ran tr = key_installed tr && negb (load_failed tr)
  /\ (check_failed tr = true ->
      sc_ret res = -1
      /\ sc_errstr res =
           rd_snprintf errstr errstr_size "Private key check failed: ")
  /\ (load_failed tr = false -> check_failed tr = false ->
      sc_ret res = 0 /\ sc_errstr res = errstr)
  /\ (load_failed tr = true -> sc_ret res = -1 /\ check_failed tr = false)
  /\ match load_all conf (certs_start ctx) with
     | inl s =>
         load_failed tr = false
         /\ cs_check_pkey s = key_installed tr
         /\ check_failed tr =
              cs_check_pkey s
              && negb (fst (SSL_CTX_check_private_key (cs_env s)) =? 1)
     | inr f =>
         load_failed tr = true
         /\ sc_errstr res = rd_snprintf errstr errstr_size (cf_text f)
     end
  /\ (forall e0 : E,
         ctx_init_prepare conf e0 = inl ctx ->
         let ci := rd_kafka_ssl_ctx_init conf e0 errstr errstr_size in
         let res0 :=
           rd_kafka_ssl_set_certs conf ctx
             (if (0 <? errstr_size)%nat then EmptyString else errstr)
             errstr_size in
         ci_trace ci = tr
         /\ (check_failed tr = true ->
             ci_ret ci = -1 /\ ci_ctx ci = None
             /\ ci_errstr ci =
                  (sc_errstr res
                   ++ se_errstr
                        (rd_kafka_ssl_error None EmptyString
                           (ctx_init_room (sc_errstr res) errstr_size)
                           (env_errq (sc_env res0))))%string
             /\ ((String.length "Private key check failed: "
                   < errstr_size)%nat ->
                 prefix "Private key check failed: " (ci_errstr ci) = true))
         /\ (sc_ret res = 0 ->
             ci_ret ci = 0
             /\ ci_ctx ci = Some (SSL_CTX_set_mode (sc_env res0)))).
Proof.
  intros res tr.
  destruct (set_certs_outcome conf ctx errstr errstr_size)
    as (P1 & P2 & P3 & P4 & P5).
  fold res tr in P1, P2, P3, P4, P5.
  split; [exact P1|]. split; [exact P2|]. split; [exact P3|].
  split; [exact P4|]. split; [exact P5|].
  intros e0 Hprep ci res0.
  assert (Hsame : sc_ret res0 = sc_ret res /\ sc_trace res0 = tr
                  /\ sc_env res0 = sc_env res
                  /\ (sc_ret res = -1 -> sc_errstr res0 = sc_errstr res)).
  { unfold res0, tr, res, rd_kafka_ssl_set_certs.
    destruct (certs_bind (load_all conf (certs_start ctx)) check_private_key)
      as [s|f]; cbn; repeat split; try (intros; exfalso; lia).
    intros _. destruct errstr_size; reflexivity. }
  destruct Hsame as (Sret & Str & Senv & Serr).
  unfold ci, rd_kafka_ssl_ctx_init. rewrite Hprep. fold res0.
  rewrite Sret.
  destruct (Z.eqb_spec (sc_ret res) (-1)) as [Hret|Hret].
  - cbn [ctx_init_fail ci_trace ci_ret ci_ctx ci_errstr].
    rewrite (Serr Hret).
    split; [exact Str|]. split; [|intros; exfalso; lia].
    intros Hcf. repeat split.
    intros Hfit. destruct (P2 Hcf) as [_ Htext]. rewrite Htext.
    rewrite rd_snprintf_fits by exact Hfit. apply prefix_app.
  - cbn [ci_trace ci_ret ci_ctx ci_errstr].
    split; [exact Str|]. split; [|intros; split; reflexivity].
    intros Hcf. destruct (P2 Hcf) as [Hbad _]. contradiction.
Qed.

End CertsFacts.

(** ** Examples on the concrete library *)

(** Two queued errors, the later one with a detail: drained for a broker
    into a buffer of 512 bytes and for the handle into one of 24 bytes;
    and the empty queue. *)
Lemma rd_kafka_ssl_error_drains_example :
  se_queue (rd_kafka_ssl_error (M:=demo_messages)
              (Some (mk_broker "broker.example.com:9093" 1)) EmptyString 512
              [demo_err; demo_alert]) = []
  /\ se_logs (rd_kafka_ssl_error (M:=demo_messages)
                (Some (mk_broker "broker.example.com:9093" 1)) EmptyString
                512 [demo_err; demo_alert])
     = [mk_log BrokerLog 3 "SSL" "s3_clnt.c:1264: error:14090086: "]
  /\ se_errstr (rd_kafka_ssl_error (M:=demo_messages)
                  (Some (mk_broker "broker.example.com:9093" 1)) EmptyString
                  512 [demo_err; demo_alert])
     = "s3_pkt.c:1493: error:14094412: sslv3 alert unexpected message"%string
  /\ se_logs (rd_kafka_ssl_error (M:=demo_messages) None EmptyString 24
                [demo_err; demo_alert])
     = [mk_log HandleLog 3 "SSL" "s3_clnt.c:1264: error:1"]
  /\ se_errstr (rd_kafka_ssl_error (M:=demo_messages) None EmptyString 24
                  [demo_err; demo_alert])
     = "s3_pkt.c:1493: error:14"%string
  /\ se_logs (rd_kafka_ssl_error (M:=demo_messages) None "stale" 512 []) = []
  /\ se_errstr (rd_kafka_ssl_error (M:=demo_messages) None "stale" 512 [])
     = "No error"%string.
Proof.
  destruct (rd_kafka_ssl_error_drains (M:=demo_messages)
              (Some (mk_broker "broker.example.com:9093" 1)) EmptyString 512
              [demo_err; demo_alert]) as (Hq & Hl & He & _).
  destruct (rd_kafka_ssl_error_drains (M:=demo_messages) None EmptyString 24
              [demo_err; demo_alert]) as (_ & Hl' & He' & _).
  destruct (rd_kafka_ssl_error_drains (M:=demo_messages) None "stale" 512 [])
    as (_ & Hl0 & He0 & _).
  split; [exact Hq|].
  split; [rewrite Hl; reflexivity|].
  split; [rewrite He; reflexivity|].
  split; [rewrite Hl'; reflexivity|].
  split; [rewrite He'; reflexivity|].
  split; [rewrite Hl0; reflexivity|rewrite He0; reflexivity].
Defined.

(** A send of a slice with segments of 3 bytes and of 1 byte, to a peer
    that takes up to 3 bytes a call: two full steps. A send to a peer that
    takes nothing and reports no reason: one failed step, classified as
    fatal. A receive into 2, 0 and 3 bytes of room from a peer that hands
    out 2 bytes a call: a full step and a short one. *)
Lemma ssl_send_recv_chunked_example :
  (exists res : io_result rd_slice,
      rd_kafka_transport_ssl_send (M:=demo_messages) demo_world
        [[Byte.x01; Byte.x02; Byte.x03]; [Byte.x05]] EmptyString 512
      = Returned res
      /\ io_steps res = [(3%nat, 3); (1%nat, 1)]
      /\ io_ret res = 4
      /\ io_cursor res = []
      /\ io_class res = None
      /\ transfer_run (M:=demo_messages) (L:=demo_openssl) rd_slice
           (fun s => List.length (rd_slice_peeker s)) rd_slice_skip
           (fun (w' : world) (s : rd_slice) =>
              let (r, t) :=
                SSL_write (w_tls w') (rd_slice_peeker s)
                  (to_int (Z.of_nat (List.length (rd_slice_peeker s)))) in
              (r, set_tls w' t))
           EmptyString 512 (rd_kafka_transport_ssl_clear_error demo_world)
           [[Byte.x01; Byte.x02; Byte.x03]; [Byte.x05]]
           [(3%nat, 3); (1%nat, 1)] (io_world res) [] EmptyString None)
  /\ (exists res : io_result rd_slice,
         rd_kafka_transport_ssl_send (M:=demo_messages) demo_refusing_world
           [[Byte.x01; Byte.x02; Byte.x03]; [Byte.x05]] EmptyString 512
         = Returned res
         /\ io_steps res = [(3%nat, 0)]
         /\ io_ret res = -1
         /\ io_cursor res = [[Byte.x01; Byte.x02; Byte.x03]; [Byte.x05]]
         /\ io_class res = Some (-1)
         /\ io_errstr res = "No error"%string)
  /\ (exists res : io_result rd_buf,
         rd_kafka_transport_ssl_recv (M:=demo_messages) demo_world
           (mk_rd_buf 0 [2; 0; 3]%nat) EmptyString 512
         = Returned res
         /\ io_steps res = [(2%nat, 2); (3%nat, 2)]
         /\ io_ret res = 4
         /\ io_cursor res = mk_rd_buf 4 [1%nat]
         /\ io_class res = None).
Proof.
  split; [|split].
  - pose proof (proj1 (ssl_send_recv_chunked (M:=demo_messages)
                         (L:=demo_openssl)) demo_world
                  [[Byte.x01; Byte.x02; Byte.x03]; [Byte.x05]] EmptyString
                  512%nat) as H.
    cbn zeta in H.
    remember (rd_kafka_transport_ssl_send (M:=demo_messages) demo_world
                [[Byte.x01; Byte.x02; Byte.x03]; [Byte.x05]] EmptyString 512)
      as out eqn:Hout.
    vm_compute in Hout. subst out.
    destruct H as (_ & _ & Hrun & _ & Hret & _).
    eexists. split; [reflexivity|].
    split; [reflexivity|]. split; [exact Hret|].
    split; [reflexivity|]. split; [reflexivity|]. exact Hrun.
  - pose proof (proj1 (ssl_send_recv_chunked (M:=demo_messages)
                         (L:=demo_refusing)) demo_refusing_world
                  [[Byte.x01; Byte.x02; Byte.x03]; [Byte.x05]] EmptyString
                  512%nat) as H.
    cbn zeta in H.
    remember (rd_kafka_transport_ssl_send (M:=demo_messages)
                demo_refusing_world
                [[Byte.x01; Byte.x02; Byte.x03]; [Byte.x05]] EmptyString 512)
      as out eqn:Hout.
    vm_compute in Hout. subst out.
    destruct H as (_ & _ & _ & _ & Hret & _).
    eexists. split; [reflexivity|].
    split; [reflexivity|]. split; [exact Hret|].
    split; [reflexivity|]. split; reflexivity.
  - pose proof (proj2 (ssl_send_recv_chunked (M:=demo_messages)
                         (L:=demo_openssl)) demo_world
                  (mk_rd_buf 0 [2; 0; 3]%nat) EmptyString 512%nat) as H.
    cbn zeta in H.
    remember (rd_kafka_transport_ssl_recv (M:=demo_messages) demo_world
                (mk_rd_buf 0 [2; 0; 3]%nat) EmptyString 512)
      as out eqn:Hout.
    vm_compute in Hout. subst out.
    destruct H as (_ & _ & _ & _ & Hret & _).
    eexists. split; [reflexivity|].
    split; [reflexivity|]. split; [exact Hret|].
    split; reflexivity.
Defined.

(** A handshake that completes against a peer without certificate. *)
Lemma ssl_handshake_verifies_peer_example :
  fst (SSL_do_handshake (w_tls demo_world)) = 1
  /\ fst (rd_kafka_transport_ssl_handshake (M:=demo_messages) true
             demo_world) = -1
  /\ w_notes (snd (rd_kafka_transport_ssl_handshake (M:=demo_messages) true
                     demo_world))
     = [BrokerFail LOG_ERR RD_KAFKA_RESP_ERR__SSL
          "Broker did not provide a certificate"].
Proof.
  assert (Hdone : fst (SSL_do_handshake (w_tls demo_world)) = 1)
    by reflexivity.
  split; [exact Hdone|].
  destruct (ssl_handshake_verifies_peer (M:=demo_messages) demo_world Hdone)
    as (_ & Hnone & _).
  apply Hnone. reflexivity.
Defined.


(** A receive into a buffer with 4, 0 and 3 bytes of room. *)
Lemma ssl_recv_within_capacity_example :
  read_within_request (L:=demo_openssl)
  /\ exists res : io_result rd_buf,
       rd_kafka_transport_ssl_recv (M:=demo_messages) demo_world
         (mk_rd_buf 0 [4; 0; 3]%nat) EmptyString 512 = Returned res
       /\ io_ret res <= 7.
Proof.
  assert (Hc : read_within_request (L:=demo_openssl))
    by (intros t num; cbn [SSL_read demo_openssl fst]; lia).
  split; [exact Hc|].
  destruct (ssl_recv_within_capacity (M:=demo_messages) demo_world
              (mk_rd_buf 0 [4; 0; 3]%nat) EmptyString 512 Hc)
    as (res & Hres & _ & _ & Hle).
  exists res. split; [exact Hres|exact Hle].
Defined.

(** The hook with a callback that rejects with error 18. *)
Lemma cert_verify_cb_follows_callback_example :
  x509_current_cert (mk_x509_ctx (Some demo_cert) 0 0) = Some demo_cert
  /\ i2d_X509 demo_cert = (3, Some [Byte.x30; Byte.x01; Byte.x00])
  /\ 0 <= 3
  /\ rd_kafka_transport_ssl_cert_verify_cb demo_reject
       (Some (w_rkb demo_world)) 1 (mk_x509_ctx (Some demo_cert) 0 0)
     = Returned
         (mk_hook_result 0 (mk_x509_ctx (Some demo_cert) 0 18)
            [mk_log BrokerLog LOG_ERR "SSLCERTVRFY"
               "Certificate (subject=/CN=broker.example.com, issuer=/CN=Example CA) verification callback failed: self signed"]
            true).
Proof.
  split; [reflexivity|]. split; [reflexivity|]. split; [lia|].
  destruct (cert_verify_cb_follows_callback demo_reject (w_rkb demo_world) 1
              (mk_x509_ctx (Some demo_cert) 0 0) demo_cert 3
              [Byte.x30; Byte.x01; Byte.x00] eq_refl eq_refl ltac:(lia))
    as (Hrej & _).
  apply Hrej. reflexivity.
Defined.

(** The node name of the specification. *)
Lemma set_endpoint_id_hostname_example :
  (String.length (rkb_nodename (w_rkb demo_world))
   < RD_KAFKA_NODENAME_SIZE (Build:=demo_build))%nat
  /\ 0x0090806f <= OPENSSL_VERSION_NUMBER (Build:=demo_build)
  /\ OPENSSL_NO_TLSEXT (Build:=demo_build) = false
  /\ ep_name (rd_kafka_transport_ssl_set_endpoint_id (M:=demo_messages)
                (B:=demo_build) RD_KAFKA_SSL_ENDPOINT_ID_HTTPS demo_world
                EmptyString 512)
     = "broker.example.com"%string
  /\ ep_sni (rd_kafka_transport_ssl_set_endpoint_id (M:=demo_messages)
               (B:=demo_build) RD_KAFKA_SSL_ENDPOINT_ID_HTTPS demo_world
               EmptyString 512)
     = Some "broker.example.com"%string
  /\ ep_host (rd_kafka_transport_ssl_set_endpoint_id (M:=demo_messages)
                (B:=demo_build) RD_KAFKA_SSL_ENDPOINT_ID_HTTPS demo_world
                EmptyString 512)
     = Some "broker.example.com"%string
  /\ ep_ret (rd_kafka_transport_ssl_set_endpoint_id (M:=demo_messages)
               (B:=demo_build) RD_KAFKA_SSL_ENDPOINT_ID_HTTPS demo_world
               EmptyString 512)
     = 0.
Proof.
  assert (Hfit : (String.length (rkb_nodename (w_rkb demo_world))
                  < RD_KAFKA_NODENAME_SIZE (Build:=demo_build))%nat)
    by (cbn; lia).
  assert (Hver : 0x0090806f <= OPENSSL_VERSION_NUMBER (Build:=demo_build))
    by (cbn; lia).
  assert (Hext : OPENSSL_NO_TLSEXT (Build:=demo_build) = false)
    by reflexivity.
  split; [exact Hfit|]. split; [exact Hver|]. split; [exact Hext|].
  destruct (set_endpoint_id_hostname (M:=demo_messages) (B:=demo_build)
              RD_KAFKA_SSL_ENDPOINT_ID_HTTPS demo_world EmptyString 512
              Hfit Hver Hext)
    as (_ & _ & _ & _ & _ & _ & _ & Hex & _ & _ & Hcalled).
  destruct (Hex eq_refl) as (Hname & Hsni & _).
  split; [exact Hname|]. split; [exact Hsni|].
  assert (Hok : forall n : string,
             ep_sni (rd_kafka_transport_ssl_set_endpoint_id
                       (M:=demo_messages) (B:=demo_build)
                       RD_KAFKA_SSL_ENDPOINT_ID_HTTPS demo_world EmptyString
                       512) = Some n ->
             fst (SSL_set_tlsext_host_name (OpenSSL:=demo_openssl)
                    (w_tls demo_world) n) <> 0)
    by (intros n _; cbn; discriminate).
  destruct (Hcalled ltac:(discriminate) ltac:(cbn; lia) Hok)
    as (Hhost & Hret).
  split; [rewrite Hhost, Hname; reflexivity|].
  rewrite Hret. reflexivity.
Defined.

(** The claim C6 as it is worded fails here: the name ["1.2.3.4.5"], cut
    from the node name ["1.2.3.4.5:9092"], is neither a dotted quad nor
    an IPv6 address, and yet it is not sent for SNI, because it is made
    of digits and dots. The tests go by the characters alone: the
    link-local address ["[fe80::1%eth0]"] with its zone identifier has
    letters that are no hexadecimal digits, and is sent. *)
Lemma set_endpoint_id_sni_kept_back :
  ep_name (rd_kafka_transport_ssl_set_endpoint_id (M:=demo_messages)
             (B:=demo_build) RD_KAFKA_SSL_ENDPOINT_ID_HTTPS
             demo_dotted_world EmptyString 512)
  = "1.2.3.4.5"%string
  /\ ipv4_literal "1.2.3.4.5" = false
  /\ ipv6_literal "1.2.3.4.5" = false
  /\ ep_sni (rd_kafka_transport_ssl_set_endpoint_id (M:=demo_messages)
               (B:=demo_build) RD_KAFKA_SSL_ENDPOINT_ID_HTTPS
               demo_dotted_world EmptyString 512)
     = None
  /\ ep_ret (rd_kafka_transport_ssl_set_endpoint_id (M:=demo_messages)
               (B:=demo_build) RD_KAFKA_SSL_ENDPOINT_ID_HTTPS
               demo_dotted_world EmptyString 512)
     = 0
  /\ ep_sni (rd_kafka_transport_ssl_set_endpoint_id (M:=demo_messages)
               (B:=demo_build) RD_KAFKA_SSL_ENDPOINT_ID_HTTPS
               demo_scoped_world EmptyString 512)
     = Some "[fe80::1%eth0]"%string.
Proof. vm_compute. repeat split. Qed.

(** A passphrase of 6 bytes and a buffer of 4. *)
Lemma passwd_cb_answers_length_example :
  Z.of_nat (String.length "secret") <= INT_MAX
  /\ fst (rd_kafka_transport_ssl_passwd_cb (Some "secret"%string)
            ["0"; "0"; "0"; "0"]%char 4 0)
     = (6, ["s"; "e"; "c"; "r"]%char).
Proof.
  assert (Hlen : Z.of_nat (String.length "secret") <= INT_MAX)
    by (unfold INT_MAX; cbn; lia).
  split; [exact Hlen|].
  destruct (passwd_cb_answers_length "secret" ["0"; "0"; "0"; "0"]%char 0
              Hlen) as (_ & Hret & Hbuf & _).
  cbn zeta in Hret, Hbuf. cbn [List.length Z.of_nat Pos.of_succ_nat
                                 Pos.succ] in Hret, Hbuf.
  rewrite (surjective_pairing
             (fst (rd_kafka_transport_ssl_passwd_cb (Some "secret"%string)
                     ["0"; "0"; "0"; "0"]%char 4 0))).
  rewrite Hret, Hbuf. reflexivity.
Defined.

(** The claim C4 as it is worded fails here: the key file is installed,
    the keystore cannot be opened, and the check never runs. *)
Lemma set_certs_check_skipped :
  let res :=
    rd_kafka_ssl_set_certs (M:=demo_messages) (B:=demo_build) demo_conf tt
      EmptyString 512 in
  key_installed (sc_trace res) = true
  /\ check_ran (sc_trace res) = false
  /\ sc_trace res = [(UseKeyFile, true); (OpenKeystore, false)]
  /\ sc_ret res = -1
  /\ sc_errstr res
     = "Failed to open ssl.keystore.location: missing.p12: errno 2"%string.
Proof. vm_compute. repeat split. Qed.

(** The two tests on some names. *)
Lemma numeric_name_examples :
  is_ipv4_numeric "192.168.1.10" = true
  /\ is_ipv6_numeric "[2001:db8::1]" = true
  /\ is_ipv6_numeric "::ffff:10.0.0.1" = true
  /\ is_ipv4_numeric "broker.example.com" = false
  /\ is_ipv6_numeric "broker.example.com" = false
  /\ is_ipv4_numeric "cafe.babe" = false
  /\ is_ipv6_numeric "cafe.babe" = false.
Proof. repeat split. Qed.

(* ================================================================= *)
(** * Part III: further properties *)
(* ================================================================= *)

(** ** Further properties: diagnostics and the classifier *)

Lemma substring_0_length (n : nat) (s : string) :
  (String.length (substring 0 n s) <= n)%nat.
Proof.
  revert s. induction n as [|n IH]; intros s.
  - destruct s; cbn; lia.
  - destruct s as [|a s]; cbn; [lia|]. specialize (IH s). lia.
Qed.

Lemma append_nil_r (s : string) : (s ++ EmptyString)%string = s.
Proof. induction s as [|c s IH]; [reflexivity|]. cbn. now rewrite IH. Qed.

Lemma length_append (a b : string) :
  String.length (a ++ b) = (String.length a + String.length b)%nat.
Proof. induction a as [|c a IH]; [reflexivity|]. cbn. now rewrite IH. Qed.

Lemma rd_snprintf_bound (dst : string) (size : nat) (s : string) :
  (0 < size)%nat -> (String.length (rd_snprintf dst size s) < size)%nat.
Proof.
  destruct size as [|n]; [lia|]. intros _. cbn [rd_snprintf].
  pose proof (substring_0_length n s). lia.
Qed.

Lemma rd_snprintf_fresh (dst dst' : string) (size : nat) (s : string) :
  (0 < size)%nat -> rd_snprintf dst size s = rd_snprintf dst' size s.
Proof. destruct size; [lia|reflexivity]. Qed.

Section DiagnosticFacts.
Context {M : Messages}.

(** [rd_kafka_ssl_error] in closed form. *)
Lemma rd_kafka_ssl_error_closed (rkb : option rd_kafka_broker)
  (errstr : string) (errstr_size : nat) (q : list err_entry) :
  rd_kafka_ssl_error rkb errstr errstr_size q =
  mk_ssl_error_result
    (rd_snprintf errstr errstr_size
       match q with
       | [] => "No error"%string
       | e :: _ => ssl_error_text (last q e)
       end)
    (map (fun e => ssl_error_log rkb
                     (rd_snprintf errstr errstr_size (ssl_error_text e)))
       (removelast q))
    [].
Proof.
  unfold rd_kafka_ssl_error.
  rewrite rd_kafka_ssl_error_loop_spec by lia.
  destruct q as [|e q]; [reflexivity|].
  replace (0 + Z.of_nat (List.length (e :: q)) =? 0) with false
    by (symmetry; apply Z.eqb_neq; cbn [List.length]; lia).
  reflexivity.
Qed.

Lemma rd_kafka_ssl_error_fresh (rkb : option rd_kafka_broker)
  (before errstr : string) (errstr_size : nat) (q : list err_entry) :
  (0 < errstr_size)%nat ->
  rd_kafka_ssl_error rkb before errstr_size q
  = rd_kafka_ssl_error rkb errstr errstr_size q.
Proof.
  intros Hpos. rewrite !rd_kafka_ssl_error_closed.
  rewrite (rd_snprintf_fresh before errstr) by exact Hpos.
  f_equal. apply map_ext. intros e.
  rewrite (rd_snprintf_fresh before errstr) by exact Hpos. reflexivity.
Qed.

(** X1. Whatever the queue holds, the diagnostic that
    [rd_kafka_ssl_error] leaves fits the buffer: with a capacity above 0
    it is shorter than [errstr_size] (so the terminator fits), and neither
    it nor any logged line depends on what [errstr] held before; with
    capacity 0 [errstr] is left as it was. In both cases one line is
    logged for every queued error but the last. *)
Theorem rd_kafka_ssl_error_fits (rkb : option rd_kafka_broker)
  (errstr : string) (errstr_size : nat) (q : list err_entry) :
  let r := rd_kafka_ssl_error rkb errstr errstr_size q in
  ((0 < errstr_size)%nat ->
   (String.length (se_errstr r) < errstr_size)%nat
   /\ forall before : string,
        rd_kafka_ssl_error rkb before errstr_size q = r)
  /\ (errstr_size = 0%nat -> se_errstr r = errstr)
  /\ List.length (se_logs r) = Nat.pred (List.length q).
Proof.
  cbn zeta. rewrite rd_kafka_ssl_error_closed. cbn [se_errstr se_logs].
  split; [|split].
  - intros Hpos. split; [apply rd_snprintf_bound; exact Hpos|].
    intros before. rewrite <- rd_kafka_ssl_error_closed.
    apply rd_kafka_ssl_error_fresh. exact Hpos.
  - intros ->. reflexivity.
  - rewrite length_map. destruct q as [|e q]; [reflexivity|].
    rewrite removelast_firstn_len, length_firstn. lia.
Qed.

End DiagnosticFacts.

Section ClassifierFrame.
Context {M : Messages} {L : OpenSSL}.

Lemma ssl_error_in_world_frame (w : world) (errstr : string) (size : nat) :
  let out := ssl_error_in_world w errstr size in
  w_notes (fst out) = w_notes w
  /\ w_rkb (fst out) = w_rkb w
  /\ w_events (fst out) = w_events w
  /\ tls_ssl (w_tls (fst out)) = tls_ssl (w_tls w)
  /\ tls_errno (w_tls (fst out)) = tls_errno (w_tls w)
  /\ tls_errq (w_tls (fst out)) = []
  /\ (exists lines : list log_rec,
        w_log (fst out) = w_log w ++ lines
        /\ Forall (fun l => log_where l = BrokerLog /\ log_level l = LOG_ERR)
             lines)
  /\ ((0 < size)%nat ->
      (String.length (snd out) < size)%nat
      /\ forall before : string, ssl_error_in_world w before size = out)
  /\ (size = 0%nat -> snd out = errstr).
Proof.
  cbn zeta.
  assert (Hfresh : forall before : string,
             (0 < size)%nat ->
             ssl_error_in_world w before size
             = ssl_error_in_world w errstr size).
  { intros before Hpos. unfold ssl_error_in_world.
    rewrite (rd_kafka_ssl_error_fresh _ before errstr) by exact Hpos.
    reflexivity. }
  unfold ssl_error_in_world in *.
  rewrite rd_kafka_ssl_error_closed in *.
  cbn [fst snd se_errstr se_logs se_queue add_logs set_tls w_notes w_rkb
         w_events w_tls w_log tls_ssl tls_errno tls_errq] in *.
  repeat (split; [reflexivity|]).
  split; [|split].
  - eexists. split; [reflexivity|]. apply Forall_forall.
    intros l Hl. apply in_map_iff in Hl. destruct Hl as (e & <- & _).
    split; reflexivity.
  - intros Hpos. split; [apply rd_snprintf_bound; exact Hpos|].
    intros before. apply Hfresh. exact Hpos.
  - intros ->. reflexivity.
Qed.

(** What the classifier changes and what it leaves alone. *)
Lemma io_update_cases (w : world) (ret : Z) (errstr : string)
  (errstr_size : nat) :
  let out := rd_kafka_transport_ssl_io_update w ret errstr errstr_size in
  let u := fst (fst out) in
  let w' := snd (fst out) in
  w_notes w' = w_notes w
  /\ w_rkb w' = w_rkb w
  /\ tls_ssl (w_tls w') = tls_ssl (w_tls w)
  /\ tls_errno (w_tls w') = tls_errno (w_tls w)
  /\ (u = 0 /\ snd out = errstr /\ w_tls w' = w_tls w
      /\ w_log w' = w_log w
      /\ (w_events w' = Z.lor (w_events w) POLLIN
          \/ w_events w' = Z.lor (w_events w) POLLOUT)
      \/ u = -1 /\ w_events w' = w_events w
         /\ (exists lines : list log_rec,
               w_log w' = w_log w ++ lines
               /\ Forall (fun l => log_where l = BrokerLog
                                   /\ log_level l = LOG_ERR) lines)
         /\ ((0 < errstr_size)%nat ->
             (String.length (snd out) < errstr_size)%nat
             /\ forall before : string,
                  rd_kafka_transport_ssl_io_update w ret before errstr_size
                  = out)
         /\ (errstr_size = 0%nat -> snd out = errstr)).
Proof.
  cbn zeta. unfold rd_kafka_transport_ssl_io_update.
  pose proof (ssl_error_in_world_frame w errstr errstr_size) as F.
  cbn zeta in F.
  destruct F as (F1 & F2 & F3 & F4 & F5 & _ & F7 & F8 & F9).
  assert (Hplain : forall text : string,
    (exists lines : list log_rec,
        w_log w = w_log w ++ lines
        /\ Forall (fun l => log_where l = BrokerLog
                            /\ log_level l = LOG_ERR) lines)
    /\ ((0 < errstr_size)%nat ->
        (String.length (rd_snprintf errstr errstr_size text) < errstr_size)%nat
        /\ forall before : string,
             (-1, w, rd_snprintf before errstr_size text)
             = (-1, w, rd_snprintf errstr errstr_size text))
    /\ (errstr_size = 0%nat -> rd_snprintf errstr errstr_size text = errstr)).
  { intros text. split; [|split].
    - exists []. rewrite app_nil_r. split; [reflexivity|constructor].
    - intros Hpos. split; [apply rd_snprintf_bound; exact Hpos|].
      intros before.
      rewrite (rd_snprintf_fresh before errstr) by exact Hpos. reflexivity.
    - intros ->. reflexivity. }
  assert (Hdrain :
    forall before : string,
      (0 < errstr_size)%nat ->
      (let (w', errstr') := ssl_error_in_world w before errstr_size in
       (-1, w', errstr'))
      = (let (w', errstr') := ssl_error_in_world w errstr errstr_size in
         (-1, w', errstr'))).
  { intros before Hpos. destruct (F8 Hpos) as [_ Hb]. rewrite (Hb before).
    reflexivity. }
  destruct (SSL_get_error (w_tls w) ret =? SSL_ERROR_WANT_READ).
  { cbn. repeat (split; [reflexivity|]). left. repeat split. now left. }
  destruct ((SSL_get_error (w_tls w) ret =? SSL_ERROR_WANT_WRITE)
            || (SSL_get_error (w_tls w) ret =? SSL_ERROR_WANT_CONNECT)).
  { cbn. repeat (split; [reflexivity|]). left. repeat split. now right. }
  destruct (SSL_get_error (w_tls w) ret =? SSL_ERROR_SYSCALL).
  - destruct ((to_int (ERR_peek_error (tls_errq (w_tls w))) =? 0)
              && (tls_errno (w_tls w) =? 0)).
    { cbn [fst snd]. repeat (split; [reflexivity|]). right.
      split; [reflexivity|]. split; [reflexivity|]. apply Hplain. }
    destruct (negb (to_int (ERR_peek_error (tls_errq (w_tls w))) =? 0)).
    + destruct (ssl_error_in_world w errstr errstr_size) as [w' e'] eqn:Ew.
      cbn [fst snd] in *. repeat (split; [assumption|]). right.
      split; [reflexivity|]. split; [assumption|]. split; [assumption|].
      split; [|assumption].
      intros Hpos. destruct (F8 Hpos) as [Hlen Hb]. split; [exact Hlen|].
      intros before. rewrite (Hb before). reflexivity.
    + cbn [fst snd]. repeat (split; [reflexivity|]). right.
      split; [reflexivity|]. split; [reflexivity|]. apply Hplain.
  - destruct (SSL_get_error (w_tls w) ret =? SSL_ERROR_ZERO_RETURN).
    { cbn [fst snd]. repeat (split; [reflexivity|]). right.
      split; [reflexivity|]. split; [reflexivity|]. apply Hplain. }
    destruct (ssl_error_in_world w errstr errstr_size) as [w' e'] eqn:Ew.
    cbn [fst snd] in *. repeat (split; [assumption|]). right.
    split; [reflexivity|]. split; [assumption|]. split; [assumption|].
    split; [|assumption].
    intros Hpos. destruct (F8 Hpos) as [Hlen Hb]. split; [exact Hlen|].
    intros before. rewrite (Hb before). reflexivity.
Qed.

(** X2. What [rd_kafka_transport_ssl_io_update] leaves alone. It never
    tells the broker anything and never changes the session or [errno].
    When it answers 0 it has registered read or write readiness and left
    [errstr], the error queue and the log as they were. When it answers -1
    the events polled for are unchanged, the log is only extended (by
    broker-scoped error lines), and the diagnostic fits the buffer: with a
    capacity above 0 it is shorter than [errstr_size] and the whole outcome
    does not depend on what [errstr] held before; with capacity 0 [errstr]
    is left as it was. There is no third answer; in particular a result
    for which [SSL_get_error] reports [SSL_ERROR_NONE] is answered with
    -1, with the diagnostic ["No error"] when the queue is empty. *)
Theorem io_update_frame (w : world) (ret : Z) (errstr : string)
  (errstr_size : nat) :
  let out := rd_kafka_transport_ssl_io_update w ret errstr errstr_size in
  let u := fst (fst out) in
  let w' := snd (fst out) in
  w_notes w' = w_notes w
  /\ w_rkb w' = w_rkb w
  /\ tls_ssl (w_tls w') = tls_ssl (w_tls w)
  /\ tls_errno (w_tls w') = tls_errno (w_tls w)
  /\ (u = 0 /\ snd out = errstr /\ w_tls w' = w_tls w
      /\ w_log w' = w_log w
      /\ (w_events w' = Z.lor (w_events w) POLLIN
          \/ w_events w' = Z.lor (w_events w) POLLOUT)
      \/ u = -1 /\ w_events w' = w_events w
         /\ (exists lines : list log_rec,
               w_log w' = w_log w ++ lines
               /\ Forall (fun l => log_where l = BrokerLog
                                   /\ log_level l = LOG_ERR) lines)
         /\ ((0 < errstr_size)%nat ->
             (String.length (snd out) < errstr_size)%nat
             /\ forall before : string,
                  rd_kafka_transport_ssl_io_update w ret before errstr_size
                  = out)
         /\ (errstr_size = 0%nat -> snd out = errstr))
  /\ (SSL_get_error (w_tls w) ret = SSL_ERROR_NONE ->
      u = -1
      /\ (tls_errq (w_tls w) = [] ->
          snd out = rd_snprintf errstr errstr_size "No error")).
Proof.
  cbn zeta.
  destruct (io_update_cases w ret errstr errstr_size)
    as (F1 & F2 & F3 & F4 & F5).
  split; [exact F1|]. split; [exact F2|]. split; [exact F3|].
  split; [exact F4|]. split; [exact F5|].
  intros Hnone. unfold rd_kafka_transport_ssl_io_update. rewrite Hnone.
  unfold SSL_ERROR_NONE, SSL_ERROR_WANT_READ, SSL_ERROR_WANT_WRITE,
    SSL_ERROR_WANT_CONNECT, SSL_ERROR_SYSCALL, SSL_ERROR_ZERO_RETURN.
  cbn [Z.eqb Pos.eqb orb]. unfold ssl_error_in_world.
  rewrite rd_kafka_ssl_error_closed. cbn [fst snd se_errstr].
  split; [reflexivity|]. intros ->. reflexivity.
Qed.

End ClassifierFrame.

(** ** Further properties: the handshake *)

Lemma substring_prefix_split (n : nat) :
  forall s p : string,
    substring 0 n s = p -> String.length p = n ->
    exists b : string, s = (p ++ b)%string.
Proof.
  induction n as [|n IH]; intros s p Hs Hl.
  - destruct p; [|discriminate]. exists s. reflexivity.
  - destruct p as [|c p]; [discriminate|].
    destruct s as [|a s]; [discriminate|].
    cbn in Hs. injection Hs as -> Hs. injection Hl as Hl.
    destruct (IH s p Hs Hl) as [b ->]. exists b. reflexivity.
Qed.

Lemma substring_split (s : string) :
  forall (m : nat) (p : string),
    substring m (String.length p) s = p ->
    exists a b : string, s = (a ++ p ++ b)%string.
Proof.
  induction s as [|c s IH]; intros m p Hs.
  - destruct m, p; cbn in Hs; try discriminate;
      exists EmptyString, EmptyString; reflexivity.
  - destruct m as [|m].
    + destruct (substring_prefix_split _ _ _ Hs eq_refl) as [b Hb].
      exists EmptyString, b. exact Hb.
    + cbn in Hs. destruct (IH m p Hs) as (a & b & ->).
      exists (String c a), b. reflexivity.
Qed.

Lemma substring_middle (a p b : string) :
  substring (String.length a) (String.length p) (a ++ p ++ b) = p.
Proof.
  induction a as [|c a IH]; [|exact IH].
  change (substring 0 (String.length p) (p ++ b) = p).
  apply substring_0_app.
Qed.

(** [strstr] finds [pat] exactly in the strings that contain it. *)
Lemma strstr_found_spec (s pat : string) :
  pat <> EmptyString ->
  strstr_found s pat = true <->
  exists a b : string, s = (a ++ pat ++ b)%string.
Proof.
  intros Hne. unfold strstr_found.
  destruct (index 0 pat s) as [m|] eqn:Hi.
  - split; [intros _|reflexivity].
    apply (substring_split s m pat).
    exact (index_correct1 _ _ _ _ Hi).
  - split; [discriminate|]. intros (a & b & ->). exfalso.
    apply (index_correct3 0 (String.length a) pat _ Hi Hne); [lia|].
    apply substring_middle.
Qed.

Section HandshakeOutcomes.
Context {M : Messages} {L : OpenSSL}.

Lemma rd_kafka_transport_ssl_verify_notes (enable_verify : bool)
  (w : world) :
  let out := rd_kafka_transport_ssl_verify enable_verify w in
  (fst out = 0 /\ snd out = w
   /\ (enable_verify = true ->
       SSL_get_peer_certificate (tls_ssl (w_tls w)) <> None
       /\ SSL_get_verify_result (tls_ssl (w_tls w)) = X509_V_OK))
  \/ (fst out = -1 /\ enable_verify = true
      /\ exists reason : string,
           snd out
           = add_note w (BrokerFail LOG_ERR RD_KAFKA_RESP_ERR__SSL reason)).
Proof.
  cbn zeta. unfold rd_kafka_transport_ssl_verify.
  destruct enable_verify; cbn [negb].
  - destruct (SSL_get_peer_certificate (tls_ssl (w_tls w))) as [cert|].
    + destruct (Z.eqb_spec (SSL_get_verify_result (tls_ssl (w_tls w)))
                  X509_V_OK) as [E|E]; cbn [negb].
      * left. repeat split; [discriminate|exact E].
      * right. repeat split. eexists. reflexivity.
    + right. repeat split. eexists. reflexivity.
  - left. repeat split; discriminate.
Qed.

(** X3. The three ways a call of [rd_kafka_transport_ssl_handshake] ends,
    for either setting of [enable_verify]. It answers 1 only when
    [SSL_do_handshake] answered 1, and then it has told the broker that
    the connection is up, and nothing else. It answers 0 only when
    [SSL_do_handshake] did not answer 1 and the classifier asked for a
    retry: the broker is told nothing and read or write readiness is
    registered. It answers -1 with exactly one [rd_kafka_broker_fail], of
    level [LOG_ERR] and error [RD_KAFKA_RESP_ERR__SSL]. With verification
    disabled a completed handshake is always accepted, whatever the peer
    presented. *)
Theorem ssl_handshake_outcomes (enable_verify : bool) (w : world) :
  let hs := SSL_do_handshake (w_tls w) in
  let out := rd_kafka_transport_ssl_handshake enable_verify w in
  (fst out = 1 /\ fst hs = 1
   /\ snd out = add_note (set_tls w (snd hs)) ConnectDone
   \/ fst out = 0 /\ fst hs <> 1
      /\ w_notes (snd out) = w_notes w
      /\ (w_events (snd out) = Z.lor (w_events w) POLLIN
          \/ w_events (snd out) = Z.lor (w_events w) POLLOUT)
   \/ fst out = -1
      /\ exists reason : string,
           w_notes (snd out)
           = w_notes w
             ++ [BrokerFail LOG_ERR RD_KAFKA_RESP_ERR__SSL reason])
  /\ (enable_verify = false -> fst hs = 1 -> fst out = 1).
Proof.
  cbn zeta. unfold rd_kafka_transport_ssl_handshake.
  destruct (SSL_do_handshake (w_tls w)) as [r t]. cbn [fst snd].
  destruct (Z.eqb_spec r 1) as [Hr|Hr].
  - pose proof (rd_kafka_transport_ssl_verify_notes enable_verify
                  (set_tls w t)) as V. cbn zeta in V.
    destruct (rd_kafka_transport_ssl_verify enable_verify (set_tls w t))
      as [v w2]. cbn [fst snd] in V.
    destruct V as [(-> & -> & _)|(-> & Hen & reason & ->)]; cbn.
    + split; [left; repeat split; exact Hr|reflexivity].
    + split; [|intros Hoff; congruence].
      right. right. split; [reflexivity|]. exists reason. reflexivity.
  - pose proof (io_update_cases (set_tls w t) r EmptyString 512) as F.
    cbn zeta in F.
    destruct (rd_kafka_transport_ssl_io_update (set_tls w t) r EmptyString
                512) as [[u w2] errstr]. cbn [fst snd] in F.
    destruct F as (Fn & _ & _ & _ & [(-> & _ & _ & _ & Fe)
                                     |(-> & _ & _ & _ & _)]); cbn.
    + split; [|intros _ Hone; contradiction].
      right. left. repeat split; assumption.
    + split; [|intros _ Hone; contradiction].
      right. right. split; [reflexivity|]. eexists. rewrite Fn.
      reflexivity.
Qed.

(** X4. The reason that a failed handshake step gives the broker. When
    [SSL_do_handshake] does not answer 1 and the call answers -1, the
    broker is told ["SSL handshake failed: "] followed by the diagnostic of
    the classifier, which is shorter than the 512 bytes of the local
    buffer, followed by the hint that client authentication might be
    required exactly when the diagnostic contains ["unexpected
    message"]. *)
Theorem ssl_handshake_failure_reason (enable_verify : bool) (w : world) :
  fst (SSL_do_handshake (w_tls w)) <> 1 ->
  fst (rd_kafka_transport_ssl_handshake enable_verify w) = -1 ->
  let hs := SSL_do_handshake (w_tls w) in
  let errstr :=
    snd (rd_kafka_transport_ssl_io_update (set_tls w (snd hs)) (fst hs)
           EmptyString 512) in
  (String.length errstr < 512)%nat
  /\ ((exists a b : string,
          errstr = (a ++ "unexpected message" ++ b)%string)
      /\ w_notes (snd (rd_kafka_transport_ssl_handshake enable_verify w))
         = w_notes w
           ++ [BrokerFail LOG_ERR RD_KAFKA_RESP_ERR__SSL
                 ("SSL handshake failed: " ++ errstr
                  ++ ": client authentication might be required (see broker log)")]
      \/ ~ (exists a b : string,
              errstr = (a ++ "unexpected message" ++ b)%string)
         /\ w_notes (snd (rd_kafka_transport_ssl_handshake enable_verify w))
            = w_notes w
              ++ [BrokerFail LOG_ERR RD_KAFKA_RESP_ERR__SSL
                    ("SSL handshake failed: " ++ errstr)]).
Proof.
  intros Hr Hout. cbn zeta. revert Hr Hout.
  unfold rd_kafka_transport_ssl_handshake.
  destruct (SSL_do_handshake (w_tls w)) as [r t]. cbn [fst snd].
  intros Hr. apply Z.eqb_neq in Hr. rewrite Hr.
  pose proof (io_update_cases (set_tls w t) r EmptyString 512) as F.
  cbn zeta in F.
  destruct (rd_kafka_transport_ssl_io_update (set_tls w t) r EmptyString
              512) as [[u w2] errstr]. cbn [fst snd] in F |- *.
  destruct F as (Fn & _ & _ & _ & [(-> & _)|(-> & _ & _ & Fl & _)]);
    cbn; [discriminate|]. intros _.
  split; [apply Fl; lia|]. rewrite Fn.
  pose proof (strstr_found_spec errstr "unexpected message") as S.
  destruct (strstr_found errstr "unexpected message").
  - left. split; [apply S; [discriminate|reflexivity]|reflexivity].
  - right. split.
    + intros Hex. apply S in Hex; [discriminate|discriminate].
    + rewrite append_nil_r. reflexivity.
Qed.

End HandshakeOutcomes.

(** ** Further properties: the verification hook *)

Section VerifyHookMore.
Context {L : OpenSSL}.

(** X5. The hook never looks at [preverify_ok]: what OpenSSL concluded
    about the certificate does not change the outcome, only the
    application callback decides. A call that returns answers 0 or 1,
    leaves the current certificate and the depth of the chain context as
    they were, logs one line when it answers 0 and none when it answers 1,
    and does not touch the chain context at all when the callback was not
    reached. When it answers 1 the error code of the chain context is 0 if
    the callback left the code 0, and is the code on entry otherwise: a
    code other than 0 written by an accepting callback is dropped. *)
Theorem cert_verify_cb_ignores_preverify (cb : cert_verify_cb_t)
  (curr : option rd_kafka_broker) (preverify_ok : Z)
  (x509_ctx : X509_STORE_CTX X509) :
  (forall other : Z,
      rd_kafka_transport_ssl_cert_verify_cb cb curr other x509_ctx
      = rd_kafka_transport_ssl_cert_verify_cb cb curr preverify_ok x509_ctx)
  /\ (forall res : hook_result,
         rd_kafka_transport_ssl_cert_verify_cb cb curr preverify_ok x509_ctx
         = Returned res ->
         (hook_ret res = 0 /\ List.length (hook_logs res) = 1%nat
          \/ hook_ret res = 1 /\ hook_logs res = [])
         /\ x509_current_cert (hook_ctx res) = x509_current_cert x509_ctx
         /\ x509_error_depth (hook_ctx res) = x509_error_depth x509_ctx
         /\ (hook_called res = false -> hook_ctx res = x509_ctx)
         /\ (hook_ret res = 1 ->
             exists (rkb : rd_kafka_broker) (cert : X509) (buf_size : Z)
                    (buf : list Byte.byte),
               curr = Some rkb
               /\ x509_current_cert x509_ctx = Some cert
               /\ i2d_X509 cert = (buf_size, Some buf)
               /\ x509_error (hook_ctx res)
                  = (if cv_x509_error
                          (cb (rkb_nodename rkb) (rkb_nodeid rkb)
                             (x509_error x509_ctx)
                             (x509_error_depth x509_ctx) buf
                             (Z.to_nat buf_size) EmptyString 512%nat) =? 0
                     then 0 else x509_error x509_ctx))).
Proof.
  split; [reflexivity|].
  intros res. unfold rd_kafka_transport_ssl_cert_verify_cb.
  destruct curr as [rkb|]; [|discriminate].
  destruct (x509_current_cert x509_ctx) as [cert|] eqn:Hc.
  2:{ intros [= <-]. cbn. repeat split; auto; discriminate. }
  destruct (i2d_X509 cert) as [buf_size [buf|]] eqn:Hi.
  2:{ intros [= <-]. cbn. repeat split; auto; discriminate. }
  destruct (buf_size <? 0).
  { intros [= <-]. cbn. repeat split; auto; discriminate. }
  set (a := cb _ _ _ _ _ _ _ _).
  destruct (cv_ok a =? 0).
  { intros [= <-]. cbn. repeat split; auto; discriminate. }
  destruct (Z.eqb_spec (x509_error x509_ctx) 0) as [E0|E0];
    destruct (Z.eqb_spec (cv_x509_error a) 0) as [Ea|Ea]; cbn [negb andb];
    intros [= <-]; cbn;
    (split; [right; split; reflexivity|]);
    (split; [assumption|]); (split; [reflexivity|]);
    (split; [discriminate|]); intros _;
    exists rkb, cert, buf_size, buf; fold a;
    (destruct (Z.eqb_spec (cv_x509_error a) 0); [|contradiction || idtac]);
    try contradiction; repeat split; congruence.
Qed.

End VerifyHookMore.

(** ** Further properties: sending and receiving *)

Section TransferMore.
Context {M : Messages} {L : OpenSSL}.

Lemma ssl_send_loop_bounded (errstr : string) (errstr_size : nat) :
  write_within_request ->
  forall (fuel : nat) (w : world) (slice : rd_slice) (sum : Z)
         (steps : list io_step),
    match ssl_send_loop fuel w slice sum steps errstr errstr_size with
    | Returned res =>
        exists new : list io_step,
          io_steps res = steps ++ new
          /\ Forall (fun st => snd st <= Z.of_nat (fst st)) new
          /\ Z.of_nat (rd_slice_remains (io_cursor res)) + transferred new
             = Z.of_nat (rd_slice_remains slice)
    | AssertFailed => False
    | OutOfFuel => True
    end.
Proof.
  intros Hcontract.
  induction fuel as [|fuel IH]; intros w slice sum steps; [exact I|].
  cbn [ssl_send_loop].
  pose proof (rd_slice_peeker_remains slice) as Hpeek.
  destruct (Nat.eqb_spec (List.length (rd_slice_peeker slice)) 0)
    as [Hz|Hnz].
  - exists []. rewrite app_nil_r. cbn [io_steps io_cursor].
    split; [reflexivity|]. split; [constructor|].
    cbn [transferred fold_right]. lia.
  - pose proof (Hcontract (w_tls w) (rd_slice_peeker slice)
                  (to_int (Z.of_nat (List.length (rd_slice_peeker slice)))))
      as Hle.
    pose proof (to_int_le (Z.of_nat (List.length (rd_slice_peeker slice)))
                  ltac:(lia)) as Hint.
    destruct (SSL_write (w_tls w) (rd_slice_peeker slice)
                (to_int (Z.of_nat (List.length (rd_slice_peeker slice)))))
      as [r t] eqn:Ew.
    cbn [fst] in Hle.
    destruct (Z.leb_spec r 0) as [Hr|Hr].
    + destruct (rd_kafka_transport_ssl_io_update (set_tls w t) r errstr
                  errstr_size) as [[u w2] errstr'].
      destruct (u =? -1);
        exists [(List.length (rd_slice_peeker slice), r)];
        cbn [io_steps io_cursor];
        (split; [reflexivity|]);
        (split; [constructor; [cbn; lia|constructor]|]);
        rewrite transferred_cons; cbn [snd transferred fold_right]; lia.
    + unfold rd_slice_read.
      destruct (Nat.leb_spec (Z.to_nat r) (rd_slice_remains slice))
        as [Hin|Hout]; [|lia].
      rewrite Nat.eqb_refl. cbn [negb].
      pose proof (rd_slice_skip_remains slice (Z.to_nat r)) as Hskip.
      destruct (Nat.ltb_spec (Z.to_nat r)
                  (List.length (rd_slice_peeker slice))) as [Hshort|Hfull].
      * exists [(List.length (rd_slice_peeker slice), r)].
        cbn [io_steps io_cursor].
        split; [reflexivity|].
        split; [constructor; [cbn; lia|constructor]|].
        rewrite transferred_cons. cbn [snd transferred fold_right]. lia.
      * specialize (IH (set_tls w t) (rd_slice_skip (Z.to_nat r) slice)
                      (sum + r)
                      (steps ++ [(List.length (rd_slice_peeker slice), r)])).
        destruct (ssl_send_loop fuel (set_tls w t)
                    (rd_slice_skip (Z.to_nat r) slice) (sum + r)
                    (steps ++ [(List.length (rd_slice_peeker slice), r)])
                    errstr errstr_size) as [res| |]; try exact IH.
        destruct IH as (new & Hsteps & Hall & Hrem).
        exists ((List.length (rd_slice_peeker slice), r) :: new).
        split; [rewrite Hsteps, <- app_assoc; reflexivity|].
        split; [constructor; [cbn; lia|exact Hall]|].
        rewrite transferred_cons. cbn [snd]. lia.
Qed.

(** X6. When [SSL_write] never reports more than the count it was asked
    for, [rd_kafka_transport_ssl_send] returns (its assertion holds),
    every write step reported at most the size of the chunk it was
    offered, the slice has lost exactly the bytes that the steps
    transferred, and the result is at most the number of bytes that the
    slice held. *)
Theorem ssl_send_within_slice (w : world) (slice : rd_slice)
  (errstr : string) (errstr_size : nat) :
  write_within_request ->
  exists res : io_result rd_slice,
    rd_kafka_transport_ssl_send w slice errstr errstr_size = Returned res
    /\ Forall (fun st => snd st <= Z.of_nat (fst st)) (io_steps res)
    /\ Z.of_nat (rd_slice_remains (io_cursor res))
       + transferred (io_steps res)
       = Z.of_nat (rd_slice_remains slice)
    /\ io_ret res <= Z.of_nat (rd_slice_remains slice)
    /\ (io_ret res <> -1 ->
        Z.of_nat (rd_slice_remains (io_cursor res))
        = Z.of_nat (rd_slice_remains slice) - io_ret res).
Proof.
  intros Hcontract. unfold rd_kafka_transport_ssl_send.
  pose proof (ssl_send_loop_spec errstr errstr_size
                (S (rd_slice_remains slice))
                (rd_kafka_transport_ssl_clear_error w) slice 0 []
                ltac:(lia)) as Hspec.
  pose proof (ssl_send_loop_bounded errstr errstr_size Hcontract
                (S (rd_slice_remains slice))
                (rd_kafka_transport_ssl_clear_error w) slice 0 [])
    as Hbound.
  destruct (ssl_send_loop (S (rd_slice_remains slice))
              (rd_kafka_transport_ssl_clear_error w) slice 0 [] errstr
              errstr_size) as [res| |]; try contradiction.
  exists res. split; [reflexivity|].
  destruct Hbound as (new & Hsteps & Hall & Hrem).
  cbn [app] in Hsteps. subst new.
  apply loop_post_contract in Hspec.
  destruct Hspec as (_ & Hfatal & Hprog & Hback & _).
  pose proof (transferred_nonneg (io_steps res)) as Hnn.
  split; [exact Hall|]. split; [exact Hrem|].
  destruct (io_class res) as [u|] eqn:Ec.
  - destruct (Z.eq_dec u (-1)) as [->|Hu].
    + rewrite (Hfatal eq_refl). split; [lia|]. intros Hne. contradiction.
    + rewrite Hprog by congruence. split; lia.
  - rewrite Hprog by congruence. split; lia.
Qed.

Lemma io_frame_step {C : Type} (w w1 : world) (errstr : string)
  (errstr_size : nat) (res : io_result C) :
  w_notes w1 = w_notes w -> w_rkb w1 = w_rkb w ->
  w_events w1 = w_events w -> w_log w1 = w_log w ->
  io_frame w1 errstr errstr_size res -> io_frame w errstr errstr_size res.
Proof.
  intros Hn Hk He Hl (F1 & F2 & F). unfold io_frame.
  rewrite <- Hn, <- Hk, <- He, <- Hl. auto.
Qed.

Lemma io_frame_classified {C : Type} (w : world) (r : Z) (errstr : string)
  (errstr_size : nat) (sum : Z) (c : C) (steps : list io_step) :
  match rd_kafka_transport_ssl_io_update w r errstr errstr_size with
  | (u, w2, errstr') =>
      io_frame w errstr errstr_size
        (if u =? -1 then mk_io (-1) w2 c errstr' steps (Some u)
         else mk_io sum w2 c errstr' steps (Some u))
  end.
Proof.
  pose proof (io_update_cases w r errstr errstr_size) as F.
  cbn zeta in F.
  destruct (rd_kafka_transport_ssl_io_update w r errstr errstr_size)
    as [[u w2] errstr']. cbn [fst snd] in F.
  destruct F as (Fn & Fk & _ & _ & [(-> & Fe & _ & Fl & Fv)
                                   |(-> & Fv & Fl & Fs & _)]);
    cbn; unfold io_frame; cbn [io_world io_class io_errstr io_ret].
  - split; [exact Fn|]. split; [exact Fk|]. right. left. auto.
  - split; [exact Fn|]. split; [exact Fk|]. right. right.
    split; [reflexivity|]. split; [reflexivity|]. split; [exact Fv|].
    split; [destruct Fl as (lines & Hl & _); exists lines; exact Hl|].
    intros Hpos. apply Fs. exact Hpos.
Qed.

Lemma ssl_send_loop_frame (errstr : string) (errstr_size : nat) :
  forall (fuel : nat) (w : world) (slice : rd_slice) (sum : Z)
         (steps : list io_step),
    match ssl_send_loop fuel w slice sum steps errstr errstr_size with
    | Returned res => io_frame w errstr errstr_size res
    | AssertFailed => True
    | OutOfFuel => True
    end.
Proof.
  induction fuel as [|fuel IH]; intros w slice sum steps; [exact I|].
  cbn [ssl_send_loop].
  destruct (List.length (rd_slice_peeker slice) =? 0)%nat.
  { unfold io_frame. cbn. auto 10. }
  destruct (SSL_write (w_tls w) (rd_slice_peeker slice)
              (to_int (Z.of_nat (List.length (rd_slice_peeker slice)))))
    as [r t].
  destruct (r <=? 0).
  - pose proof (io_frame_classified (set_tls w t) r errstr errstr_size sum
                  slice
                  (steps ++ [(List.length (rd_slice_peeker slice), r)]))
      as F.
    destruct (rd_kafka_transport_ssl_io_update (set_tls w t) r errstr
                errstr_size) as [[u w2] errstr'].
    destruct (u =? -1);
      exact (io_frame_step w (set_tls w t) _ _ _ eq_refl eq_refl eq_refl
               eq_refl F).
  - destruct (rd_slice_read slice (Z.to_nat r)) as [r2 slice'].
    destruct (negb (Z.to_nat r =? r2)%nat); [exact I|].
    destruct (Z.to_nat r <? List.length (rd_slice_peeker slice))%nat.
    + unfold io_frame. cbn. auto 10.
    + specialize (IH (set_tls w t) slice' (sum + r)
                    (steps ++ [(List.length (rd_slice_peeker slice), r)])).
      destruct (ssl_send_loop fuel (set_tls w t) slice' (sum + r)
                  (steps ++ [(List.length (rd_slice_peeker slice), r)])
                  errstr errstr_size) as [res| |]; try exact I.
      exact (io_frame_step w (set_tls w t) _ _ _ eq_refl eq_refl eq_refl
               eq_refl IH).
Qed.

Lemma ssl_recv_loop_frame (errstr : string) (errstr_size : nat) :
  forall (fuel : nat) (w : world) (rbuf : rd_buf) (sum : Z)
         (steps : list io_step),
    match ssl_recv_loop fuel w rbuf sum steps errstr errstr_size with
    | Returned res => io_frame w errstr errstr_size res
    | AssertFailed => True
    | OutOfFuel => True
    end.
Proof.
  induction fuel as [|fuel IH]; intros w rbuf sum steps; [exact I|].
  cbn [ssl_recv_loop].
  destruct (rd_buf_get_writable rbuf =? 0)%nat.
  { unfold io_frame. cbn. auto 10. }
  destruct (SSL_read (w_tls (rd_kafka_transport_ssl_clear_error w))
              (to_int (Z.of_nat (rd_buf_get_writable rbuf)))) as [r t].
  set (w1 := set_tls (rd_kafka_transport_ssl_clear_error w) t).
  destruct (r <=? 0).
  - pose proof (io_frame_classified w1 r errstr errstr_size sum rbuf
                  (steps ++ [(rd_buf_get_writable rbuf, r)])) as F.
    destruct (rd_kafka_transport_ssl_io_update w1 r errstr errstr_size)
      as [[u w2] errstr'].
    destruct (u =? -1);
      exact (io_frame_step w w1 _ _ _ eq_refl eq_refl eq_refl eq_refl F).
  - destruct (Z.to_nat r <? rd_buf_get_writable rbuf)%nat.
    + unfold io_frame. cbn. auto 10.
    + specialize (IH w1 (rd_buf_write (Z.to_nat r) rbuf) (sum + r)
                    (steps ++ [(rd_buf_get_writable rbuf, r)])).
      destruct (ssl_recv_loop fuel w1 (rd_buf_write (Z.to_nat r) rbuf)
                  (sum + r) (steps ++ [(rd_buf_get_writable rbuf, r)])
                  errstr errstr_size) as [res| |]; try exact I.
      exact (io_frame_step w w1 _ _ _ eq_refl eq_refl eq_refl eq_refl IH).
Qed.

(** X7. What a call of [rd_kafka_transport_ssl_send] or
    [rd_kafka_transport_ssl_recv] that returns has done to the transport.
    It never tells the broker anything. If the classifier was not
    consulted, [errstr], the events polled for and the log are as they
    were. If the classifier asked for a retry, read or write readiness has
    been registered and [errstr] and the log are as they were. If the
    classifier answered -1, so does the call; the events polled for are as
    they were, the log is only extended, and with a capacity above 0 the
    diagnostic is shorter than [errstr_size]. *)
Theorem ssl_send_recv_frame (w : world) (errstr : string)
  (errstr_size : nat) :
  (forall (slice : rd_slice) (res : io_result rd_slice),
      rd_kafka_transport_ssl_send w slice errstr errstr_size = Returned res ->
      io_frame w errstr errstr_size res)
  /\ (forall (rbuf : rd_buf) (res : io_result rd_buf),
         rd_kafka_transport_ssl_recv w rbuf errstr errstr_size
         = Returned res ->
         io_frame w errstr errstr_size res).
Proof.
  split.
  - intros slice res. unfold rd_kafka_transport_ssl_send.
    pose proof (ssl_send_loop_frame errstr errstr_size
                  (S (rd_slice_remains slice))
                  (rd_kafka_transport_ssl_clear_error w) slice 0 []) as F.
    intros Hres. rewrite Hres in F.
    exact (io_frame_step w (rd_kafka_transport_ssl_clear_error w) _ _ _
             eq_refl eq_refl eq_refl eq_refl F).
  - intros rbuf res. unfold rd_kafka_transport_ssl_recv.
    pose proof (ssl_recv_loop_frame errstr errstr_size
                  (S (rd_buf_write_remains rbuf)) w rbuf 0 []) as F.
    intros Hres. rewrite Hres in F. exact F.
Qed.

(** X8. Nothing to transfer. On a slice with no byte left
    [rd_kafka_transport_ssl_send] answers 0 without calling [SSL_write];
    it has still cleared the error queue and [errno]. On a buffer with no
    writable room [rd_kafka_transport_ssl_recv] answers 0 without calling
    [SSL_read] and leaves everything as it was, the error queue
    included. *)
Theorem ssl_send_recv_nothing (w : world) (errstr : string)
  (errstr_size : nat) :
  (forall slice : rd_slice,
      rd_slice_remains slice = 0%nat ->
      rd_kafka_transport_ssl_send w slice errstr errstr_size
      = Returned
          (mk_io 0 (rd_kafka_transport_ssl_clear_error w) slice errstr []
             None))
  /\ (forall rbuf : rd_buf,
         rd_buf_write_remains rbuf = 0%nat ->
         rd_kafka_transport_ssl_recv w rbuf errstr errstr_size
         = Returned (mk_io 0 w rbuf errstr [] None)).
Proof.
  split.
  - intros slice Hz. unfold rd_kafka_transport_ssl_send.
    rewrite Hz. cbn [ssl_send_loop].
    pose proof (rd_slice_peeker_remains slice) as Hp.
    replace (List.length (rd_slice_peeker slice)) with 0%nat by lia.
    reflexivity.
  - intros rbuf Hz. unfold rd_kafka_transport_ssl_recv.
    rewrite Hz. cbn [ssl_recv_loop].
    pose proof (first_room_remains (rbuf_room rbuf)) as Hp.
    fold (rd_buf_get_writable rbuf) in Hp.
    fold (rd_buf_write_remains rbuf) in Hp.
    replace (rd_buf_get_writable rbuf) with 0%nat by lia.
    reflexivity.
Qed.

(** X9. Errors that were queued before a call never reach its outcome:
    [rd_kafka_transport_ssl_send] clears the error queue and [errno]
    before its first [SSL_write], and [rd_kafka_transport_ssl_recv] before
    every [SSL_read], so with a byte of writable room the outcome of a
    call is the same whatever the queue and [errno] held on entry. *)
Theorem ssl_send_recv_ignore_stale_errors (w : world)
  (q : list err_entry) (errno : Z) (errstr : string) (errstr_size : nat) :
  let stale := set_tls w (mk_tls (tls_ssl (w_tls w)) q errno) in
  (forall slice : rd_slice,
      rd_kafka_transport_ssl_send stale slice errstr errstr_size
      = rd_kafka_transport_ssl_send w slice errstr errstr_size)
  /\ (forall rbuf : rd_buf,
         rd_buf_get_writable rbuf <> 0%nat ->
         rd_kafka_transport_ssl_recv stale rbuf errstr errstr_size
         = rd_kafka_transport_ssl_recv w rbuf errstr errstr_size).
Proof.
  cbn zeta. split.
  - intros slice. reflexivity.
  - intros rbuf Hroom. unfold rd_kafka_transport_ssl_recv.
    cbn [ssl_recv_loop].
    apply Nat.eqb_neq in Hroom. rewrite Hroom. reflexivity.
Qed.

End TransferMore.

(** ** Further properties: the history of the certificate loader *)

Lemma sorted_app (l1 l2 : list nat) (mid : nat) :
  StronglySorted lt l1 -> StronglySorted lt l2 ->
  Forall (fun k => (k < mid)%nat) l1 -> Forall (fun k => (mid <= k)%nat) l2 ->
  StronglySorted lt (l1 ++ l2).
Proof.
  intros S1 S2 B1 B2. induction S1 as [|a l1 S1 IH Ha]; [exact S2|].
  cbn. inversion B1 as [|? ? Ba B1']; subst.
  constructor; [apply IH; exact B1'|].
  apply Forall_app. split; [exact Ha|].
  eapply Forall_impl; [|exact B2]. cbn. intros k Hk. lia.
Qed.

Lemma all_ok_app (a b : list (cert_step * bool)) :
  all_ok a -> all_ok b -> all_ok (a ++ b).
Proof. intros Ha Hb. apply Forall_app. split; assumption. Qed.

Lemma stopped_app (a b : list (cert_step * bool)) :
  all_ok a -> stopped b -> stopped (a ++ b).
Proof.
  intros Ha (done & step & -> & Hd). exists (a ++ done), step.
  split; [apply app_assoc|apply all_ok_app; assumption].
Qed.

Lemma within_weaken (lo hi lo' hi' : nat) (tr : list (cert_step * bool)) :
  within lo hi tr -> (lo' <= lo)%nat -> (hi <= hi')%nat ->
  within lo' hi' tr.
Proof.
  intros H Hl Hh. eapply Forall_impl; [|exact H]. cbn. intros x Hx. lia.
Qed.

Section HistoryFacts.
Context {M : Messages} {L : OpenSSL} {CL : CertLib} {B : Build}.

Lemma extends_weaken (lo hi lo' hi' : nat) (s : certs_state)
  (r : certs_run) :
  extends lo hi s r -> (lo' <= lo)%nat -> (hi <= hi')%nat ->
  extends lo' hi' s r.
Proof.
  intros (new & Ht & Ho & Hw & Hk) Hl Hh. exists new.
  repeat split; try assumption. eapply within_weaken; eassumption.
Qed.

Lemma extends_trans (lo mid hi : nat) (s s1 : certs_state) (r : certs_run) :
  (lo <= mid)%nat -> (mid <= hi)%nat ->
  extends lo mid s (inl s1) -> extends mid hi s1 r -> extends lo hi s r.
Proof.
  intros Hl Hh (n1 & T1 & O1 & W1 & K1) (n2 & T2 & O2 & W2 & K2).
  cbn [run_trace] in T1. exists (n1 ++ n2).
  split; [rewrite T2, T1; symmetry; apply app_assoc|].
  split; [|split].
  - unfold in_source_order. rewrite map_app.
    apply (sorted_app _ _ mid); try assumption.
    + apply Forall_map. eapply Forall_impl; [|exact W1]. cbn. intros; lia.
    + apply Forall_map. eapply Forall_impl; [|exact W2]. cbn. intros; lia.
  - apply Forall_app. split.
    + eapply within_weaken; [exact W1|lia|lia].
    + eapply within_weaken; [exact W2|lia|lia].
  - destruct r; [apply all_ok_app|apply stopped_app]; assumption.
Qed.

Lemma extends_bind (lo mid hi : nat) (s : certs_state) (r : certs_run)
  (g : certs_state -> certs_run) :
  (lo <= mid)%nat -> (mid <= hi)%nat ->
  extends lo mid s r ->
  (forall s1 : certs_state, extends mid hi s1 (g s1)) ->
  extends lo hi s (certs_bind r g).
Proof.
  intros Hl Hh Hr Hg. destruct r as [s1|f]; cbn [certs_bind].
  - eapply extends_trans; [exact Hl|exact Hh|exact Hr|apply Hg].
  - eapply extends_weaken; [exact Hr|lia|lia].
Qed.

Lemma extends_same (lo : nat) (s s' : certs_state) :
  cs_trace s' = cs_trace s -> extends lo lo s (inl s').
Proof.
  intros Ht. exists []. cbn [run_trace]. rewrite app_nil_r.
  repeat split; try assumption; constructor.
Qed.

Lemma extends_one (s : certs_state) (r : certs_run) (step : cert_step)
  (ok : bool) :
  run_trace r = cs_trace s ++ [(step, ok)] ->
  match r with
  | inl _ => ok = true
  | inr _ => ok = false
  end ->
  extends (step_rank step) (S (step_rank step)) s r.
Proof.
  intros Ht Hk. exists [(step, ok)]. split; [exact Ht|].
  split; [repeat constructor|]. split; [repeat constructor; cbn; lia|].
  destruct r; subst ok; [repeat constructor|].
  exists [], step. split; [reflexivity|constructor].
Qed.

Lemma extends_try (s : certs_state) (step : cert_step) (key : bool)
  (text : string) (r : Z * E) :
  extends (step_rank step) (S (step_rank step)) s
    (certs_try s step key text r).
Proof.
  unfold certs_try. destruct (fst r =? 1).
  - apply (extends_one _ _ step true); reflexivity.
  - apply (extends_one _ _ step false); reflexivity.
Qed.

Lemma extends_fail (s : certs_state) (e : E) (step : cert_step)
  (text : string) :
  extends (step_rank step) (S (step_rank step)) s
    (certs_fail s e step text).
Proof. apply (extends_one _ _ step false); reflexivity. Qed.

Lemma extends_note (s : certs_state) (e : E) (step : cert_step) :
  extends (step_rank step) (S (step_rank step)) s
    (inl (certs_note s e step)).
Proof. apply (extends_one _ _ step true); reflexivity. Qed.

Lemma load_ca_extends (conf : ssl_conf) (s : certs_state) :
  extends 0 1 s (load_ca conf s).
Proof.
  unfold load_ca.
  destruct (ssl_ca conf);
    [eapply extends_weaken; [apply (extends_same 0)|lia|lia]; reflexivity|].
  destruct (ssl_ca_location conf); [apply (extends_try _ LoadCALocation)|].
  destruct (if MSC_VER then rd_kafka_ssl_win_load_root_certs (cs_env s)
            else (-1, cs_env s)) as [r e].
  destruct (r =? -1);
    (eapply extends_weaken; [apply (extends_same 0)|lia|lia]); reflexivity.
Qed.

Lemma load_crl_extends (conf : ssl_conf) (s : certs_state) :
  extends 1 2 s (load_crl conf s).
Proof.
  unfold load_crl.
  destruct (ssl_crl_location conf);
    [|eapply extends_weaken; [apply (extends_same 1)|lia|lia]; reflexivity].
  apply (extends_bind 1 2 2); [lia|lia|apply (extends_try _ LoadCRL)|].
  intros s1. apply extends_same. reflexivity.
Qed.

Lemma load_cert_extends (conf : ssl_conf) (s : certs_state) :
  extends 2 3 s (load_cert conf s).
Proof.
  unfold load_cert.
  destruct (ssl_cert conf); [apply (extends_try _ UseCert)|].
  eapply extends_weaken; [apply (extends_same 2)|lia|lia]; reflexivity.
Qed.

Lemma load_cert_location_extends (conf : ssl_conf) (s : certs_state) :
  extends 3 4 s (load_cert_location conf s).
Proof.
  unfold load_cert_location.
  destruct (ssl_cert_location conf); [apply (extends_try _ UseCertFile)|].
  eapply extends_weaken; [apply (extends_same 3)|lia|lia]; reflexivity.
Qed.

Lemma load_cert_pem_extends (conf : ssl_conf) (s : certs_state) :
  extends 4 6 s (load_cert_pem conf s).
Proof.
  unfold load_cert_pem.
  destruct (ssl_cert_pem conf) as [pem|];
    [|eapply extends_weaken; [apply (extends_same 4)|lia|lia]; reflexivity].
  destruct (rd_kafka_ssl_X509_from_string conf (cs_env s) pem)
    as [[x509|] e].
  - eapply (extends_trans 4 5 6);
      [lia|lia|apply (extends_note s e ParseCertPem)
      |apply (extends_try _ UseCertPem)].
  - eapply extends_weaken; [apply (extends_fail _ _ ParseCertPem)|cbn; lia..].
Qed.

Lemma load_key_extends (conf : ssl_conf) (s : certs_state) :
  extends 6 7 s (load_key conf s).
Proof.
  unfold load_key.
  destruct (ssl_key conf); [apply (extends_try _ UseKey)|].
  eapply extends_weaken; [apply (extends_same 6)|lia|lia]; reflexivity.
Qed.

Lemma load_key_location_extends (conf : ssl_conf) (s : certs_state) :
  extends 7 8 s (load_key_location conf s).
Proof.
  unfold load_key_location.
  destruct (ssl_key_location conf); [apply (extends_try _ UseKeyFile)|].
  eapply extends_weaken; [apply (extends_same 7)|lia|lia]; reflexivity.
Qed.

Lemma load_key_pem_extends (conf : ssl_conf) (s : certs_state) :
  extends 8 10 s (load_key_pem conf s).
Proof.
  unfold load_key_pem.
  destruct (ssl_key_pem conf) as [pem|];
    [|eapply extends_weaken; [apply (extends_same 8)|lia|lia]; reflexivity].
  destruct (rd_kafka_ssl_PKEY_from_string conf (cs_env s) pem)
    as [[pkey|] e].
  - eapply (extends_trans 8 9 10);
      [lia|lia|apply (extends_note s e ParseKeyPem)
      |apply (extends_try _ UseKeyPem)].
  - eapply extends_weaken; [apply (extends_fail _ _ ParseKeyPem)|cbn; lia..].
Qed.

Lemma load_keystore_extends (conf : ssl_conf) (s : certs_state) :
  extends 10 15 s (load_keystore conf s).
Proof.
  unfold load_keystore.
  destruct (ssl_keystore_location conf) as [loc|];
    [|eapply extends_weaken; [apply (extends_same 10)|lia|lia];
      reflexivity].
  destruct (fopen (cs_env s) loc) as [[fp|errno] e];
    [|eapply extends_weaken;
      [apply (extends_fail _ _ OpenKeystore)|cbn; lia..]].
  eapply (extends_trans 10 11 15);
    [lia|lia|apply (extends_note s e OpenKeystore)|].
  destruct (d2i_PKCS12_fp e fp) as [[p12|] e1];
    [|eapply extends_weaken;
      [apply (extends_fail _ _ ReadKeystore)|cbn; lia..]].
  eapply (extends_trans 11 12 15);
    [lia|lia|apply (extends_note _ e1 ReadKeystore)|].
  destruct (PKCS12_parse e1 p12 (ssl_keystore_password conf))
    as [[[pkey cert]|] e2];
    [|eapply extends_weaken;
      [apply (extends_fail _ _ ParseKeystore)|cbn; lia..]].
  eapply (extends_trans 12 13 15);
    [lia|lia|apply (extends_note _ e2 ParseKeystore)|].
  apply (extends_bind 13 14 15); [lia|lia|
    apply (extends_try _ UseKeystoreCert)|].
  intros s2. apply (extends_try _ UseKeystoreKey).
Qed.

Lemma check_private_key_extends (s : certs_state) :
  extends 15 16 s (check_private_key s).
Proof.
  unfold check_private_key.
  destruct (cs_check_pkey s);
    [|eapply extends_weaken; [apply (extends_same 15)|lia|lia];
      reflexivity].
  destruct (SSL_CTX_check_private_key (cs_env s)) as [r e].
  destruct (r =? 1).
  - apply (extends_one _ _ CheckPrivateKey true); reflexivity.
  - apply (extends_one _ _ CheckPrivateKey false); reflexivity.
Qed.

(** The blocks after the CRL block, up to the key check. *)
Lemma load_rest_extends (lo : nat) (conf : ssl_conf) (r : certs_run)
  (s : certs_state) :
  (lo <= 2)%nat ->
  extends lo 2 s r ->
  extends lo 16 s
    (certs_bind
       (certs_bind
          (certs_bind
             (certs_bind
                (certs_bind
                   (certs_bind
                      (certs_bind
                         (certs_bind r (load_cert conf))
                         (load_cert_location conf))
                      (load_cert_pem conf))
                   (load_key conf))
                (load_key_location conf))
             (load_key_pem conf))
          (load_keystore conf))
       check_private_key).
Proof.
  intros Hlo Hr.
  apply (extends_bind lo 15 16);
    [lia|lia| |exact check_private_key_extends].
  apply (extends_bind lo 10 15);
    [lia|lia| |exact (load_keystore_extends conf)].
  apply (extends_bind lo 8 10);
    [lia|lia| |exact (load_key_pem_extends conf)].
  apply (extends_bind lo 7 8);
    [lia|lia| |exact (load_key_location_extends conf)].
  apply (extends_bind lo 6 7); [lia|lia| |exact (load_key_extends conf)].
  apply (extends_bind lo 4 6);
    [lia|lia| |exact (load_cert_pem_extends conf)].
  apply (extends_bind lo 3 4);
    [lia|lia| |exact (load_cert_location_extends conf)].
  apply (extends_bind lo 2 3);
    [lia|lia|exact Hr|exact (load_cert_extends conf)].
Qed.

Lemma set_certs_extends (conf : ssl_conf) (ctx : E) :
  extends 0 16 (certs_start ctx)
    (certs_bind (load_all conf (certs_start ctx)) check_private_key).
Proof.
  unfold load_all. apply load_rest_extends; [lia|].
  apply (extends_bind 0 1 2);
    [lia|lia|apply load_ca_extends|exact (load_crl_extends conf)].
Qed.

Lemma sorted_top_last (top : nat) (l : list nat) :
  StronglySorted lt l -> Forall (fun k => (k <= top)%nat) l ->
  In top l -> exists done : list nat, l = done ++ [top].
Proof.
  intros Hs. induction Hs as [|a l Hs IH Ha]; intros Hb Hin; [contradiction|].
  inversion Hb as [|? ? Hba Hbl]; subst.
  destruct Hin as [->|Hin].
  - destruct l as [|b l]; [exists []; reflexivity|].
    inversion Ha; subst. inversion Hbl; subst. lia.
  - destruct (IH Hbl Hin) as [done ->]. exists (a :: done). reflexivity.
Qed.

Lemma step_rank_inj (a b : cert_step) : step_rank a = step_rank b -> a = b.
Proof. destruct a, b; cbn; intros H; try reflexivity; discriminate. Qed.

Lemma sorted_NoDup (l : list nat) : StronglySorted lt l -> NoDup l.
Proof.
  induction 1 as [|a l Hs IH Ha]; constructor; [|exact IH].
  intros Hin. rewrite Forall_forall in Ha. specialize (Ha a Hin). lia.
Qed.

(** X10. [rd_kafka_ssl_set_certs] returns at its first failure. Either it
    answers 0, every step of its history succeeded and [errstr] is as it
    was; or it answers -1 and the failed step is the last of its history:
    every step before it succeeded and none was taken after it. *)
Theorem set_certs_stops_at_first_failure (conf : ssl_conf) (ctx : E)
  (errstr : string) (errstr_size : nat) :
  let res := rd_kafka_ssl_set_certs conf ctx errstr errstr_size in
  sc_ret res = 0
  /\ Forall (fun x => snd x = true) (sc_trace res)
  /\ sc_errstr res = errstr
  \/ sc_ret res = -1
     /\ exists (done : list (cert_step * bool)) (step : cert_step),
          sc_trace res = done ++ [(step, false)]
          /\ Forall (fun x => snd x = true) done.
Proof.
  cbn zeta. unfold rd_kafka_ssl_set_certs.
  destruct (set_certs_extends conf ctx) as (new & Ht & _ & _ & Hk).
  cbn [certs_start cs_trace app] in Ht.
  destruct (certs_bind (load_all conf (certs_start ctx)) check_private_key)
    as [s|f]; cbn [certs_finish sc_ret sc_trace sc_errstr run_trace] in *;
    subst new; [left|right]; repeat split; assumption.
Qed.

(** X11. The steps of [rd_kafka_ssl_set_certs] are taken in the order of
    the source (CA, CRL, certificate from memory, file and PEM string, key
    from memory, file and PEM string, keystore, key check), each at most
    once; so the key check, when it is in the history, is its last
    step. *)
Theorem set_certs_source_order (conf : ssl_conf) (ctx : E)
  (errstr : string) (errstr_size : nat) :
  let tr := sc_trace (rd_kafka_ssl_set_certs conf ctx errstr errstr_size) in
  StronglySorted lt (map (fun x => step_rank (fst x)) tr)
  /\ NoDup (map fst tr)
  /\ (forall ok : bool,
         In (CheckPrivateKey, ok) tr ->
         exists done : list (cert_step * bool),
           tr = done ++ [(CheckPrivateKey, ok)]).
Proof.
  cbn zeta.
  assert (Htr : sc_trace (rd_kafka_ssl_set_certs conf ctx errstr errstr_size)
                = run_trace
                    (certs_bind (load_all conf (certs_start ctx))
                       check_private_key)).
  { unfold rd_kafka_ssl_set_certs.
    destruct (certs_bind (load_all conf (certs_start ctx))
                check_private_key); reflexivity. }
  rewrite Htr.
  destruct (set_certs_extends conf ctx) as (new & Ht & Ho & Hw & _).
  cbn [certs_start cs_trace app] in Ht. rewrite Ht. clear Ht Htr.
  split; [exact Ho|]. split.
  - apply (NoDup_map_inv step_rank). rewrite map_map.
    apply sorted_NoDup. exact Ho.
  - intros ok Hin.
    assert (Hlast : exists done : list nat,
               map (fun x => step_rank (fst x)) new = done ++ [15%nat]).
    { apply sorted_top_last; [exact Ho| |].
      - apply Forall_map. eapply Forall_impl; [|exact Hw]. cbn. intros; lia.
      - apply in_map_iff. exists (CheckPrivateKey, ok).
        split; [reflexivity|exact Hin]. }
    destruct Hlast as [done Hdone].
    destruct (exists_last (l:=new)) as (pre & x & ->);
      [intros ->; contradiction|].
    exists pre. f_equal. f_equal.
    rewrite map_app in Hdone. cbn [map] in Hdone.
    apply app_inj_tail in Hdone. destruct Hdone as [_ Hx].
    apply in_app_or in Hin. destruct Hin as [Hin|[Hin|[]]]; [|auto].
    (* an earlier check would have the rank of the last step *)
    exfalso. unfold in_source_order in Ho. rewrite map_app in Ho.
    cbn [map] in Ho. rewrite Hx in Ho.
    apply (in_map (fun x => step_rank (fst x))) in Hin. cbn in Hin.
    clear -Ho Hin. revert Ho Hin.
    generalize (map (fun x : cert_step * bool => step_rank (fst x)) pre).
    intros l. induction l as [|a l IH]; [contradiction|].
    cbn. intros Hs [->|Hin].
    + inversion Hs as [|? ? _ Hall]; subst.
      rewrite Forall_forall in Hall.
      specialize (Hall 15%nat ltac:(apply in_or_app; right; left; reflexivity)).
      lia.
    + inversion Hs; subst. apply IH; assumption.
Qed.

Lemma set_certs_after_ca (conf : ssl_conf) (ctx : E) (errstr : string)
  (errstr_size : nat) :
  exists new : list (cert_step * bool),
    within 1 16 new
    /\ sc_trace (rd_kafka_ssl_set_certs conf ctx errstr errstr_size)
       = match load_ca conf (certs_start ctx) with
         | inl s1 => cs_trace s1 ++ new
         | inr f => cf_trace f
         end.
Proof.
  unfold rd_kafka_ssl_set_certs, load_all.
  destruct (load_ca conf (certs_start ctx)) as [s1|f]; cbn [certs_bind].
  - pose proof (load_rest_extends 1 conf (load_crl conf s1) s1 ltac:(lia)
                  (load_crl_extends conf s1)) as (new & Ht & _ & Hw & _).
    exists new. split; [exact Hw|]. rewrite <- Ht.
    match goal with
    | |- sc_trace (certs_finish _ _ ?r) = _ => destruct r; reflexivity
    end.
  - exists []. split; [constructor|reflexivity].
Qed.

Lemma within_no_ca (new : list (cert_step * bool)) :
  within 1 16 new -> ~ In LoadCALocation (map fst new).
Proof.
  intros Hw Hin. apply in_map_iff in Hin. destruct Hin as (x & Hx & Hin).
  unfold within in Hw. rewrite Forall_forall in Hw. specialize (Hw x Hin).
  rewrite Hx in Hw. cbn in Hw. lia.
Qed.

(** X12. Where the CA certificates of the context come from. A store
    that was set in memory ([ssl_ca]) wins: [ssl.ca.location] is then
    never loaded. Without such a store [ssl.ca.location], if set, is
    loaded before anything else, as a directory or as a file by what
    [rd_kafka_path_is_dir] says. With neither, nothing is loaded from a
    location and the block cannot fail: a failure of the Windows root
    store or of the default paths is ignored. *)
Theorem set_certs_ca_precedence (conf : ssl_conf) (ctx : E)
  (errstr : string) (errstr_size : nat) :
  let tr := sc_trace (rd_kafka_ssl_set_certs conf ctx errstr errstr_size) in
  (forall store : X509_STORE,
      ssl_ca conf = Some store -> ~ In LoadCALocation (map fst tr))
  /\ (forall loc : string,
         ssl_ca conf = None -> ssl_ca_location conf = Some loc ->
         exists rest : list (cert_step * bool),
           tr = (LoadCALocation,
                 fst (SSL_CTX_load_verify_locations ctx
                        (if rd_kafka_path_is_dir loc then None else Some loc)
                        (if rd_kafka_path_is_dir loc then Some loc else None))
                 =? 1) :: rest)
  /\ (ssl_ca conf = None -> ssl_ca_location conf = None ->
      ~ In LoadCALocation (map fst tr)
      /\ exists s : certs_state, load_ca conf (certs_start ctx) = inl s).
Proof.
  cbn zeta.
  destruct (set_certs_after_ca conf ctx errstr errstr_size)
    as (new & Hw & Ht).
  rewrite Ht. clear Ht. unfold load_ca.
  split; [|split].
  - intros store ->. cbn. apply within_no_ca. exact Hw.
  - intros loc -> ->. unfold certs_try. cbn [certs_start cs_env cs_trace].
    destruct (fst (SSL_CTX_load_verify_locations ctx
                     (if rd_kafka_path_is_dir loc then None else Some loc)
                     (if rd_kafka_path_is_dir loc then Some loc else None))
              =? 1); cbn; eexists; reflexivity.
  - intros -> ->.
    destruct (if MSC_VER
              then rd_kafka_ssl_win_load_root_certs (cs_env (certs_start ctx))
              else (-1, cs_env (certs_start ctx))) as [r e].
    destruct (r =? -1); cbn;
      (split; [apply within_no_ca; exact Hw|eexists; reflexivity]).
Qed.

End HistoryFacts.

(** ** Further properties: the construction of the context *)

Lemma length_substring_0 (m : nat) :
  forall s : string,
    String.length (substring 0 m s) = Nat.min m (String.length s).
Proof.
  induction m as [|m IH]; intros s.
  - destruct s; reflexivity.
  - destruct s as [|c s]; [reflexivity|]. cbn. now rewrite IH.
Qed.

Lemma substring_0_app_split (a b : string) :
  forall m : nat,
    substring 0 m (a ++ b)
    = (substring 0 m a ++ substring 0 (m - String.length a) b)%string.
Proof.
  induction a as [|c a IH]; intros m.
  - cbn [append String.length]. rewrite Nat.sub_0_r.
    destruct m; reflexivity.
  - destruct m as [|m]; [cbn; destruct b; reflexivity|].
    cbn. now rewrite IH.
Qed.

Lemma to_int_wraps (z : Z) :
  exists k : Z, to_int z = z - 2^32 * k /\ - 2^31 <= to_int z < 2^31.
Proof.
  exists ((z + 2^31) / 2^32). unfold to_int.
  pose proof (Z.mod_pos_bound (z + 2^31) (2^32) ltac:(lia)).
  pose proof (Z.div_mod (z + 2^31) (2^32) ltac:(lia)). lia.
Qed.

(** The room that the [fail:] label of [rd_kafka_ssl_ctx_init] computes is
    never more than what is left of the buffer. *)
Lemma ctx_init_room_le (errstr : string) (errstr_size : nat) :
  (String.length errstr < errstr_size)%nat ->
  (ctx_init_room errstr errstr_size
   <= errstr_size - String.length errstr)%nat.
Proof.
  intros Hlt. unfold ctx_init_room.
  destruct (to_int_wraps (Z.of_nat (String.length errstr)))
    as (k1 & E1 & B1).
  destruct (to_int_wraps (Z.of_nat errstr_size)) as (k2 & E2 & B2).
  destruct (Z.ltb_spec (to_int (Z.of_nat (String.length errstr)))
              (to_int (Z.of_nat errstr_size))) as [Hr|Hr]; [|lia].
  assert (k1 <= k2) by nia. nia.
Qed.

Lemma ctx_init_room_exact (errstr : string) (errstr_size : nat) :
  (String.length errstr < errstr_size)%nat ->
  Z.of_nat errstr_size <= INT_MAX ->
  ctx_init_room errstr errstr_size
  = (errstr_size - String.length errstr)%nat.
Proof.
  intros Hlt Hmax. unfold ctx_init_room.
  rewrite !to_int_small by (unfold INT_MAX in *; lia).
  destruct (Z.ltb_spec (Z.of_nat (String.length errstr))
              (Z.of_nat errstr_size)); lia.
Qed.

Section ContextFacts.
Context {M : Messages} {L : OpenSSL} {CL : CertLib} {B : Build}.

Lemma ctx_init_fail_fits (e : E) (errstr : string) (errstr_size : nat)
  (tr : list (cert_step * bool)) :
  (String.length errstr < errstr_size)%nat ->
  (String.length (ci_errstr (ctx_init_fail e errstr errstr_size tr))
   < errstr_size)%nat.
Proof.
  intros Hlt. unfold ctx_init_fail. cbn [ci_errstr].
  rewrite rd_kafka_ssl_error_closed. cbn [se_errstr].
  rewrite length_append.
  pose proof (ctx_init_room_le errstr errstr_size Hlt) as Hroom.
  destruct (ctx_init_room errstr errstr_size) as [|n] eqn:Er.
  - cbn. lia.
  - pose proof (rd_snprintf_bound EmptyString (S n)
                  (match env_errq e with
                   | [] => "No error"%string
                   | e1 :: _ => ssl_error_text (last (env_errq e) e1)
                   end) ltac:(lia)).
    lia.
Qed.

Lemma ctx_init_fail_text (e : E) (before text : string)
  (errstr_size : nat) (tr : list (cert_step * bool)) :
  (0 < errstr_size)%nat -> Z.of_nat errstr_size <= INT_MAX ->
  ci_errstr
    (ctx_init_fail e (rd_snprintf before errstr_size text) errstr_size tr)
  = rd_snprintf before errstr_size (text ++ drained_text (env_errq e)).
Proof.
  intros Hpos Hmax. unfold ctx_init_fail. cbn [ci_errstr].
  rewrite rd_kafka_ssl_error_closed. cbn [se_errstr].
  fold (drained_text (env_errq e)).
  pose proof (rd_snprintf_bound before errstr_size text Hpos) as Hlt.
  rewrite (ctx_init_room_exact _ _ Hlt Hmax).
  destruct errstr_size as [|m]; [lia|]. cbn [rd_snprintf] in *.
  rewrite substring_0_app_split.
  pose proof (length_substring_0 m text) as Hl.
  destruct (S m - String.length (substring 0 m text))%nat as [|n] eqn:En;
    [lia|].
  cbn [rd_snprintf]. f_equal. f_equal. lia.
Qed.

Lemma set_certs_failed_text (conf : ssl_conf) (ctx : E) (errstr : string)
  (errstr_size : nat) :
  let res := rd_kafka_ssl_set_certs conf ctx errstr errstr_size in
  match certs_bind (load_all conf (certs_start ctx)) check_private_key with
  | inl s =>
      res = mk_certs_result 0 (cs_env s) errstr (cs_trace s)
  | inr f =>
      res = mk_certs_result (-1) (cf_env f)
              (rd_snprintf errstr errstr_size (cf_text f)) (cf_trace f)
  end.
Proof.
  cbn zeta. unfold rd_kafka_ssl_set_certs.
  destruct (certs_bind (load_all conf (certs_start ctx)) check_private_key);
    reflexivity.
Qed.

(** X13. The diagnostic of [rd_kafka_ssl_ctx_init] never overruns the
    buffer: with a capacity above 0 it is shorter than [errstr_size],
    also on the failure path, where the error queue is printed behind the
    text that [errstr] already holds into the room that the [int]
    arithmetic of the source computes. With capacity 0 (and an [errstr]
    whose length fits an [int]) [errstr] is left as it was. *)
Theorem ctx_init_diagnostic_fits (conf : ssl_conf) (e0 : E)
  (errstr : string) (errstr_size : nat) :
  let ci := rd_kafka_ssl_ctx_init conf e0 errstr errstr_size in
  ((0 < errstr_size)%nat ->
   (String.length (ci_errstr ci) < errstr_size)%nat)
  /\ (errstr_size = 0%nat ->
      Z.of_nat (String.length errstr) <= INT_MAX ->
      ci_errstr ci = errstr).
Proof.
  cbn zeta. unfold rd_kafka_ssl_ctx_init. split.
  - intros Hpos.
    replace (0 <? errstr_size)%nat with true
      by (symmetry; apply Nat.ltb_lt; exact Hpos).
    destruct (ctx_init_prepare conf e0) as [ctx|[e text]].
    + pose proof (set_certs_failed_text conf ctx EmptyString errstr_size)
        as Hres. cbn zeta in Hres.
      destruct (certs_bind (load_all conf (certs_start ctx))
                  check_private_key) as [s|f]; rewrite Hres;
        cbn [sc_ret sc_env sc_errstr sc_trace Z.eqb Pos.eqb ci_errstr].
      * cbn. exact Hpos.
      * apply ctx_init_fail_fits. apply rd_snprintf_bound. exact Hpos.
    + apply ctx_init_fail_fits. apply rd_snprintf_bound. exact Hpos.
  - intros -> Hlen. cbn [Nat.ltb Nat.leb].
    assert (Hroom : ctx_init_room errstr 0 = 0%nat).
    { unfold ctx_init_room.
      rewrite !to_int_small by (unfold INT_MAX in *; lia).
      destruct (Z.ltb_spec (Z.of_nat (String.length errstr)) (Z.of_nat 0));
        [lia|reflexivity]. }
    assert (Hfail : forall (e : E) (tr : list (cert_step * bool)),
               ci_errstr (ctx_init_fail e errstr 0 tr) = errstr).
    { intros e tr. unfold ctx_init_fail. cbn [ci_errstr].
      rewrite Hroom, rd_kafka_ssl_error_closed. cbn [se_errstr rd_snprintf].
      apply append_nil_r. }
    destruct (ctx_init_prepare conf e0) as [ctx|[e text]].
    + pose proof (set_certs_failed_text conf ctx errstr 0) as Hres.
      cbn zeta in Hres.
      destruct (certs_bind (load_all conf (certs_start ctx))
                  check_private_key) as [s|f]; rewrite Hres;
        cbn [sc_ret sc_env sc_errstr sc_trace Z.eqb Pos.eqb ci_errstr
               rd_snprintf]; [reflexivity|apply Hfail].
    + cbn [rd_snprintf]. apply Hfail.
Qed.

(** X14. [rd_kafka_ssl_ctx_init] hands out a context only when nothing
    failed. Either it answers 0 with a context on which
    [SSL_CTX_set_mode] was called last, no step of the certificate loader
    failed, the key check ran if a key was installed and did not fail,
    the error queue was not drained, so that [rd_kafka_ssl_error] logged
    no line, and [errstr] holds the empty string (it is as it was with
    capacity 0); or it answers -1 with no context, and the lines of
    [ci_logs] are those that [rd_kafka_ssl_error] logged while it drained
    the error queue at the [fail:] label, without a broker: each of them
    is an error line of the handle. [ci_logs] holds the lines of
    [rd_kafka_ssl_error] only: a line that the password callback writes
    while OpenSSL reads a key is not among them. *)
Theorem ctx_init_outcomes (conf : ssl_conf) (e0 : E) (errstr : string)
  (errstr_size : nat) :
  let ci := rd_kafka_ssl_ctx_init conf e0 errstr errstr_size in
  ci_ret ci = 0
  /\ (exists e : E, ci_ctx ci = Some (SSL_CTX_set_mode e))
  /\ Forall (fun x => snd x = true) (ci_trace ci)
  /\ check_ran (ci_trace ci) = key_installed (ci_trace ci)
  /\ ci_logs ci = []
  /\ ci_errstr ci
     = (if (0 <? errstr_size)%nat then EmptyString else errstr)
  \/ ci_ret ci = -1
     /\ ci_ctx ci = None
     /\ (exists (e : E) (room : nat),
           ci_logs ci
           = se_logs (rd_kafka_ssl_error None EmptyString room (env_errq e)))
     /\ Forall (fun l => log_where l = HandleLog /\ log_level l = LOG_ERR)
          (ci_logs ci).
Proof.
  cbn zeta. unfold rd_kafka_ssl_ctx_init.
  assert (Hlogs : forall (e : E) (text : string)
                         (tr : list (cert_step * bool)),
             (exists (e' : E) (room : nat),
                 ci_logs (ctx_init_fail e text errstr_size tr)
                 = se_logs (rd_kafka_ssl_error None EmptyString room
                              (env_errq e')))
             /\ Forall (fun l => log_where l = HandleLog
                                 /\ log_level l = LOG_ERR)
                  (ci_logs (ctx_init_fail e text errstr_size tr))).
  { intros e text tr. unfold ctx_init_fail. cbn [ci_logs].
    split; [exists e, (ctx_init_room text errstr_size); reflexivity|].
    rewrite rd_kafka_ssl_error_closed. cbn [se_logs].
    apply Forall_forall. intros l Hl. apply in_map_iff in Hl.
    destruct Hl as (x & <- & _). split; reflexivity. }
  destruct (ctx_init_prepare conf e0) as [ctx|[e text]].
  - set (errstr0 := if (0 <? errstr_size)%nat then EmptyString else errstr).
    pose proof (set_certs_failed_text conf ctx errstr0 errstr_size) as Hres.
    pose proof (set_certs_outcome conf ctx errstr0 errstr_size) as Hout.
    cbn zeta in Hres, Hout. destruct Hout as (Hrun & _ & _ & Hlf & _).
    destruct (set_certs_extends conf ctx) as (new & Ht & _ & _ & Hk).
    cbn [certs_start cs_trace app] in Ht.
    destruct (certs_bind (load_all conf (certs_start ctx))
                check_private_key) as [s|f]; rewrite Hres in *;
      cbn [sc_ret sc_env sc_errstr sc_trace Z.eqb Pos.eqb ci_ret ci_ctx
             ci_logs ci_errstr ci_trace run_trace] in *.
    + left. subst new. split; [reflexivity|].
      split; [eexists; reflexivity|]. split; [exact Hk|].
      split; [|split; reflexivity].
      rewrite Hrun.
      destruct (load_failed (cs_trace s)) eqn:Hl;
        [destruct (Hlf eq_refl); discriminate|].
      cbn. apply andb_true_r.
    + right. split; [reflexivity|]. split; [reflexivity|]. apply Hlogs.
  - right. cbn [ctx_init_fail ci_ret ci_ctx].
    split; [reflexivity|]. split; [reflexivity|]. apply Hlogs.
Qed.

(** X15. What the diagnostic of a failed [rd_kafka_ssl_ctx_init] says,
    for a capacity from 1 to [INT_MAX]: the text of the step that failed
    followed directly by the last error of the OpenSSL queue, as if both
    had been printed in one go into the buffer; when the error queue is
    empty at that point, the text is followed by ["No error"]. A failure of
    the cipher, curve or signature-algorithm lists stops the construction
    before any certificate or key is loaded. *)
Theorem ctx_init_failure_text (conf : ssl_conf) (e0 : E) (errstr : string)
  (errstr_size : nat) :
  (0 < errstr_size)%nat -> Z.of_nat errstr_size <= INT_MAX ->
  let ci := rd_kafka_ssl_ctx_init conf e0 errstr errstr_size in
  (forall (e : E) (text : string),
      ctx_init_prepare conf e0 = inr (e, text) ->
      ci_ret ci = -1 /\ ci_trace ci = []
      /\ ci_errstr ci
         = rd_snprintf errstr errstr_size
             (text ++ match env_errq e with
                      | [] => "No error"%string
                      | x :: _ => ssl_error_text (last (env_errq e) x)
                      end))
  /\ (forall (ctx : E) (f : certs_failure),
         ctx_init_prepare conf e0 = inl ctx ->
         certs_bind (load_all conf (certs_start ctx)) check_private_key
         = inr f ->
         ci_ret ci = -1 /\ ci_trace ci = cf_trace f
         /\ ci_errstr ci
            = rd_snprintf errstr errstr_size
                (cf_text f
                 ++ match env_errq (cf_env f) with
                    | [] => "No error"%string
                    | x :: _ => ssl_error_text (last (env_errq (cf_env f)) x)
                    end)).
Proof.
  intros Hpos Hmax. cbn zeta. unfold rd_kafka_ssl_ctx_init.
  replace (0 <? errstr_size)%nat with true
    by (symmetry; apply Nat.ltb_lt; exact Hpos).
  split.
  - intros e text ->. split; [reflexivity|]. split; [reflexivity|].
    rewrite (ctx_init_fail_text e EmptyString text) by assumption.
    apply rd_snprintf_fresh. exact Hpos.
  - intros ctx f -> Hf.
    pose proof (set_certs_failed_text conf ctx EmptyString errstr_size)
      as Hres. cbn zeta in Hres. rewrite Hf in Hres. rewrite Hres.
    cbn [sc_ret sc_env sc_errstr sc_trace Z.eqb Pos.eqb].
    split; [reflexivity|]. split; [reflexivity|].
    rewrite (ctx_init_fail_text (cf_env f) EmptyString (cf_text f))
      by assumption.
    apply rd_snprintf_fresh. exact Hpos.
Qed.

(** X16. On a build against an OpenSSL older than 1.0.2, or against
    LibreSSL, [ssl.curves.list] and [ssl.sigalgs.list] are ignored
    without a word: [rd_kafka_ssl_ctx_init] does the same whatever they
    hold. *)
Theorem ctx_init_ignores_lists_on_old_builds (conf : ssl_conf)
  (curves sigalgs : option string) (e0 : E) (errstr : string)
  (errstr_size : nat) :
  OPENSSL_VERSION_NUMBER < 0x1000200f \/ LIBRESSL = true ->
  rd_kafka_ssl_ctx_init (with_curves_sigalgs conf curves sigalgs) e0 errstr
    errstr_size
  = rd_kafka_ssl_ctx_init conf e0 errstr errstr_size.
Proof.
  intros Hold.
  assert (Hoff : (0x1000200f <=? OPENSSL_VERSION_NUMBER) && negb LIBRESSL
                 = false).
  { destruct Hold as [Hv| ->]; [|apply andb_false_r].
    apply andb_false_iff. left. apply Z.leb_gt. exact Hv. }
  unfold rd_kafka_ssl_ctx_init, ctx_init_prepare.
  rewrite Hoff. destruct conf. reflexivity.
Qed.

End ContextFacts.

(** ** Further properties: endpoint identification *)

Lemma strrchr_none (s : string) (c : ascii) :
  strrchr s c = None -> strchr_found s c = false.
Proof.
  induction s as [|a s IH]; [reflexivity|]. cbn.
  destruct (strrchr s c); [discriminate|].
  destruct (Ascii.eqb a c); [discriminate|]. intros _. apply IH. reflexivity.
Qed.

Lemma strrchr_split (s : string) (c : ascii) :
  forall i : nat,
    strrchr s c = Some i ->
    exists port : string,
      s = (substring 0 i s ++ String c port)%string
      /\ strchr_found port c = false.
Proof.
  induction s as [|a s IH]; intros i; [discriminate|]. cbn.
  destruct (strrchr s c) as [j|] eqn:Hs.
  - intros [= <-]. destruct (IH j eq_refl) as (port & Hp & Hno).
    exists port. split; [|exact Hno]. cbn. f_equal. exact Hp.
  - destruct (Ascii.eqb_spec a c) as [->|]; [|discriminate].
    intros [= <-]. exists s. split; [reflexivity|].
    apply strrchr_none. exact Hs.
Qed.

Lemma substring_0_prefix (m : nat) :
  forall s : string, prefix (substring 0 m s) s = true.
Proof.
  induction m as [|m IH]; intros s.
  - destruct s; reflexivity.
  - destruct s as [|a s]; [reflexivity|]. cbn.
    destruct (ascii_dec a a) as [_|N]; [apply IH|contradiction].
Qed.

Lemma prefix_trans (a b c : string) :
  prefix a b = true -> prefix b c = true -> prefix a c = true.
Proof.
  revert b c. induction a as [|x a IH]; intros b c;
    [destruct c; reflexivity|].
  destruct b as [|y b]; [discriminate|].
  destruct c as [|z c]; [destruct (ascii_dec y y); discriminate|].
  cbn. destruct (ascii_dec x y) as [->|]; [|discriminate].
  destruct (ascii_dec y z) as [->|]; [|discriminate].
  destruct (ascii_dec z z) as [_|N]; [apply IH|contradiction].
Qed.

(** The name cut at its last colon. *)
Lemma strip_port_shape (name : string) :
  strchr_found name ":" = false /\ strip_port name = name
  \/ exists port : string,
       name = (strip_port name ++ ":" ++ port)%string
       /\ strchr_found port ":" = false.
Proof.
  unfold strip_port. destruct (strrchr name ":") as [i|] eqn:Hr.
  - right. exact (strrchr_split name ":" i Hr).
  - left. split; [apply strrchr_none; exact Hr|reflexivity].
Qed.

Lemma strip_port_prefix (name : string) : prefix (strip_port name) name = true.
Proof.
  unfold strip_port. destruct (strrchr name ":");
    [apply substring_0_prefix|].
  rewrite <- (append_nil_r name) at 2. apply prefix_app.
Qed.

Section EndpointMore.
Context {M : Messages} {L : OpenSSL} {B : Build}.

Lemma endpoint_fail_kept (w : world) (t : tls SSL) (errstr : string)
  (errstr_size : nat) (name : string) (sni host : option string) :
  let res := endpoint_fail (set_tls w t) errstr errstr_size name sni host in
  endpoint_kept w errstr errstr_size name sni res
  /\ ep_ret res = -1 /\ ep_host res = host
  /\ tls_errq (w_tls (ep_world res)) = [].
Proof.
  cbn zeta. unfold endpoint_fail, endpoint_kept.
  pose proof (ssl_error_in_world_frame (set_tls w t) errstr errstr_size)
    as F. cbn zeta in F.
  destruct (ssl_error_in_world (set_tls w t) errstr errstr_size)
    as [w' e']. cbn [fst snd] in F.
  destruct F as (F1 & F2 & F3 & _ & _ & F6 & _ & F8 & _).
  cbn [ep_name ep_sni ep_world ep_ret ep_errstr ep_host].
  repeat split; try assumption.
  right. split; [reflexivity|]. intros Hpos. apply F8. exact Hpos.
Qed.

Lemma set_endpoint_host_kept (eid : rd_kafka_ssl_endpoint_id) (w : world)
  (t : tls SSL) (errstr : string) (errstr_size : nat) (name : string)
  (sni : option string) :
  let res := set_endpoint_host eid (set_tls w t) errstr errstr_size name
               sni in
  endpoint_kept w errstr errstr_size name sni res
  /\ (eid <> RD_KAFKA_SSL_ENDPOINT_ID_NONE ->
      OPENSSL_VERSION_NUMBER < 0x1000200f ->
      ep_ret res = -1 /\ ep_host res = None
      /\ ep_errstr res
         = rd_snprintf errstr errstr_size
             ("Endpoint identification not supported on this OpenSSL version (0x"
              ++ hex_of_Z OPENSSL_VERSION_NUMBER ++ ")")).
Proof.
  cbn zeta. unfold set_endpoint_host.
  destruct eid.
  - split; [|intros N; contradiction].
    unfold endpoint_kept. cbn. repeat split. left. repeat split.
  - destruct (Z.leb_spec 0x10100000 OPENSSL_VERSION_NUMBER) as [V1|V1].
    { split; [|intros _ V; lia].
      destruct (SSL_set1_host (w_tls (set_tls w t)) name) as [r t1].
      destruct (r =? 0).
      - apply (endpoint_fail_kept w t1).
      - unfold endpoint_kept. cbn. repeat split. left. repeat split. }
    destruct (Z.leb_spec 0x1000200f OPENSSL_VERSION_NUMBER) as [V2|V2].
    { split; [|intros _ V; lia].
      destruct (X509_VERIFY_PARAM_set1_host (w_tls (set_tls w t)) name)
        as [r t1].
      destruct (r =? 0).
      - apply (endpoint_fail_kept w t1).
      - unfold endpoint_kept. cbn. repeat split. left. repeat split. }
    split; [|intros _ _; repeat split].
    unfold endpoint_kept. cbn. repeat split. right.
    split; [reflexivity|]. intros Hpos. apply rd_snprintf_bound. exact Hpos.
Qed.

Lemma set_tls_same (w : world) : set_tls w (w_tls w) = w.
Proof. destruct w. reflexivity. Qed.

Lemma set_endpoint_host_verifies (eid : rd_kafka_ssl_endpoint_id)
  (w : world) (errstr : string) (errstr_size : nat) (name : string)
  (sni : option string) :
  let res := set_endpoint_host eid w errstr errstr_size name sni in
  eid <> RD_KAFKA_SSL_ENDPOINT_ID_NONE -> ep_ret res = 0 ->
  ep_host res = Some name.
Proof.
  cbn zeta. intros Hne.
  pose proof (set_endpoint_host_name eid w errstr errstr_size name sni) as H.
  cbn zeta in H. destruct H as (_ & _ & _ & Hh & _). exact (Hh Hne).
Qed.

(** What the whole call leaves, and that a call which succeeds with
    endpoint identification asked for has installed the name to verify. *)
Lemma set_endpoint_id_kept (eid : rd_kafka_ssl_endpoint_id) (w : world)
  (errstr : string) (errstr_size : nat) :
  let res := rd_kafka_transport_ssl_set_endpoint_id eid w errstr
               errstr_size in
  endpoint_kept w errstr errstr_size (ep_name res) (ep_sni res) res
  /\ (eid <> RD_KAFKA_SSL_ENDPOINT_ID_NONE -> ep_ret res = 0 ->
      ep_host res = Some (ep_name res)).
Proof.
  cbn zeta. unfold rd_kafka_transport_ssl_set_endpoint_id.
  set (name := strip_port
                 (rd_snprintf EmptyString RD_KAFKA_NODENAME_SIZE
                    (rkb_nodename (w_rkb w)))).
  destruct ((0x0090806f <=? OPENSSL_VERSION_NUMBER) && negb OPENSSL_NO_TLSEXT
            && negb (is_ipv6_numeric name || is_ipv4_numeric name)).
  - destruct (SSL_set_tlsext_host_name (w_tls w) name) as [r t].
    destruct (r =? 0).
    + pose proof (endpoint_fail_kept w t errstr errstr_size name
                    (Some name) None) as F. cbn zeta in F.
      destruct F as (K & Fr & _).
      pose proof K as (Kn & Ks & _). rewrite Kn, Ks.
      split; [exact K|]. intros _ Hz. rewrite Fr in Hz. discriminate.
    + pose proof (set_endpoint_host_kept eid w t errstr errstr_size name
                    (Some name)) as [K _].
      pose proof K as (Kn & Ks & _). rewrite Kn, Ks.
      split; [exact K|].
      apply (set_endpoint_host_verifies eid (set_tls w t)).
  - pose proof (set_endpoint_host_kept eid w (w_tls w) errstr errstr_size
                  name None) as [K _].
    rewrite set_tls_same in K.
    pose proof K as (Kn & Ks & _). rewrite Kn, Ks.
    split; [exact K|]. apply (set_endpoint_host_verifies eid w).
Qed.

(** X17. How [rd_kafka_transport_ssl_set_endpoint_id] fails, and what it
    leaves alone. It answers 0 or -1, never tells the broker anything and
    never changes the events polled for; with 0 [errstr] and the log are
    as they were, with -1 the diagnostic fits the buffer. When endpoint
    identification is asked for on a build against an OpenSSL older than
    1.0.2 the call always answers -1 and installs no host name to verify,
    and unless the SNI call failed first the diagnostic says that the
    version does not support it. When [SSL_set_tlsext_host_name] fails the
    call answers -1 with the error queue drained and no host name to
    verify is installed. Without the TLS extensions no SNI name is
    sent. *)
Theorem set_endpoint_id_failures (eid : rd_kafka_ssl_endpoint_id)
  (w : world) (errstr : string) (errstr_size : nat) :
  let res := rd_kafka_transport_ssl_set_endpoint_id eid w errstr
               errstr_size in
  w_notes (ep_world res) = w_notes w
  /\ w_events (ep_world res) = w_events w
  /\ (ep_ret res = 0 /\ ep_errstr res = errstr
      /\ w_log (ep_world res) = w_log w
      \/ ep_ret res = -1
         /\ ((0 < errstr_size)%nat ->
             (String.length (ep_errstr res) < errstr_size)%nat))
  /\ (eid <> RD_KAFKA_SSL_ENDPOINT_ID_NONE ->
      OPENSSL_VERSION_NUMBER < 0x1000200f ->
      ep_ret res = -1 /\ ep_host res = None
      /\ (ep_sni res = None
          \/ fst (SSL_set_tlsext_host_name (w_tls w) (ep_name res)) <> 0 ->
          ep_errstr res
          = rd_snprintf errstr errstr_size
              ("Endpoint identification not supported on this OpenSSL version (0x"
               ++ hex_of_Z OPENSSL_VERSION_NUMBER ++ ")")))
  /\ (forall n : string,
         ep_sni res = Some n ->
         fst (SSL_set_tlsext_host_name (w_tls w) n) = 0 ->
         ep_ret res = -1 /\ ep_host res = None
         /\ tls_errq (w_tls (ep_world res)) = [])
  /\ (OPENSSL_VERSION_NUMBER < 0x0090806f \/ OPENSSL_NO_TLSEXT = true ->
      ep_sni res = None).
Proof.
  cbn zeta. unfold rd_kafka_transport_ssl_set_endpoint_id.
  set (name := strip_port
                 (rd_snprintf EmptyString RD_KAFKA_NODENAME_SIZE
                    (rkb_nodename (w_rkb w)))).
  destruct ((0x0090806f <=? OPENSSL_VERSION_NUMBER) && negb OPENSSL_NO_TLSEXT
            && negb (is_ipv6_numeric name || is_ipv4_numeric name)) eqn:Hc.
  - apply andb_true_iff in Hc. destruct Hc as [Hc _].
    apply andb_true_iff in Hc. destruct Hc as [Hv Hx].
    apply Z.leb_le in Hv. apply negb_true_iff in Hx.
    destruct (SSL_set_tlsext_host_name (w_tls w) name) as [r t] eqn:Hs.
    destruct (Z.eqb_spec r 0) as [Hr|Hr].
    + pose proof (endpoint_fail_kept w t errstr errstr_size name
                    (Some name) None) as F. cbn zeta in F.
      destruct F as ((Kn & Ks & K1 & K2 & _ & K3) & Fr & Fh & Fq).
      rewrite Kn, Ks.
      split; [exact K1|]. split; [exact K2|]. split; [exact K3|].
      split; [|split].
      * intros _ _. split; [exact Fr|]. split; [exact Fh|].
        intros [N|N]; [discriminate|]. rewrite Hs in N. contradiction.
      * intros n [= <-] _. repeat split; assumption.
      * intros [V|X]; [lia|congruence].
    + pose proof (set_endpoint_host_kept eid w t errstr errstr_size name
                    (Some name)) as F. cbn zeta in F.
      destruct F as ((Kn & Ks & K1 & K2 & _ & K3) & Fold).
      rewrite Kn, Ks.
      split; [exact K1|]. split; [exact K2|]. split; [exact K3|].
      split; [|split].
      * intros Hne Hv2. destruct (Fold Hne Hv2) as (Fr & Fh & Fe).
        split; [exact Fr|]. split; [exact Fh|]. intros _. exact Fe.
      * intros n [= <-] Hz. rewrite Hs in Hz. contradiction.
      * intros [V|X]; [lia|congruence].
  - pose proof (set_endpoint_host_kept eid w (w_tls w) errstr errstr_size
                  name None) as F. cbn zeta in F.
    rewrite set_tls_same in F.
    destruct F as ((Kn & Ks & K1 & K2 & _ & K3) & Fold).
    rewrite Kn, Ks.
    split; [exact K1|]. split; [exact K2|]. split; [exact K3|].
    split; [|split].
    + intros Hne Hv2. destruct (Fold Hne Hv2) as (Fr & Fh & Fe).
      split; [exact Fr|]. split; [exact Fh|]. intros _. exact Fe.
    + intros n N. discriminate.
    + intros _. reflexivity.
Qed.

(** X18. The name that [rd_kafka_transport_ssl_set_endpoint_id] works
    with, for every node name. It is the node name as it fits the local
    buffer, cut at its last colon: either that text has no colon and is
    the name, or it is the name, a colon and a rest without colon. So the
    name is an initial part of the node name and, with a buffer of at
    least one byte, shorter than the buffer. *)
Theorem set_endpoint_id_name_shape (eid : rd_kafka_ssl_endpoint_id)
  (w : world) (errstr : string) (errstr_size : nat) :
  let res := rd_kafka_transport_ssl_set_endpoint_id eid w errstr
               errstr_size in
  let fitted :=
    rd_snprintf EmptyString RD_KAFKA_NODENAME_SIZE
      (rkb_nodename (w_rkb w)) in
  (strchr_found fitted ":" = false /\ ep_name res = fitted
   \/ exists port : string,
        fitted = (ep_name res ++ ":" ++ port)%string
        /\ strchr_found port ":" = false)
  /\ prefix (ep_name res) (rkb_nodename (w_rkb w)) = true
  /\ ((0 < RD_KAFKA_NODENAME_SIZE)%nat ->
      (String.length (ep_name res) < RD_KAFKA_NODENAME_SIZE)%nat).
Proof.
  cbn zeta.
  set (fitted := rd_snprintf EmptyString RD_KAFKA_NODENAME_SIZE
                   (rkb_nodename (w_rkb w))).
  assert (Hname : ep_name (rd_kafka_transport_ssl_set_endpoint_id eid w
                             errstr errstr_size) = strip_port fitted).
  { unfold rd_kafka_transport_ssl_set_endpoint_id. fold fitted.
    destruct ((0x0090806f <=? OPENSSL_VERSION_NUMBER)
              && negb OPENSSL_NO_TLSEXT
              && negb (is_ipv6_numeric (strip_port fitted)
                       || is_ipv4_numeric (strip_port fitted))).
    - destruct (SSL_set_tlsext_host_name (w_tls w) (strip_port fitted))
        as [r t].
      destruct (r =? 0).
      + apply (endpoint_fail_kept w t).
      + apply (set_endpoint_host_kept eid w t).
    - pose proof (set_endpoint_host_kept eid w (w_tls w) errstr errstr_size
                    (strip_port fitted) None) as F. cbn zeta in F.
      rewrite set_tls_same in F. apply F. }
  rewrite Hname. split; [exact (strip_port_shape fitted)|].
  assert (Hfit : prefix fitted (rkb_nodename (w_rkb w)) = true).
  { unfold fitted, rd_snprintf.
    destruct RD_KAFKA_NODENAME_SIZE; [|apply substring_0_prefix].
    destruct (rkb_nodename (w_rkb w)); reflexivity. }
  split.
  - eapply prefix_trans; [apply strip_port_prefix|exact Hfit].
  - intros Hpos.
    pose proof (rd_snprintf_bound EmptyString RD_KAFKA_NODENAME_SIZE
                  (rkb_nodename (w_rkb w)) Hpos) as Hb. fold fitted in Hb.
    destruct (strip_port_shape fitted) as [[_ ->]|(port & Hp & _)];
      [exact Hb|].
    rewrite Hp, length_append in Hb. lia.
Qed.

End EndpointMore.

(** ** Further properties: the last error of the thread *)

Lemma last_snoc {A : Type} (l : list A) (x d : A) : last (l ++ [x]) d = x.
Proof.
  induction l as [|a l IH]; [reflexivity|].
  cbn [app]. destruct (l ++ [x]) eqn:E; [destruct l; discriminate|].
  exact IH.
Qed.

Section LastErrorFacts.
Context {ES : ErrorStrings}.

(** X19. [rd_kafka_ssl_last_error_str] answers the empty string exactly
    on an empty queue. Otherwise it reports the latest error only, which
    is also the one that [rd_kafka_ssl_error] leaves in [errstr]: the
    errors queued before it do not change the answer. The answer never
    has more than the 255 characters that its buffer of 256 bytes
    holds. *)
Theorem ssl_last_error_str_reports_latest (q : list err_entry) :
  (rd_kafka_ssl_last_error_str q = EmptyString <-> q = [])
  /\ (String.length (rd_kafka_ssl_last_error_str q) <= 255)%nat
  /\ (forall (earlier : list err_entry) (e : err_entry),
         rd_kafka_ssl_last_error_str (earlier ++ [e])
         = rd_snprintf EmptyString 256 (last_error_text e)
         /\ forall (M : Messages) (rkb : option rd_kafka_broker)
                   (errstr : string) (errstr_size : nat),
              se_errstr (rd_kafka_ssl_error rkb errstr errstr_size
                           (earlier ++ [e]))
              = rd_snprintf errstr errstr_size (ssl_error_text e)).
Proof.
  split; [|split].
  - unfold rd_kafka_ssl_last_error_str, ERR_peek_last_error_line_data.
    destruct q as [|e q]; [split; reflexivity|].
    split; [|discriminate]. unfold last_error_text.
    destruct (string_of_Z (Z.pos (err_code (last (e :: q) e))));
      discriminate.
  - unfold rd_kafka_ssl_last_error_str.
    destruct (ERR_peek_last_error_line_data q) as [e|]; [|cbn; lia].
    apply substring_0_length.
  - intros earlier e. split.
    + unfold rd_kafka_ssl_last_error_str, ERR_peek_last_error_line_data.
      destruct (earlier ++ [e]) as [|x l] eqn:E;
        [destruct earlier; discriminate|].
      rewrite <- E, last_snoc. reflexivity.
    + intros M rkb errstr errstr_size.
      rewrite rd_kafka_ssl_error_closed. cbn [se_errstr].
      destruct (earlier ++ [e]) as [|x l] eqn:E;
        [destruct earlier; discriminate|].
      rewrite <- E, last_snoc. reflexivity.
Qed.

End LastErrorFacts.

(** ** Further properties: the I/O event and the connection set-up *)

Section EventFacts.
Context {M : Messages} {L : OpenSSL}.

(** With a capacity above 0 the answer of the classifier and the world it
    leaves do not depend on what [errstr] held, nor does the diagnostic of
    a failure. *)
Lemma io_update_fresh (w : world) (ret : Z) (e1 e2 : string)
  (errstr_size : nat) :
  (0 < errstr_size)%nat ->
  let o1 := rd_kafka_transport_ssl_io_update w ret e1 errstr_size in
  let o2 := rd_kafka_transport_ssl_io_update w ret e2 errstr_size in
  fst o1 = fst o2 /\ (fst (fst o1) = -1 -> snd o1 = snd o2).
Proof.
  intros Hpos. cbn zeta. unfold rd_kafka_transport_ssl_io_update.
  assert (Hd : ssl_error_in_world w e1 errstr_size
               = ssl_error_in_world w e2 errstr_size).
  { unfold ssl_error_in_world.
    rewrite (rd_kafka_ssl_error_fresh _ e1 e2) by exact Hpos. reflexivity. }
  rewrite Hd.
  destruct (ssl_error_in_world w e2 errstr_size) as [w' e'].
  repeat
    match goal with
    | |- context [if ?c then _ else _] => destruct c
    end;
    cbn [fst snd]; (split; [reflexivity|]); intros Hu;
    try discriminate; try reflexivity;
    apply rd_snprintf_fresh; exact Hpos.
Qed.

(** X20. [rd_kafka_transport_ssl_io_event] does nothing and answers 0
    when the events do not include [POLLOUT]. With [POLLOUT] it answers 0
    or -1: with 0 the broker is told nothing and read or write readiness
    is registered; with -1 the broker is told once, at level [LOG_ERR] and
    with error [RD_KAFKA_RESP_ERR__TRANSPORT], a reason that is shorter
    than the 512 bytes of the local buffer. The outcome depends neither
    on what the uninitialised local buffer held nor on the errors queued
    before the call. *)
Theorem ssl_io_event_outcomes (w : world) (events : Z) (stack : string) :
  let out := rd_kafka_transport_ssl_io_event w events stack in
  (Z.land events POLLOUT = 0 -> out = (0, w))
  /\ (Z.land events POLLOUT <> 0 ->
      (fst out = 0 /\ w_notes (snd out) = w_notes w
       /\ (w_events (snd out) = Z.lor (w_events w) POLLIN
           \/ w_events (snd out) = Z.lor (w_events w) POLLOUT)
       \/ fst out = -1
          /\ exists reason : string,
               w_notes (snd out)
               = w_notes w
                 ++ [BrokerFail LOG_ERR RD_KAFKA_RESP_ERR__TRANSPORT reason]
               /\ (String.length reason < 512)%nat))
  /\ (forall other : string,
         rd_kafka_transport_ssl_io_event w events other = out)
  /\ (Z.land events POLLOUT <> 0 ->
      forall (q : list err_entry) (errno : Z),
        rd_kafka_transport_ssl_io_event
          (set_tls w (mk_tls (tls_ssl (w_tls w)) q errno)) events stack
        = out).
Proof.
  cbn zeta. unfold rd_kafka_transport_ssl_io_event.
  split; [|split; [|split]].
  - intros ->. reflexivity.
  - intros Hp. apply Z.eqb_neq in Hp. rewrite Hp. cbn [negb].
    destruct (SSL_write (w_tls (rd_kafka_transport_ssl_clear_error w)) [] 0)
      as [r t].
    pose proof (io_update_cases
                  (set_tls (rd_kafka_transport_ssl_clear_error w) t) r stack
                  512) as F.
    cbn zeta in F.
    destruct (rd_kafka_transport_ssl_io_update
                (set_tls (rd_kafka_transport_ssl_clear_error w) t) r stack
                512) as [[u w2] errstr]. cbn [fst snd] in F.
    destruct F as (Fn & _ & _ & _ & [(-> & _ & _ & _ & Fe)
                                     |(-> & _ & _ & Fl & _)]); cbn.
    + left. repeat split; assumption.
    + right. split; [reflexivity|]. exists errstr. rewrite Fn.
      split; [reflexivity|]. apply Fl. lia.
  - intros other. destruct (negb (Z.land events POLLOUT =? 0)); [|reflexivity].
    destruct (SSL_write (w_tls (rd_kafka_transport_ssl_clear_error w)) [] 0)
      as [r t].
    pose proof (io_update_fresh
                  (set_tls (rd_kafka_transport_ssl_clear_error w) t) r other
                  stack 512 ltac:(lia)) as F. cbn zeta in F.
    destruct (rd_kafka_transport_ssl_io_update
                (set_tls (rd_kafka_transport_ssl_clear_error w) t) r other
                512) as [[u1 w1] s1].
    destruct (rd_kafka_transport_ssl_io_update
                (set_tls (rd_kafka_transport_ssl_clear_error w) t) r stack
                512) as [[u2 w2] s2].
    cbn [fst snd] in F. destruct F as [[= -> ->] Fs].
    destruct (Z.eqb_spec u2 (-1)) as [Hu|Hu]; [|reflexivity].
    rewrite (Fs Hu). reflexivity.
  - intros Hp q errno. apply Z.eqb_neq in Hp. rewrite Hp. reflexivity.
Qed.

End EventFacts.

Section ConnectFacts.
Context {M : Messages} {L : OpenSSL} {B : Build} {SL : SessionLib}.

(** X21. [rd_kafka_transport_ssl_connect] starts the handshake only on a
    session that is fully set up. If [SSL_connect] was called, then
    [SSL_new] had made a session, [SSL_set_fd], called on that session
    with the socket of the transport, had not answered 0, and
    [rd_kafka_transport_ssl_set_endpoint_id], called in the state that
    [SSL_set_fd] left, had answered 0, so that with endpoint
    identification asked for the host name to verify was installed; and
    [SSL_connect] was called in the state that the endpoint set-up left,
    with the error queue emptied and [errno] set to 0, and the answer
    recorded is its answer there. *)
Theorem ssl_connect_guards_handshake
  (eid : rd_kafka_ssl_endpoint_id) (ctx : SSL_CTX) (rkb : rd_kafka_broker)
  (rktrans : rd_kafka_transport) (errstr : string) (errstr_size : nat)
  (called_in : tls SSL) (answer : Z) :
  let res := rd_kafka_transport_ssl_connect eid ctx rkb rktrans errstr
               errstr_size in
  let made := SSL_new ctx
                (mk_tls tt (rktrans_errq rktrans) (rktrans_errno rktrans)) in
  cn_connect res = Some (called_in, answer) ->
  tls_errq called_in = [] /\ tls_errno called_in = 0
  /\ answer = fst (SSL_connect called_in)
  /\ exists ssl : SSL,
       tls_ssl made = Some ssl
       /\ fst (SSL_set_fd (mk_tls ssl (tls_errq made) (tls_errno made))
                 (to_int (rktrans_s rktrans))) <> 0
       /\ exists ep : endpoint_result,
            cn_endpoint res = Some ep
            /\ ep = rd_kafka_transport_ssl_set_endpoint_id eid
                      (transport_world rktrans
                         (snd (SSL_set_fd
                                 (mk_tls ssl (tls_errq made) (tls_errno made))
                                 (to_int (rktrans_s rktrans)))))
                      errstr errstr_size
            /\ ep_ret ep = 0
            /\ called_in
               = mk_tls (tls_ssl (w_tls (ep_world ep))) [] 0
            /\ (eid <> RD_KAFKA_SSL_ENDPOINT_ID_NONE ->
                ep_host ep = Some (ep_name ep)).
Proof.
  cbn zeta. unfold rd_kafka_transport_ssl_connect, connect_fail.
  destruct (tls_ssl (SSL_new ctx
                       (mk_tls tt (rktrans_errq rktrans)
                          (rktrans_errno rktrans)))) as [ssl|];
    [|discriminate].
  destruct (SSL_set_fd _ _) as [r t2] eqn:Hfd.
  destruct (Z.eqb_spec r 0) as [Hr|Hr]; [discriminate|].
  pose proof (set_endpoint_id_kept eid (transport_world rktrans t2) errstr
                errstr_size) as K. cbn zeta in K.
  set (ep := rd_kafka_transport_ssl_set_endpoint_id eid
               (transport_world rktrans t2) errstr errstr_size) in *.
  destruct K as ((_ & _ & _ & _ & _ & Kr) & Kh).
  destruct (Z.eqb_spec (ep_ret ep) (-1)) as [Hm|Hm]; [discriminate|].
  assert (Hz : ep_ret ep = 0) by (destruct Kr as [(Hz & _)|(Hz & _)]; congruence).
  destruct (SSL_connect (w_tls (rd_kafka_transport_ssl_clear_error
                                  (ep_world ep)))) as [c t4] eqn:Hc.
  assert (Hgoal : forall x : tls SSL * Z,
             Some (w_tls (rd_kafka_transport_ssl_clear_error (ep_world ep)),
                   c) = Some x ->
             x = (called_in, answer) ->
             tls_errq called_in = [] /\ tls_errno called_in = 0
             /\ answer = fst (SSL_connect called_in)
             /\ exists ssl0 : SSL,
                  Some ssl = Some ssl0
                  /\ fst (r, t2) <> 0
                  /\ exists ep0 : endpoint_result,
                       Some ep = Some ep0
                       /\ ep0 = ep
                       /\ ep_ret ep0 = 0
                       /\ called_in
                          = mk_tls (tls_ssl (w_tls (ep_world ep0))) [] 0
                       /\ (eid <> RD_KAFKA_SSL_ENDPOINT_ID_NONE ->
                           ep_host ep0 = Some (ep_name ep0))).
  { intros x [= <-] [= <- <-].
    change (SSL_connect (mk_tls (tls_ssl (w_tls (ep_world ep))) [] 0))
      with (SSL_connect (w_tls (rd_kafka_transport_ssl_clear_error
                                  (ep_world ep)))).
    rewrite Hc. cbn.
    split; [reflexivity|]. split; [reflexivity|]. split; [reflexivity|].
    exists ssl. split; [reflexivity|]. split; [exact Hr|].
    exists ep. split; [reflexivity|]. split; [reflexivity|].
    split; [exact Hz|]. split; [reflexivity|].
    intros Hne. exact (Kh Hne Hz). }
  destruct (c =? 1).
  - cbn [cn_connect cn_endpoint]. intros H.
    destruct (Hgoal _ H eq_refl) as (G1 & G2 & G3 & s0 & G4 & G5 & G6).
    injection G4 as <-.
    split; [exact G1|]. split; [exact G2|]. split; [exact G3|].
    exists ssl. split; [reflexivity|]. rewrite Hfd.
    split; [exact G5|]. exact G6.
  - destruct (rd_kafka_transport_ssl_io_update _ _ _ _) as [[u w5] e'].
    cbn [cn_connect cn_endpoint]. intros H.
    destruct (Hgoal _ H eq_refl) as (G1 & G2 & G3 & s0 & G4 & G5 & G6).
    injection G4 as <-.
    split; [exact G1|]. split; [exact G2|]. split; [exact G3|].
    exists ssl. split; [reflexivity|]. rewrite Hfd.
    split; [exact G5|]. exact G6.
Qed.

(** X22. The ways [rd_kafka_transport_ssl_connect] ends. It answers 0 or
    -1 and never fails the broker: what the broker was told is as it was,
    or has [rd_kafka_transport_connect_done] added, which happens exactly
    when [SSL_connect] answered 1, and the call then answers 0. The
    transport is left without a session exactly when [SSL_new] made none:
    a session made before a later failure stays with the transport. When
    [SSL_new] or [SSL_set_fd] fails, the call answers -1 without calling
    [SSL_connect] and the error queue is left empty. With a
    capacity above 0, the diagnostic of a call that answers -1 is shorter
    than [errstr_size]. *)
Theorem ssl_connect_outcomes
  (eid : rd_kafka_ssl_endpoint_id) (ctx : SSL_CTX) (rkb : rd_kafka_broker)
  (rktrans : rd_kafka_transport) (errstr : string) (errstr_size : nat) :
  let made :=
    SSL_new ctx
      (mk_tls tt (rktrans_errq rktrans) (rktrans_errno rktrans)) in
  let res := rd_kafka_transport_ssl_connect eid ctx rkb rktrans errstr
               errstr_size in
  (cn_ret res = 0 \/ cn_ret res = -1)
  /\ (rktrans_notes (cn_trans res) = rktrans_notes rktrans
      /\ (forall (t : tls SSL) (c : Z),
             cn_connect res = Some (t, c) -> c <> 1)
      \/ rktrans_notes (cn_trans res)
         = rktrans_notes rktrans ++ [ConnectDone]
         /\ cn_ret res = 0
         /\ exists t : tls SSL, cn_connect res = Some (t, 1))
  /\ (rktrans_ssl (cn_trans res) = None <-> tls_ssl made = None)
  /\ rktrans_s (cn_trans res) = rktrans_s rktrans
  /\ (tls_ssl made = None
      \/ (exists ssl : SSL,
            tls_ssl made = Some ssl
            /\ fst (SSL_set_fd (mk_tls ssl (tls_errq made) (tls_errno made))
                      (to_int (rktrans_s rktrans))) = 0) ->
      cn_ret res = -1 /\ cn_connect res = None
      /\ rktrans_errq (cn_trans res) = [])
  /\ (cn_ret res = -1 -> (0 < errstr_size)%nat ->
      (String.length (cn_errstr res) < errstr_size)%nat).
Proof.
  cbn zeta. unfold rd_kafka_transport_ssl_connect, connect_fail.
  set (made := SSL_new ctx
                 (mk_tls tt (rktrans_errq rktrans) (rktrans_errno rktrans))).
  destruct (tls_ssl made) as [ssl|] eqn:Hnew.
  2:{ rewrite !rd_kafka_ssl_error_closed.
      cbn [cn_ret cn_trans cn_errstr cn_connect rktrans_notes rktrans_ssl
             rktrans_s rktrans_errq se_errstr se_queue].
      split; [right; reflexivity|].
      split; [left; split; [reflexivity|discriminate]|].
      split; [split; reflexivity|]. split; [reflexivity|].
      split; [intros _; repeat split|].
      intros _ Hpos. apply rd_snprintf_bound. exact Hpos. }
  destruct (SSL_set_fd (mk_tls ssl (tls_errq made) (tls_errno made))
              (to_int (rktrans_s rktrans))) as [r t2] eqn:Hfd.
  destruct (Z.eqb_spec r 0) as [Hr|Hr].
  { rewrite !rd_kafka_ssl_error_closed.
    cbn [cn_ret cn_trans cn_errstr cn_connect rktrans_notes rktrans_ssl
           rktrans_s rktrans_errq se_errstr se_queue].
    split; [right; reflexivity|].
    split; [left; split; [reflexivity|discriminate]|].
    split; [split; discriminate|]. split; [reflexivity|].
    split; [intros _; repeat split|].
    intros _ Hpos. apply rd_snprintf_bound. exact Hpos. }
  assert (Hnofail :
            ~ (Some ssl = None
               \/ exists ssl0 : SSL,
                    Some ssl = Some ssl0
                    /\ fst (SSL_set_fd
                              (mk_tls ssl0 (tls_errq made) (tls_errno made))
                              (to_int (rktrans_s rktrans))) = 0)).
  { intros [N|(ssl0 & [= <-] & Hz)]; [discriminate|].
    rewrite Hfd in Hz. cbn in Hz. contradiction. }
  pose proof (set_endpoint_id_kept eid (transport_world rktrans t2) errstr
                errstr_size) as K. cbn zeta in K.
  set (ep := rd_kafka_transport_ssl_set_endpoint_id eid
               (transport_world rktrans t2) errstr errstr_size) in *.
  destruct K as ((_ & _ & Kn & _ & _ & Kr) & _).
  cbn [transport_world w_notes] in Kn.
  destruct (Z.eqb_spec (ep_ret ep) (-1)) as [Hm|Hm].
  { cbn [cn_ret cn_trans cn_errstr cn_connect world_transport rktrans_notes
           rktrans_ssl rktrans_s].
    split; [right; reflexivity|].
    split; [left; split; [exact Kn|discriminate]|].
    split; [split; discriminate|]. split; [reflexivity|].
    split; [intros Hf; contradiction|].
    intros _ Hpos. destruct Kr as [(Hz & _)|(_ & Hfit)]; [lia|].
    apply Hfit. exact Hpos. }
  destruct (SSL_connect (w_tls (rd_kafka_transport_ssl_clear_error
                                  (ep_world ep)))) as [c t4].
  destruct (Z.eqb_spec c 1) as [Hc|Hc].
  - cbn [cn_ret cn_trans cn_errstr cn_connect world_transport rktrans_notes
           rktrans_ssl rktrans_s add_note set_tls
           rd_kafka_transport_ssl_clear_error w_notes].
    split; [left; reflexivity|].
    split; [right; rewrite Kn; subst c; repeat split; eexists; reflexivity|].
    split; [split; discriminate|]. split; [reflexivity|].
    split; [intros Hf; contradiction|]. intros Hneg. discriminate.
  - pose proof (io_update_cases
                  (set_tls (rd_kafka_transport_ssl_clear_error (ep_world ep))
                     t4) c (ep_errstr ep) errstr_size) as F.
    cbn zeta in F.
    destruct (rd_kafka_transport_ssl_io_update
                (set_tls (rd_kafka_transport_ssl_clear_error (ep_world ep))
                   t4) c (ep_errstr ep) errstr_size) as [[u w5] e'].
    cbn [fst snd] in F.
    destruct F as (Fn & _ & _ & _ & Fu).
    cbn [set_tls rd_kafka_transport_ssl_clear_error w_notes] in Fn.
    cbn [cn_ret cn_trans cn_errstr cn_connect world_transport rktrans_notes
           rktrans_ssl rktrans_s].
    split; [destruct (u =? -1); [right|left]; reflexivity|].
    split; [left; split; [congruence|intros t c0 [= _ <-]; exact Hc]|].
    split; [split; discriminate|]. split; [reflexivity|].
    split; [intros Hf; contradiction|].
    destruct Fu as [(-> & _)|(-> & _ & _ & Ffit & _)];
      cbn [Z.eqb Pos.eqb]; [discriminate|].
    intros _ Hpos. apply Ffit. exact Hpos.
Qed.

End ConnectFacts.

(** ** Further properties: the Windows root store *)

Section RootCertFacts.
Context {L : OpenSSL} {WC : WinCrypt}.

Lemma enum_certs_counts (certs : list (list Byte.byte)) :
  forall (store : TRUST) (cnt fail_cnt : Z),
    0 <= fail_cnt <= cnt ->
    cnt + Z.of_nat (List.length certs) <= INT_MAX ->
    let out := Windows.enum_certs certs store cnt fail_cnt in
    fst (fst out) = cnt + Z.of_nat (List.length certs)
    /\ fail_cnt <= snd (fst out) <= fst (fst out)
    /\ ((forall (s : TRUST) (der : list Byte.byte),
            In der certs -> fst (d2i_X509 s der) = None) ->
        snd (fst out) = fail_cnt + Z.of_nat (List.length certs))
    /\ ((forall (s : TRUST) (x : X509),
            fst (X509_STORE_add_cert s x) = 0) ->
        snd (fst out) = fail_cnt + Z.of_nat (List.length certs))
    /\ ((forall (s : TRUST) (der : list Byte.byte),
            In der certs -> fst (d2i_X509 s der) <> None) ->
        (forall (s : TRUST) (x : X509),
            fst (X509_STORE_add_cert s x) <> 0) ->
        snd (fst out) = fail_cnt).
Proof.
  induction certs as [|der rest IH]; intros store cnt fail_cnt Hc Hmax.
  - cbn. repeat split; try lia; intros; lia.
  - cbn [Windows.enum_certs List.length] in *.
    assert (Hcnt : to_int (cnt + 1) = cnt + 1)
      by (apply to_int_small; unfold INT_MAX in *; lia).
    assert (Hfail : to_int (fail_cnt + 1) = fail_cnt + 1)
      by (apply to_int_small; unfold INT_MAX in *; lia).
    rewrite Hcnt, Hfail.
    destruct (d2i_X509 store der) as [[x509|] store1] eqn:Hd.
    + destruct (X509_STORE_add_cert store1 x509) as [r store2] eqn:Ha.
      destruct (Z.eqb_spec r 0) as [Hr|Hr].
      * specialize (IH store2 (cnt + 1) (fail_cnt + 1) ltac:(lia)
                      ltac:(lia)).
        cbn zeta in IH. destruct IH as (I1 & I2 & I3 & I4 & I5).
        split; [lia|]. split; [lia|]. split; [|split].
        -- intros Hall. specialize (Hall store der (or_introl eq_refl)).
           rewrite Hd in Hall. discriminate.
        -- intros Hall. rewrite I4 by exact Hall. lia.
        -- intros _ Hadd. specialize (Hadd store1 x509).
           rewrite Ha in Hadd. cbn in Hadd. contradiction.
      * specialize (IH store2 (cnt + 1) fail_cnt ltac:(lia) ltac:(lia)).
        cbn zeta in IH. destruct IH as (I1 & I2 & I3 & I4 & I5).
        split; [lia|]. split; [lia|]. split; [|split].
        -- intros Hall. specialize (Hall store der (or_introl eq_refl)).
           rewrite Hd in Hall. discriminate.
        -- intros Hall. specialize (Hall store1 x509).
           rewrite Ha in Hall. cbn in Hall. contradiction.
        -- intros Hp Hadd. apply I5; [|exact Hadd].
           intros s d Hin. apply Hp. right. exact Hin.
    + specialize (IH store1 (cnt + 1) (fail_cnt + 1) ltac:(lia) ltac:(lia)).
      cbn zeta in IH. destruct IH as (I1 & I2 & I3 & I4 & I5).
      split; [lia|]. split; [lia|]. split; [|split].
      * intros Hall. rewrite I3; [lia|].
        intros s d Hin. apply Hall. right. exact Hin.
      * intros Hall. rewrite I4 by exact Hall. lia.
      * intros Hp _. specialize (Hp store der (or_introl eq_refl)).
        rewrite Hd in Hp. contradiction.
Qed.

(** X23. [rd_kafka_ssl_win_load_root_certs] answers 0 or -1, and 0 only
    if the Root store could be opened and holds a certificate. For a
    store of at most [INT_MAX] certificates: it answers -1 when the store
    is empty, when no certificate can be decoded, and when the trust
    store takes none; it answers 0 when the store is not empty and every
    certificate is decoded and taken. A certificate that fails does not
    end the enumeration: every certificate is counted. *)
Theorem win_load_root_certs_result
  (w_store : option (list (list Byte.byte))) (store : TRUST) :
  let out := Windows.rd_kafka_ssl_win_load_root_certs w_store store in
  (fst out = 0 \/ fst out = -1)
  /\ (w_store = None -> out = (-1, store))
  /\ (w_store = Some [] -> out = (-1, store))
  /\ (forall certs : list (list Byte.byte),
         w_store = Some certs ->
         Z.of_nat (List.length certs) <= INT_MAX ->
         fst (fst (Windows.enum_certs certs store 0 0))
         = Z.of_nat (List.length certs)
         /\ ((forall (s : TRUST) (der : list Byte.byte),
                 In der certs -> fst (d2i_X509 s der) = None) ->
             fst out = -1)
         /\ ((forall (s : TRUST) (x : X509),
                 fst (X509_STORE_add_cert s x) = 0) ->
             fst out = -1)
         /\ (certs <> [] ->
             (forall (s : TRUST) (der : list Byte.byte),
                 In der certs -> fst (d2i_X509 s der) <> None) ->
             (forall (s : TRUST) (x : X509),
                 fst (X509_STORE_add_cert s x) <> 0) ->
             fst out = 0)).
Proof.
  cbn zeta. unfold Windows.rd_kafka_ssl_win_load_root_certs.
  split; [|split; [|split]].
  - destruct w_store as [certs|]; [|right; reflexivity].
    destruct (Windows.enum_certs certs store 0 0) as [[cnt fail_cnt] s'].
    destruct (to_int (cnt - fail_cnt) =? 0); [right|left]; reflexivity.
  - intros ->. reflexivity.
  - intros ->. reflexivity.
  - intros certs -> Hmax.
    pose proof (enum_certs_counts certs store 0 0 ltac:(lia) ltac:(lia))
      as F. cbn zeta in F.
    destruct (Windows.enum_certs certs store 0 0) as [[cnt fail_cnt] s'].
    cbn [fst snd] in *. destruct F as (F1 & F2 & F3 & F4 & F5).
    split; [lia|]. split; [|split].
    + intros Hall. rewrite (F3 Hall), F1.
      replace (0 + Z.of_nat (List.length certs)
               - (0 + Z.of_nat (List.length certs))) with 0 by lia.
      reflexivity.
    + intros Hall. rewrite (F4 Hall), F1.
      replace (0 + Z.of_nat (List.length certs)
               - (0 + Z.of_nat (List.length certs))) with 0 by lia.
      reflexivity.
    + intros Hne Hp Ha. rewrite (F5 Hp Ha), F1.
      rewrite to_int_small
        by (unfold INT_MAX in *; destruct certs; cbn in *; lia).
      destruct (Z.eqb_spec (0 + Z.of_nat (List.length certs) - 0) 0) as [E|E];
        [|reflexivity].
      destruct certs; [contradiction|cbn in E; lia].
Qed.

End RootCertFacts.

Section EventEdge.
Context {M : Messages} {L : OpenSSL}.

(** X24. [rd_kafka_transport_ssl_io_event] classifies the result of its
    zero-length [SSL_write] whatever it is. When [SSL_get_error] reports
    [SSL_ERROR_NONE] for it and the write queued no error, the call still
    fails the broker, with the reason ["No error"], and answers -1. *)
Theorem ssl_io_event_fails_without_error (w : world) (events : Z)
  (stack : string) :
  Z.land events POLLOUT <> 0 ->
  let w0 := rd_kafka_transport_ssl_clear_error w in
  let wr := SSL_write (w_tls w0) [] 0 in
  SSL_get_error (snd wr) (fst wr) = SSL_ERROR_NONE ->
  tls_errq (snd wr) = [] ->
  rd_kafka_transport_ssl_io_event w events stack
  = (-1,
     add_note (set_tls w0 (snd wr))
       (BrokerFail LOG_ERR RD_KAFKA_RESP_ERR__TRANSPORT "No error")).
Proof.
  intros Hp. cbn zeta. unfold rd_kafka_transport_ssl_io_event.
  apply Z.eqb_neq in Hp. rewrite Hp. cbn [negb].
  destruct (SSL_write (w_tls (rd_kafka_transport_ssl_clear_error w)) [] 0)
    as [r t]. cbn [fst snd]. intros Hnone Hq.
  unfold rd_kafka_transport_ssl_io_update.
  cbn [set_tls w_tls]. rewrite Hnone.
  unfold SSL_ERROR_NONE, SSL_ERROR_WANT_READ, SSL_ERROR_WANT_WRITE,
    SSL_ERROR_WANT_CONNECT, SSL_ERROR_SYSCALL, SSL_ERROR_ZERO_RETURN.
  cbn [Z.eqb Pos.eqb orb].
  unfold ssl_error_in_world. cbn [set_tls w_tls w_rkb].
  rewrite rd_kafka_ssl_error_closed, Hq.
  cbn [se_queue se_logs se_errstr removelast map add_logs set_tls w_tls
         w_rkb w_events w_log w_notes Z.eqb Pos.eqb add_note].
  unfold add_logs, add_note, set_tls, rd_kafka_transport_ssl_clear_error.
  cbn [w_tls w_rkb w_events w_log w_notes rd_snprintf substring].
  rewrite app_nil_r. destruct t as [ssl q en]. cbn in Hq. subst q.
  reflexivity.
Qed.

End EventEdge.

(** ** Further examples on the concrete libraries *)

(** A handshake that the peer refuses with an alert. *)
Lemma ssl_handshake_failure_reason_example :
  fst (SSL_do_handshake (w_tls demo_refusing_world)) <> 1
  /\ fst (rd_kafka_transport_ssl_handshake (M:=demo_messages) true
            demo_refusing_world) = -1
  /\ w_notes (snd (rd_kafka_transport_ssl_handshake (M:=demo_messages) true
                     demo_refusing_world))
     = [BrokerFail LOG_ERR RD_KAFKA_RESP_ERR__SSL
          "SSL handshake failed: s3_pkt.c:1493: error:14094412: sslv3 alert unexpected message: client authentication might be required (see broker log)"].
Proof.
  assert (Hr : fst (SSL_do_handshake (w_tls demo_refusing_world)) <> 1)
    by (cbn; lia).
  assert (Hout : fst (rd_kafka_transport_ssl_handshake (M:=demo_messages)
                        true demo_refusing_world) = -1)
    by reflexivity.
  split; [exact Hr|]. split; [exact Hout|].
  destruct (ssl_handshake_failure_reason (M:=demo_messages) true
              demo_refusing_world Hr Hout)
    as (_ & [(_ & Hnotes)|(Hno & _)]).
  - exact Hnotes.
  - exfalso. apply Hno.
    exists "s3_pkt.c:1493: error:14094412: sslv3 alert "%string,
      EmptyString.
    reflexivity.
Defined.

(** A slice of two segments sent through a writer that takes at most 3
    bytes per call. *)
Lemma ssl_send_within_slice_example :
  write_within_request (L:=demo_openssl)
  /\ exists res : io_result rd_slice,
       rd_kafka_transport_ssl_send (M:=demo_messages) demo_world
         [[Byte.x01; Byte.x02; Byte.x03; Byte.x04]; [Byte.x05]] EmptyString
         512 = Returned res
       /\ io_ret res <= 5.
Proof.
  assert (Hc : write_within_request (L:=demo_openssl))
    by (intros t p num; cbn [SSL_write demo_openssl fst]; lia).
  split; [exact Hc|].
  destruct (ssl_send_within_slice (M:=demo_messages) demo_world
              [[Byte.x01; Byte.x02; Byte.x03; Byte.x04]; [Byte.x05]]
              EmptyString 512 Hc)
    as (res & Hres & _ & _ & Hle & _).
  exists res. split; [exact Hres|exact Hle].
Defined.

(** The construction of a context with a keystore that cannot be opened:
    no error is queued, and the diagnostic ends in ["No error"]. *)
Lemma ctx_init_failure_text_example :
  (0 < 512)%nat /\ Z.of_nat 512 <= INT_MAX
  /\ ci_errstr (rd_kafka_ssl_ctx_init (M:=demo_messages) (B:=demo_build)
                  demo_conf tt EmptyString 512)
     = "Failed to open ssl.keystore.location: missing.p12: errno 2No error"%string.
Proof.
  assert (Hpos : (0 < 512)%nat) by lia.
  assert (Hmax : Z.of_nat 512 <= INT_MAX) by (unfold INT_MAX; lia).
  split; [exact Hpos|]. split; [exact Hmax|].
  destruct (ctx_init_failure_text (M:=demo_messages) (B:=demo_build)
              demo_conf tt EmptyString 512 Hpos Hmax) as [_ Hcerts].
  destruct (Hcerts (tt : @E demo_openssl demo_certlib)
              (@mk_certs_failure demo_openssl demo_certlib tt
                 "Failed to open ssl.keystore.location: missing.p12: errno 2"
                 [(UseKeyFile, true); (OpenKeystore, false)])
              eq_refl eq_refl) as (_ & _ & Htext).
  exact Htext.
Defined.

(** On a build against OpenSSL 1.0.1e a curve list and a list of signature
    algorithms change nothing. *)
Lemma ctx_init_ignores_lists_example :
  (OPENSSL_VERSION_NUMBER (Build:=demo_old_build) < 0x1000200f
   \/ LIBRESSL (Build:=demo_old_build) = true)
  /\ rd_kafka_ssl_ctx_init (M:=demo_messages) (B:=demo_old_build)
       (with_curves_sigalgs demo_conf (Some "P-256"%string)
          (Some "ECDSA+SHA256"%string)) tt EmptyString 512
     = rd_kafka_ssl_ctx_init (M:=demo_messages) (B:=demo_old_build)
         demo_conf tt EmptyString 512.
Proof.
  assert (Hold : OPENSSL_VERSION_NUMBER (Build:=demo_old_build) < 0x1000200f
                 \/ LIBRESSL (Build:=demo_old_build) = true)
    by (left; cbn; lia).
  split; [exact Hold|].
  exact (ctx_init_ignores_lists_on_old_builds (M:=demo_messages)
           (B:=demo_old_build) demo_conf (Some "P-256"%string)
           (Some "ECDSA+SHA256"%string) tt EmptyString 512 Hold).
Defined.

(** A connection that is up at once, with endpoint identification. *)
Lemma ssl_connect_guards_handshake_example :
  cn_connect
    (rd_kafka_transport_ssl_connect (M:=demo_messages) (B:=demo_build)
       (SL:=demo_session) RD_KAFKA_SSL_ENDPOINT_ID_HTTPS tt
       (rktrans_rkb demo_transport) demo_transport EmptyString 512)
  = Some (mk_tls (0 : @SSL demo_openssl) [] 0, 1)
  /\ fst (SSL_connect (SessionLib:=demo_session)
            (mk_tls (0 : @SSL demo_openssl) [] 0)) = 1
  /\ fst (SSL_set_fd (SessionLib:=demo_session)
            (mk_tls (0 : @SSL demo_openssl) (rktrans_errq demo_transport)
               (rktrans_errno demo_transport))
            (to_int (rktrans_s demo_transport))) = 1
  /\ exists ep : endpoint_result,
       cn_endpoint
         (rd_kafka_transport_ssl_connect (M:=demo_messages) (B:=demo_build)
            (SL:=demo_session) RD_KAFKA_SSL_ENDPOINT_ID_HTTPS tt
            (rktrans_rkb demo_transport) demo_transport EmptyString 512)
       = Some ep
       /\ ep_ret ep = 0
       /\ ep_host ep = Some (ep_name ep).
Proof.
  assert (Hcalled :
            cn_connect
              (rd_kafka_transport_ssl_connect (M:=demo_messages)
                 (B:=demo_build) (SL:=demo_session)
                 RD_KAFKA_SSL_ENDPOINT_ID_HTTPS tt
                 (rktrans_rkb demo_transport) demo_transport EmptyString 512)
            = Some (mk_tls (0 : @SSL demo_openssl) [] 0, 1))
    by reflexivity.
  split; [exact Hcalled|].
  destruct (ssl_connect_guards_handshake (M:=demo_messages) (B:=demo_build)
              (SL:=demo_session) RD_KAFKA_SSL_ENDPOINT_ID_HTTPS tt
              (rktrans_rkb demo_transport) demo_transport EmptyString 512
              (mk_tls (0 : @SSL demo_openssl) [] 0) 1 Hcalled)
    as (_ & _ & Hans & ssl & _ & _ & ep & Hep & _ & Hret & _ & Hhost).
  split; [symmetry; exact Hans|].
  split; [reflexivity|].
  exists ep. split; [exact Hep|]. split; [exact Hret|].
  apply Hhost. discriminate.
Defined.

(** A write event on a session whose zero-length write reports no
    error. *)
Lemma ssl_io_event_fails_without_error_example :
  Z.land POLLOUT POLLOUT <> 0
  /\ SSL_get_error
       (snd (SSL_write
               (w_tls (rd_kafka_transport_ssl_clear_error
                         demo_refusing_world)) [] 0))
       (fst (SSL_write
               (w_tls (rd_kafka_transport_ssl_clear_error
                         demo_refusing_world)) [] 0))
     = SSL_ERROR_NONE
  /\ rd_kafka_transport_ssl_io_event (M:=demo_messages) demo_refusing_world
       POLLOUT EmptyString
     = (-1,
        add_note demo_refusing_world
          (BrokerFail LOG_ERR RD_KAFKA_RESP_ERR__TRANSPORT "No error")).
Proof.
  assert (Hp : Z.land POLLOUT POLLOUT <> 0) by (cbn; lia).
  assert (Hnone :
            SSL_get_error
              (snd (SSL_write
                      (w_tls (rd_kafka_transport_ssl_clear_error
                                demo_refusing_world)) [] 0))
              (fst (SSL_write
                      (w_tls (rd_kafka_transport_ssl_clear_error
                                demo_refusing_world)) [] 0))
            = SSL_ERROR_NONE) by reflexivity.
  split; [exact Hp|]. split; [exact Hnone|].
  exact (ssl_io_event_fails_without_error (M:=demo_messages)
           demo_refusing_world POLLOUT EmptyString Hp Hnone eq_refl).
Defined.

Section NoKey.
Context {M : Messages} {L : OpenSSL} {CL : CertLib} {B : Build}.

Lemma within_no_key (lo : nat) (tr : list (cert_step * bool)) :
  within lo 6 tr -> key_installed tr = false /\ check_ran tr = false.
Proof.
  intros Hw. unfold key_installed, check_ran.
  induction Hw as [|[step ok] tr Hx Hw IH]; [split; reflexivity|].
  cbn [existsb fst snd]. destruct IH as [-> ->].
  destruct step; cbn in Hx; try lia; split; reflexivity.
Qed.

(** X25. A configuration without any private key source (no in-memory
    key, key file, PEM key or keystore) never reaches the key check:
    [rd_kafka_ssl_set_certs] takes only CA, CRL and certificate steps,
    installs no key, does not call [SSL_CTX_check_private_key], and
    answers 0 exactly when none of those steps failed. *)
Theorem set_certs_without_key (conf : ssl_conf) (ctx : E) (errstr : string)
  (errstr_size : nat) :
  ssl_key conf = None -> ssl_key_location conf = None ->
  ssl_key_pem conf = None -> ssl_keystore_location conf = None ->
  let res := rd_kafka_ssl_set_certs conf ctx errstr errstr_size in
  Forall (fun x => (step_rank (fst x) < 6)%nat) (sc_trace res)
  /\ key_installed (sc_trace res) = false
  /\ check_ran (sc_trace res) = false
  /\ (sc_ret res = 0 <-> load_failed (sc_trace res) = false).
Proof.
  intros Hk Hkl Hkp Hks. cbn zeta.
  pose proof (load_all_inv conf ctx) as Hinv.
  assert (Hext : extends 0 6 (certs_start ctx)
                   (load_all conf (certs_start ctx))).
  { unfold load_all.
    assert (Hid : forall (g : certs_state -> certs_run) (r : certs_run),
               (forall s : certs_state, g s = inl s) -> certs_bind r g = r).
    { intros g r Hg. destruct r; [apply Hg|reflexivity]. }
    rewrite (Hid (load_keystore conf))
      by (intros s; unfold load_keystore; rewrite Hks; reflexivity).
    rewrite (Hid (load_key_pem conf))
      by (intros s; unfold load_key_pem; rewrite Hkp; reflexivity).
    rewrite (Hid (load_key_location conf))
      by (intros s; unfold load_key_location; rewrite Hkl; reflexivity).
    rewrite (Hid (load_key conf))
      by (intros s; unfold load_key; rewrite Hk; reflexivity).
    apply (extends_bind 0 4 6);
      [lia|lia| |exact (load_cert_pem_extends conf)].
    apply (extends_bind 0 3 4);
      [lia|lia| |exact (load_cert_location_extends conf)].
    apply (extends_bind 0 2 3); [lia|lia| |exact (load_cert_extends conf)].
    apply (extends_bind 0 1 2);
      [lia|lia|apply load_ca_extends|exact (load_crl_extends conf)]. }
  destruct Hext as (new & Ht & _ & Hw & _).
  cbn [certs_start cs_trace app] in Ht.
  destruct (within_no_key 0 new Hw) as [Hnk Hnc].
  unfold rd_kafka_ssl_set_certs.
  destruct (load_all conf (certs_start ctx)) as [s|f];
    cbn [run_trace certs_bind certs_run_inv] in *.
  - destruct Hinv as (Hl & _ & _ & Hpk). subst new.
    unfold check_private_key. rewrite Hpk, Hnk.
    cbn [certs_finish sc_trace sc_ret].
    split; [eapply Forall_impl; [|exact Hw]; cbn; intros; lia|].
    split; [exact Hnk|]. split; [exact Hnc|].
    split; [intros _; exact Hl|reflexivity].
  - destruct Hinv as (Hl & _). subst new.
    cbn [certs_finish sc_trace sc_ret].
    split; [eapply Forall_impl; [|exact Hw]; cbn; intros; lia|].
    split; [exact Hnk|]. split; [exact Hnc|].
    rewrite Hl. split; discriminate.
Qed.

End NoKey.

(** A client without key, with a CA file and a certificate file. *)
Lemma set_certs_without_key_example :
  ssl_key demo_conf_nokey = None
  /\ ssl_key_location demo_conf_nokey = None
  /\ ssl_key_pem demo_conf_nokey = None
  /\ ssl_keystore_location demo_conf_nokey = None
  /\ check_ran
       (sc_trace (rd_kafka_ssl_set_certs (M:=demo_messages) (B:=demo_build)
                    demo_conf_nokey tt EmptyString 512)) = false
  /\ sc_trace (rd_kafka_ssl_set_certs (M:=demo_messages) (B:=demo_build)
                 demo_conf_nokey tt EmptyString 512)
     = [(LoadCALocation, true); (UseCertFile, true)].
Proof.
  split; [reflexivity|]. split; [reflexivity|]. split; [reflexivity|].
  split; [reflexivity|].
  destruct (set_certs_without_key (M:=demo_messages) (B:=demo_build)
              demo_conf_nokey tt EmptyString 512 eq_refl eq_refl eq_refl
              eq_refl) as (_ & _ & Hran & _).
  split; [exact Hran|reflexivity].
Defined.

(** The last error of a queue of two. *)
Lemma ssl_last_error_str_example :
  rd_kafka_ssl_last_error_str (ES:=demo_error_strings)
    [demo_err; demo_alert]
  = "336151570:SSL routines:ssl3_read_bytes:s3_pkt.c:1493: sslv3 alert unexpected message"%string.
Proof. reflexivity. Qed.

(** A Root store of two certificates of which one decodes. *)
Lemma win_load_root_certs_example :
  Windows.rd_kafka_ssl_win_load_root_certs (WC:=demo_wincrypt)
    (Some [[]; [Byte.x30]]) 0%nat
  = (0, 1%nat)
  /\ Windows.enum_certs (WC:=demo_wincrypt) [[]; [Byte.x30]] 0%nat 0 0
     = (2, 1, 1%nat).
Proof. split; reflexivity. Qed.
